(** * BarGen: encoders and rotation controllers

    A shallow embedding of [js/generators/generators.js],
    [js/controllers/dm.controller.js] and [js/controllers/gs1.controller.js],
    with the properties of the encoding engine and of the rotation/playback
    state machine stated over it.

    JavaScript values are modelled as follows: a [string] is a Rocq [string]
    (a sequence of 8-bit code units), a [number] that can be fractional is a
    binary64 [float] (Rocq's primitive floats are IEEE 754 doubles, as
    JavaScript's numbers are), array indices and counters are [nat] or [Z],
    [undefined] is [None]. *)

From Stdlib Require Import ZArith List String Ascii Bool Lia Floats.
From Stdlib Require Import DecimalString.
Import ListNotations.

Open Scope string_scope.

(** ** JavaScript built-ins used by the program *)

Module JS.

(** *** Strings *)

Definition is_digit (c : ascii) : bool :=
  let n := nat_of_ascii c in (48 <=? n)%nat && (n <=? 57)%nat.

(** [ /^\d+$/.test(s) ] restricted to one character class: every code unit
    is an ASCII digit. *)
Fixpoint all_digits (s : string) : bool :=
  match s with
  | EmptyString => true
  | String c r => is_digit c && all_digits r
  end.

(** [s.replace(/\D/g, '')] *)
Fixpoint strip_non_digits (s : string) : string :=
  match s with
  | EmptyString => EmptyString
  | String c r => if is_digit c then String c (strip_non_digits r)
                  else strip_non_digits r
  end.

(** White space and line terminators of ECMAScript that fit in one 8-bit
    code unit: TAB, LF, VT, FF, CR, SP and NBSP. *)
Definition is_space (c : ascii) : bool :=
  let n := nat_of_ascii c in
  ((9 <=? n)%nat && (n <=? 13)%nat) || (n =? 32)%nat || (n =? 160)%nat.

Fixpoint trim_start (s : string) : string :=
  match s with
  | EmptyString => EmptyString
  | String c r => if is_space c then trim_start r else s
  end.

(** Removes the trailing white space; the fold keeps a suffix only once it
    holds something that is not white space. *)
Fixpoint trim_end (s : string) : string :=
  match s with
  | EmptyString => EmptyString
  | String c r =>
      match trim_end r with
      | EmptyString => if is_space c then EmptyString else String c EmptyString
      | r' => String c r'
      end
  end.

(** [s.trim()] *)
Definition trim (s : string) : string := trim_end (trim_start s).

(** [s.indexOf(c)] for a one-character needle; [None] stands for [-1]. *)
Fixpoint indexOf (c : ascii) (s : string) : option nat :=
  match s with
  | EmptyString => None
  | String d r => if Ascii.eqb d c then Some 0%nat
                  else option_map S (indexOf c r)
  end.

Fixpoint repeat_char (c : ascii) (n : nat) : string :=
  match n with
  | O => EmptyString
  | S k => String c (repeat_char c k)
  end.

(** [s.charAt(i)]: the empty string out of range. *)
Definition charAt (s : string) (i : nat) : string :=
  match String.get i s with
  | Some c => String c EmptyString
  | None => EmptyString
  end.

(** A falsy string is [undefined] or the empty string. *)
Definition truthy (o : option string) : option string :=
  match o with
  | Some EmptyString => None
  | _ => o
  end.

(** Decimal digits of an integer, as [String(n)] prints an integer. *)
Definition string_of_Z (z : Z) : string :=
  NilZero.string_of_int (Z.to_int z).

Definition string_of_nat (n : nat) : string := string_of_Z (Z.of_nat n).

(** [s.slice(b)] for an offset [b] that is not negative. *)
Definition slice_from (s : string) (b : nat) : string :=
  substring b (String.length s - b) s.

(** [s.slice(b, e)] and [s.substring(b, e)] for [0 <= b <= e]. *)
Definition slice (s : string) (b e : nat) : string := substring b (e - b) s.

(** [s.replace(/c/g, r)] for a one-character pattern. *)
Fixpoint replace_char (c : ascii) (r : string) (s : string) : string :=
  match s with
  | EmptyString => EmptyString
  | String d rest =>
      if Ascii.eqb d c then r ++ replace_char c r rest
      else String d (replace_char c r rest)
  end.

(** [(s.match(/c/g) || []).length] for a one-character pattern. *)
Fixpoint count_char (c : ascii) (s : string) : nat :=
  match s with
  | EmptyString => 0
  | String d rest => (if Ascii.eqb d c then 1 else 0) + count_char c rest
  end.

(** *** Numbers (binary64) *)

Open Scope Z_scope.

(** Every finite double is an integer multiple of 2^-1074; values and the
    midpoints between neighbouring doubles are held exactly as integers
    scaled by [scale] = 2^1075. *)
Definition scale : Z := 2 ^ 1075.

Definition scaled (x : float) : Z :=
  match Prim2SF x with
  | S754_finite s m e =>
      let v := Z.pos m * 2 ^ (e + 1075) in if s then - v else v
  | S754_infinity s => if s then - 2 ^ (1024 + 1075) else 2 ^ (1024 + 1075)
  | _ => 0
  end.

Definition mantissa_even (x : float) : bool :=
  match Prim2SF x with
  | S754_finite _ m _ => Z.even (Z.pos m)
  | _ => true
  end.

(** [Math.round(x)]: the integer closest to [x], ties towards +infinity;
    NaN and the infinities are returned as they are. The integer is exact,
    and so is its conversion back (below 2^52 in magnitude it has at most 53
    bits, above it [x] is already an integer). The sign of a zero result is
    not kept; no operation of the program observes it. *)
Definition round_Z (x : float) : Z := (2 * scaled x + scale) / (2 * scale).

Definition of_Z (z : Z) : float :=
  SF2Prim (binary_normalize prec emax z 0 false).

Definition Math_round (x : float) : float :=
  if PrimFloat.is_nan x || PrimFloat.is_infinity x then x
  else of_Z (round_Z x).

(** [Math.pow(10, n)] for a non-negative integer [n]. Up to 10^22 the power
    is a double and the engines return it. Beyond, ECMAScript leaves the
    approximation to the engine and the result need not be the closest
    double ([Math.pow(10, 26)] is 9.999999999999999e+25 in V8): there the
    value is [beyond n], which the embedding reads from the environment. *)
Definition pow10 (beyond : nat -> float) (n : nat) : float :=
  if (n <=? 22)%nat then of_Z (10 ^ Z.of_nat n) else beyond n.

(** [x || 0] on an optional number: [undefined], NaN and the zeros are
    falsy. *)
Definition or_zero (o : option float) : float :=
  match o with
  | Some x => if PrimFloat.is_nan x || PrimFloat.is_zero x then 0%float else x
  | None => 0%float
  end.

(** **** Number::toString (radix 10)

    ECMAScript: let n, k, s be integers with k >= 1, 10^(k-1) <= s < 10^k,
    s * 10^(n-k) rounding to x, and k as small as possible; when several s
    qualify, the one closest to x. [X], [L] and [H] are x and the two
    midpoints bounding the reals that round to x, scaled by [scale]. *)

(** 10^n <= x, for x > 0. *)
Definition pow10_le (n : Z) (X : Z) : bool :=
  if 0 <=? n then 10 ^ n * scale <=? X else scale <=? X * 10 ^ (- n).

(** The n with 10^(n-1) <= x < 10^n, searched upwards from [n]. *)
Fixpoint magnitude (fuel : nat) (n : Z) (X : Z) : Z :=
  match fuel with
  | O => n
  | S f => if pow10_le n X then magnitude f (n + 1) X else n
  end.

(** Where the search starts: log10(2) < 0.30103, so the binary exponent
    gives a power of ten that is below x and at most three steps away. *)
Definition magnitude_start (X : Z) : Z :=
  (Z.log2 X - 1075) * 30103 / 100000 - 2.

Definition in_interval (incl : bool) (lo v hi : Z) : bool :=
  if incl then (lo <=? v) && (v <=? hi) else (lo <? v) && (v <? hi).

(** The shortest digits: for k = [k], [k]+1, ... tries the two integers
    around x * 10^(k-n). Returns (s, k). *)
Fixpoint shortest (fuel : nat) (k : Z) (n : Z) (incl : bool) (X L H : Z)
  : Z * Z :=
  let t := k - n in
  let up := if 0 <=? t then 10 ^ t else 1 in
  let dn := if 0 <=? t then 1 else 10 ^ (- t) in
  let s_lo := (X * up) / (scale * dn) in
  let s_hi := s_lo + 1 in
  let v c := c * dn * scale in
  let ok c := in_interval incl (L * up) (v c) (H * up) in
  let d c := Z.abs (v c - X * up) in
  match fuel with
  | O => (s_lo, k)
  | S f =>
      match ok s_lo, ok s_hi with
      | true, true =>
          if d s_lo <? d s_hi then (s_lo, k)
          else if d s_hi <? d s_lo then (s_hi, k)
          else if Z.even s_lo then (s_lo, k) else (s_hi, k)
      | true, false => (s_lo, k)
      | false, true => (s_hi, k)
      | false, false => shortest f (k + 1) n incl X L H
      end
  end.

Definition zeros (n : Z) : string := repeat_char "0" (Z.to_nat n).

Definition format_decimal (s k n : Z) : string :=
  let ds := string_of_Z s in
  if (k <=? n) && (n <=? 21) then ds ++ zeros (n - k)
  else if (0 <? n) && (n <=? 21) then
    substring 0 (Z.to_nat n) ds ++ "." ++
    substring (Z.to_nat n) (Z.to_nat (k - n)) ds
  else if (-6 <? n) && (n <=? 0) then "0." ++ zeros (- n) ++ ds
  else
    let e := n - 1 in
    let es := (if 0 <=? e then "+" else "-") ++ string_of_Z (Z.abs e) in
    if k =? 1 then ds ++ "e" ++ es
    else substring 0 1 ds ++ "." ++
         substring 1 (Z.to_nat (k - 1)) ds ++ "e" ++ es.

Definition toString_pos (x : float) : string :=
  let X := scaled x in
  let L := (scaled (PrimFloat.next_down x) + X) / 2 in
  let H := (X + scaled (PrimFloat.next_up x)) / 2 in
  let n := magnitude 8 (magnitude_start X) X in
  let '(s, k) := shortest 17 1 n (mantissa_even x) X L H in
  if s =? 10 ^ k then format_decimal (10 ^ (k - 1)) k (n + 1)
  else format_decimal s k n.

(** [String(x)], [x.toString()] and the conversion of a number appended to
    a string. *)
Definition toString (x : float) : string :=
  if PrimFloat.is_nan x then "NaN"
  else if PrimFloat.is_zero x then "0"
  else if PrimFloat.is_infinity x then
    if PrimFloat.get_sign x then "-Infinity" else "Infinity"
  else if PrimFloat.get_sign x then "-" ++ toString_pos (PrimFloat.opp x)
  else toString_pos x.

Close Scope Z_scope.

End JS.

(** ** Errors and results *)

(** The exceptions the modelled code can raise. [MissingGoodsId] is
    [Error('GoodsId is required')], [InvalidProductType] is
    [Error('Invalid type: must be "piece" or "weight"')], [TypeError] is a
    property read on [undefined], and [InvalidInput] is the failure the
    specification gives to the EAN-13 check digit on a malformed input. *)
Inductive JsError : Type :=
| MissingGoodsId
| InvalidProductType
| InvalidInput
| TypeError.

Inductive Res (A : Type) : Type :=
| Ok (a : A)
| Throw (e : JsError).

Arguments Ok {A} a.
Arguments Throw {A} e.

Definition is_ok {A} (r : Res A) : bool :=
  match r with Ok _ => true | Throw _ => false end.

Definition res_map {A B} (f : A -> B) (r : Res A) : Res B :=
  match r with Ok a => Ok (f a) | Throw e => Throw e end.

(** ** Utils (js/app/utils.js) *)

Module Utils.

(** Modelled from the spec: [Utils.padZeros] is not among the sources; the
    specification writes it [value.padLeft(width, '0')]: zeros are added on
    the left up to [width], and a longer value is kept whole. The value is
    passed as the string [String(value)]. *)
Definition padZeros (value : string) (width : nat) : string :=
  JS.repeat_char "0" (width - String.length value) ++ value.

Definition digit_value (c : ascii) : nat := nat_of_ascii c - 48.

(** Sum of the digits weighted 1, 3, 1, 3, ... from the left; [odd] tells
    whether the head stands at an odd (1-indexed) position. *)
Fixpoint weighted_sum (odd : bool) (s : string) : nat :=
  match s with
  | EmptyString => 0
  | String c r =>
      (if odd then 1 else 3) * digit_value c + weighted_sum (negb odd) r
  end.

(** Modelled from the spec: [Utils.calcControlEAN13] is not among the
    sources; the specification gives the weighted mod-10 sum over 12 numeric
    characters, odd positions weight 1 and even positions weight 3 (1-indexed
    from the left), result [(10 - (sum mod 10)) mod 10], and a failure with
    [InvalidInput] when the input is not exactly 12 numeric characters. *)
Definition ean13_digit (digits12 : string) : nat :=
  (10 - weighted_sum true digits12 mod 10) mod 10.

Definition calcControlEAN13 (digits12 : string) : Res nat :=
  if (String.length digits12 =? 12)%nat && JS.all_digits digits12
  then Ok (ean13_digit digits12)
  else Throw InvalidInput.

End Utils.

(** ** Config (js/app/config.js) *)

Module Config.

(** A DataMatrix template: its display name and its layout function.
    [generate barcode pos] is the payload built for [barcode] when the
    random source stands at [pos], with the position it leaves the source
    at (a layout may draw a serial number). *)
Record Template : Type := {
  name : string;
  generate : string -> nat -> string * nat
}.

(** What the modelled code reads from modules that are not among the
    sources, and from the engine: the template table [Config.TEMPLATES],
    the demo list [Config.DEMO_GTINS], the proprietary check digit
    [Utils.calcControlCore], the values [Math.random()] returns, the
    [k]-th draw scaled to an index below [n] being [entropy k mod n], and
    the values [Math.pow(10, n)] returns beyond 10^22. *)
Class Env : Type := {
  TEMPLATES : string -> option Template;
  DEMO_GTINS : list string;
  calcControlCore : string -> nat;
  entropy : nat -> nat;
  engine_pow10 : nat -> float
}.

(** Modelled from the spec: [Config.GS1_CONSTANTS], as the format line of
    [generateGS1Code] spells them:
    99MPUC<GS>240[GoodsId]<GS>37[Qty]|3103[Weight]<GS>98[Disc]<GS>
    21[UniqueID]<GS>97[DecPos]<GS>,
    the group separator being the control character 0x1D. *)
Definition GS_CHAR : string := String (ascii_of_nat 29) EmptyString.
Definition PREFIX : string := "99MPUC".
Definition AI_GOODS_ID : string := "240".
Definition AI_QUANTITY : string := "37".
Definition AI_WEIGHT : string := "3103".
Definition AI_DISCOUNT : string := "98".
Definition AI_UNIQUE_ID : string := "21".
Definition AI_DECIMAL_POS : string := "97".

(** A field of a barcode configuration: the key of its value in the form
    and its width. *)
Record Field : Type := {
  field_name : string;
  field_length : nat
}.

(** An entry of [Config.BARCODE_CONFIGS], with the properties
    [generateFromConfig] reads: [prefix], [fields], [fixedControl] (absent
    when the format computes its check digit) and [format]. *)
Record BarcodeConfig : Type := {
  cfg_prefix : string;
  cfg_fields : list Field;
  cfg_fixedControl : option string;
  cfg_format : string
}.

(** The table [Config.BARCODE_CONFIGS], which is not among the sources. *)
Class Tables : Type := {
  BARCODE_CONFIGS : string -> option BarcodeConfig
}.

End Config.

Export Config(Env, TEMPLATES, DEMO_GTINS, calcControlCore, entropy,
              engine_pow10).
Export Config(Tables, BARCODE_CONFIGS).

(** ** State (js/app/state.js) and the page *)

Module State.

(** The four double-scan strategies, as [getActiveDoubleScanMode] names
    them. *)
Inductive DoubleScanMode : Type := sameDM | dmEan | sameEan | differentDM.

(** An entry of a DataMatrix folder. *)
Record DmItem : Type := {
  barcode : string;
  template : option string;
  active : bool
}.

(** The secondary code of a double scan: [{type, code, barcode}]. *)
Record SecondaryCode : Type := {
  sc_type : string;
  sc_code : option string;
  sc_barcode : option string
}.

(** An entry of [State.dm.generatedCodes]. *)
Record CachedCode : Type := {
  code : string;
  cc_barcode : string;
  templateName : string;
  rotationIdx : nat;
  doubleScanMode : option DoubleScanMode;
  primaryDisplayAsEan : bool;
  secondaryCode : option SecondaryCode
}.

(** [State.dm] *)
Record DmState : Type := {
  dm_selectedTemplate : string;
  dm_isRotating : bool;
  dm_rotationList : list DmItem;
  dm_rotationIndex : nat;
  dm_generatedCodes : list CachedCode;
  dm_codeHistoryIndex : Z;
  dm_timerValue : float;
  dm_remaining : float;
  dm_timerInterval : option nat
}.

(** An entry of a GS1 folder, as [addItems] stores it. *)
Record Gs1Item : Type := {
  gi_code : string;
  gi_goodsId : string;
  gi_type : string;
  gi_quantity : option float;
  gi_weight : option float;
  gi_discount : float;
  gi_active : bool
}.

(** [State.gs1] *)
Record Gs1State : Type := {
  gs1_rotationItems : list Gs1Item;
  gs1_rotationIndex : Z;
  gs1_isRotating : bool;
  gs1_timerValue : float;
  gs1_remaining : float;
  gs1_timerInterval : option nat
}.

(** The counter panel written by [showCodeInfo]: barcode, template name
    and the two numbers of "index/total". *)
Record CodeInfo : Type := {
  info_barcode : string;
  info_template : string;
  info_index : nat;
  info_total : nat
}.

(** The elements of the page the controllers read and write: the four
    double-scan checkboxes, the code texts and the counters. Styles,
    animations, the badge and the countdown label are left out. *)
Record Page : Type := {
  doubleScanSameDM : bool;
  doubleScanDmEan : bool;
  doubleScanSameEan : bool;
  doubleScanDifferentDM : bool;
  current_code : option string;
  secondary_code_text : option string;
  code_info : option CodeInfo;
  dm_play_state : bool;
  gs1CodeText : option string;
  gs1CarouselCounter : option (Z * nat)
}.

Inductive AlertMessage : Type := SelectFolder | SelectGtin | SelectCodes.

(** Calls that leave the modelled code, in the order they are made. *)
Inductive Call : Type :=
| CallAddToHistory (type code : string)
| CallTemplateGenerate (barcode code : string)
| CallRenderDM (container : string) (code : option string)
| CallRenderBarcode (svg : string) (code : option string) (format : string)
| CallRenderGS1QR (code : string)
| CallAlert (msg : AlertMessage).

Record World : Type := {
  dm : DmState;
  gs1 : Gs1State;
  demoIndex : nat;
  dmFolder : option (list DmItem);
  gs1Folder : option (list Gs1Item);
  page : Page;
  randomPos : nat;
  nextTimerId : nat;
  calls : list Call
}.

(** *** Field updates *)

Definition with_dm (f : DmState -> DmState) (w : World) : World :=
  {| dm := f (dm w); gs1 := gs1 w; demoIndex := demoIndex w;
     dmFolder := dmFolder w; gs1Folder := gs1Folder w; page := page w;
     randomPos := randomPos w; nextTimerId := nextTimerId w;
     calls := calls w |}.

Definition with_gs1 (f : Gs1State -> Gs1State) (w : World) : World :=
  {| dm := dm w; gs1 := f (gs1 w); demoIndex := demoIndex w;
     dmFolder := dmFolder w; gs1Folder := gs1Folder w; page := page w;
     randomPos := randomPos w; nextTimerId := nextTimerId w;
     calls := calls w |}.

Definition with_page (f : Page -> Page) (w : World) : World :=
  {| dm := dm w; gs1 := gs1 w; demoIndex := demoIndex w;
     dmFolder := dmFolder w; gs1Folder := gs1Folder w; page := f (page w);
     randomPos := randomPos w; nextTimerId := nextTimerId w;
     calls := calls w |}.

Definition set_demoIndex (n : nat) (w : World) : World :=
  {| dm := dm w; gs1 := gs1 w; demoIndex := n;
     dmFolder := dmFolder w; gs1Folder := gs1Folder w; page := page w;
     randomPos := randomPos w; nextTimerId := nextTimerId w;
     calls := calls w |}.

Definition set_randomPos (n : nat) (w : World) : World :=
  {| dm := dm w; gs1 := gs1 w; demoIndex := demoIndex w;
     dmFolder := dmFolder w; gs1Folder := gs1Folder w; page := page w;
     randomPos := n; nextTimerId := nextTimerId w;
     calls := calls w |}.

Definition set_nextTimerId (n : nat) (w : World) : World :=
  {| dm := dm w; gs1 := gs1 w; demoIndex := demoIndex w;
     dmFolder := dmFolder w; gs1Folder := gs1Folder w; page := page w;
     randomPos := randomPos w; nextTimerId := n;
     calls := calls w |}.

Definition log_call (c : Call) (w : World) : World :=
  {| dm := dm w; gs1 := gs1 w; demoIndex := demoIndex w;
     dmFolder := dmFolder w; gs1Folder := gs1Folder w; page := page w;
     randomPos := randomPos w; nextTimerId := nextTimerId w;
     calls := (calls w ++ [c])%list |}.

Definition set_rotationList (l : list DmItem) (s : DmState) : DmState :=
  {| dm_selectedTemplate := dm_selectedTemplate s;
     dm_isRotating := dm_isRotating s; dm_rotationList := l;
     dm_rotationIndex := dm_rotationIndex s;
     dm_generatedCodes := dm_generatedCodes s;
     dm_codeHistoryIndex := dm_codeHistoryIndex s;
     dm_timerValue := dm_timerValue s; dm_remaining := dm_remaining s;
     dm_timerInterval := dm_timerInterval s |}.

Definition set_rotationIndex (n : nat) (s : DmState) : DmState :=
  {| dm_selectedTemplate := dm_selectedTemplate s;
     dm_isRotating := dm_isRotating s; dm_rotationList := dm_rotationList s;
     dm_rotationIndex := n;
     dm_generatedCodes := dm_generatedCodes s;
     dm_codeHistoryIndex := dm_codeHistoryIndex s;
     dm_timerValue := dm_timerValue s; dm_remaining := dm_remaining s;
     dm_timerInterval := dm_timerInterval s |}.

Definition set_isRotating (b : bool) (s : DmState) : DmState :=
  {| dm_selectedTemplate := dm_selectedTemplate s;
     dm_isRotating := b; dm_rotationList := dm_rotationList s;
     dm_rotationIndex := dm_rotationIndex s;
     dm_generatedCodes := dm_generatedCodes s;
     dm_codeHistoryIndex := dm_codeHistoryIndex s;
     dm_timerValue := dm_timerValue s; dm_remaining := dm_remaining s;
     dm_timerInterval := dm_timerInterval s |}.

Definition set_generatedCodes (l : list CachedCode) (s : DmState) : DmState :=
  {| dm_selectedTemplate := dm_selectedTemplate s;
     dm_isRotating := dm_isRotating s; dm_rotationList := dm_rotationList s;
     dm_rotationIndex := dm_rotationIndex s;
     dm_generatedCodes := l;
     dm_codeHistoryIndex := dm_codeHistoryIndex s;
     dm_timerValue := dm_timerValue s; dm_remaining := dm_remaining s;
     dm_timerInterval := dm_timerInterval s |}.

Definition set_codeHistoryIndex (i : Z) (s : DmState) : DmState :=
  {| dm_selectedTemplate := dm_selectedTemplate s;
     dm_isRotating := dm_isRotating s; dm_rotationList := dm_rotationList s;
     dm_rotationIndex := dm_rotationIndex s;
     dm_generatedCodes := dm_generatedCodes s;
     dm_codeHistoryIndex := i;
     dm_timerValue := dm_timerValue s; dm_remaining := dm_remaining s;
     dm_timerInterval := dm_timerInterval s |}.

Definition set_timerValue (v : float) (s : DmState) : DmState :=
  {| dm_selectedTemplate := dm_selectedTemplate s;
     dm_isRotating := dm_isRotating s; dm_rotationList := dm_rotationList s;
     dm_rotationIndex := dm_rotationIndex s;
     dm_generatedCodes := dm_generatedCodes s;
     dm_codeHistoryIndex := dm_codeHistoryIndex s;
     dm_timerValue := v; dm_remaining := dm_remaining s;
     dm_timerInterval := dm_timerInterval s |}.

Definition set_remaining (v : float) (s : DmState) : DmState :=
  {| dm_selectedTemplate := dm_selectedTemplate s;
     dm_isRotating := dm_isRotating s; dm_rotationList := dm_rotationList s;
     dm_rotationIndex := dm_rotationIndex s;
     dm_generatedCodes := dm_generatedCodes s;
     dm_codeHistoryIndex := dm_codeHistoryIndex s;
     dm_timerValue := dm_timerValue s; dm_remaining := v;
     dm_timerInterval := dm_timerInterval s |}.

Definition set_timerInterval (t : option nat) (s : DmState) : DmState :=
  {| dm_selectedTemplate := dm_selectedTemplate s;
     dm_isRotating := dm_isRotating s; dm_rotationList := dm_rotationList s;
     dm_rotationIndex := dm_rotationIndex s;
     dm_generatedCodes := dm_generatedCodes s;
     dm_codeHistoryIndex := dm_codeHistoryIndex s;
     dm_timerValue := dm_timerValue s; dm_remaining := dm_remaining s;
     dm_timerInterval := t |}.

Definition gs1_set_rotationItems (l : list Gs1Item) (s : Gs1State) : Gs1State :=
  {| gs1_rotationItems := l; gs1_rotationIndex := gs1_rotationIndex s;
     gs1_isRotating := gs1_isRotating s; gs1_timerValue := gs1_timerValue s;
     gs1_remaining := gs1_remaining s;
     gs1_timerInterval := gs1_timerInterval s |}.

Definition gs1_set_rotationIndex (i : Z) (s : Gs1State) : Gs1State :=
  {| gs1_rotationItems := gs1_rotationItems s; gs1_rotationIndex := i;
     gs1_isRotating := gs1_isRotating s; gs1_timerValue := gs1_timerValue s;
     gs1_remaining := gs1_remaining s;
     gs1_timerInterval := gs1_timerInterval s |}.

Definition gs1_set_isRotating (b : bool) (s : Gs1State) : Gs1State :=
  {| gs1_rotationItems := gs1_rotationItems s;
     gs1_rotationIndex := gs1_rotationIndex s;
     gs1_isRotating := b; gs1_timerValue := gs1_timerValue s;
     gs1_remaining := gs1_remaining s;
     gs1_timerInterval := gs1_timerInterval s |}.

Definition gs1_set_timerValue (v : float) (s : Gs1State) : Gs1State :=
  {| gs1_rotationItems := gs1_rotationItems s;
     gs1_rotationIndex := gs1_rotationIndex s;
     gs1_isRotating := gs1_isRotating s; gs1_timerValue := v;
     gs1_remaining := gs1_remaining s;
     gs1_timerInterval := gs1_timerInterval s |}.

Definition gs1_set_remaining (v : float) (s : Gs1State) : Gs1State :=
  {| gs1_rotationItems := gs1_rotationItems s;
     gs1_rotationIndex := gs1_rotationIndex s;
     gs1_isRotating := gs1_isRotating s; gs1_timerValue := gs1_timerValue s;
     gs1_remaining := v;
     gs1_timerInterval := gs1_timerInterval s |}.

Definition gs1_set_timerInterval (t : option nat) (s : Gs1State) : Gs1State :=
  {| gs1_rotationItems := gs1_rotationItems s;
     gs1_rotationIndex := gs1_rotationIndex s;
     gs1_isRotating := gs1_isRotating s; gs1_timerValue := gs1_timerValue s;
     gs1_remaining := gs1_remaining s;
     gs1_timerInterval := t |}.

Definition set_current_code (c : option string) (p : Page) : Page :=
  {| doubleScanSameDM := doubleScanSameDM p;
     doubleScanDmEan := doubleScanDmEan p;
     doubleScanSameEan := doubleScanSameEan p;
     doubleScanDifferentDM := doubleScanDifferentDM p;
     current_code := c; secondary_code_text := secondary_code_text p;
     code_info := code_info p; dm_play_state := dm_play_state p;
     gs1CodeText := gs1CodeText p;
     gs1CarouselCounter := gs1CarouselCounter p |}.

Definition set_secondary_code_text (c : option string) (p : Page) : Page :=
  {| doubleScanSameDM := doubleScanSameDM p;
     doubleScanDmEan := doubleScanDmEan p;
     doubleScanSameEan := doubleScanSameEan p;
     doubleScanDifferentDM := doubleScanDifferentDM p;
     current_code := current_code p; secondary_code_text := c;
     code_info := code_info p; dm_play_state := dm_play_state p;
     gs1CodeText := gs1CodeText p;
     gs1CarouselCounter := gs1CarouselCounter p |}.

Definition set_code_info (i : option CodeInfo) (p : Page) : Page :=
  {| doubleScanSameDM := doubleScanSameDM p;
     doubleScanDmEan := doubleScanDmEan p;
     doubleScanSameEan := doubleScanSameEan p;
     doubleScanDifferentDM := doubleScanDifferentDM p;
     current_code := current_code p;
     secondary_code_text := secondary_code_text p;
     code_info := i; dm_play_state := dm_play_state p;
     gs1CodeText := gs1CodeText p;
     gs1CarouselCounter := gs1CarouselCounter p |}.

Definition set_dm_play_state (b : bool) (p : Page) : Page :=
  {| doubleScanSameDM := doubleScanSameDM p;
     doubleScanDmEan := doubleScanDmEan p;
     doubleScanSameEan := doubleScanSameEan p;
     doubleScanDifferentDM := doubleScanDifferentDM p;
     current_code := current_code p;
     secondary_code_text := secondary_code_text p;
     code_info := code_info p; dm_play_state := b;
     gs1CodeText := gs1CodeText p;
     gs1CarouselCounter := gs1CarouselCounter p |}.

Definition set_gs1_display (c : string) (counter : Z * nat) (p : Page)
  : Page :=
  {| doubleScanSameDM := doubleScanSameDM p;
     doubleScanDmEan := doubleScanDmEan p;
     doubleScanSameEan := doubleScanSameEan p;
     doubleScanDifferentDM := doubleScanDifferentDM p;
     current_code := current_code p;
     secondary_code_text := secondary_code_text p;
     code_info := code_info p; dm_play_state := dm_play_state p;
     gs1CodeText := Some c;
     gs1CarouselCounter := Some counter |}.

Definition set_selectedTemplate (t : string) (s : DmState) : DmState :=
  {| dm_selectedTemplate := t;
     dm_isRotating := dm_isRotating s; dm_rotationList := dm_rotationList s;
     dm_rotationIndex := dm_rotationIndex s;
     dm_generatedCodes := dm_generatedCodes s;
     dm_codeHistoryIndex := dm_codeHistoryIndex s;
     dm_timerValue := dm_timerValue s; dm_remaining := dm_remaining s;
     dm_timerInterval := dm_timerInterval s |}.

Definition set_doubleScan (a b c d : bool) (p : Page) : Page :=
  {| doubleScanSameDM := a;
     doubleScanDmEan := b;
     doubleScanSameEan := c;
     doubleScanDifferentDM := d;
     current_code := current_code p;
     secondary_code_text := secondary_code_text p;
     code_info := code_info p; dm_play_state := dm_play_state p;
     gs1CodeText := gs1CodeText p;
     gs1CarouselCounter := gs1CarouselCounter p |}.

Definition set_gs1Folder (f : option (list Gs1Item)) (w : World) : World :=
  {| dm := dm w; gs1 := gs1 w; demoIndex := demoIndex w;
     dmFolder := dmFolder w; gs1Folder := f; page := page w;
     randomPos := randomPos w; nextTimerId := nextTimerId w;
     calls := calls w |}.

End State.

Export State.

(** ** The monad of the controllers: state and exceptions

    A computation runs on a [World] and either returns a value or throws;
    what it wrote before throwing stays written, as in JavaScript. *)

Definition M (A : Type) : Type := World -> Res A * World.

Definition ret {A} (a : A) : M A := fun w => (Ok a, w).

Definition throw {A} (e : JsError) : M A := fun w => (Throw e, w).

Definition bind {A B} (c : M A) (k : A -> M B) : M B :=
  fun w =>
    match c w with
    | (Ok a, w') => k a w'
    | (Throw e, w') => (Throw e, w')
    end.

Definition get : M World := fun w => (Ok w, w).

Definition modify (f : World -> World) : M unit := fun w => (Ok tt, f w).

Definition lift {A} (r : Res A) : M A := fun w => (r, w).

(** [arr[i]] followed by a property read: a [TypeError] out of range. *)
Definition item_at {A} (l : list A) (i : nat) : M A :=
  match nth_error l i with
  | Some a => ret a
  | None => throw TypeError
  end.

Declare Scope monad_scope.
Delimit Scope monad_scope with monad.
Notation "x <- c ;; k" := (bind c (fun x => k))
  (at level 61, c at next level, right associativity) : monad_scope.
Notation "' pat <- c ;; k" :=
  (bind c (fun x => match x with pat => k end))
  (at level 61, pat pattern, c at next level, right associativity)
  : monad_scope.
Notation "c ;;; k" := (bind c (fun _ => k))
  (at level 61, right associativity) : monad_scope.
Open Scope monad_scope.

(** The state after a computation, whether it returned or threw. *)
Definition exec {A} (c : M A) (w : World) : World := snd (c w).

(** ** Generators (js/generators/generators.js) *)

Module Generators.

Import JS Utils Config.

(** The object [generateDM] returns. *)
Record DmResult : Type := {
  r_code : string;
  r_templateName : string;
  r_barcode : string
}.

(** The object [generateWeightBarcode] returns. *)
Record WeightBarcode : Type := {
  wb_code : string;
  wb_format : string;
  wb_weight : float;
  wb_plu : string;
  wb_prefix : string;
  wb_discount : option float
}.

(** The object [generateSimple] returns. *)
Record SimpleBarcode : Type := {
  sb_code : string;
  sb_format : string
}.

(** The [params] of [generateGS1Code]. *)
Record Gs1Params : Type := {
  goodsId : option string;
  type : string;
  quantity : option float;
  weight : option float;
  discount : option float;
  uniqueId : option string;
  decimalPosition : option nat
}.

Section WithEnv.

Context {E : Env}.

(** Modelled from the spec: [State.addToHistory] is not among the sources;
    the specification makes it an append to the process-wide activity log.
    The call is recorded. *)
Definition addToHistory (type code : string) : M unit :=
  modify (log_call (CallAddToHistory type code)).

(** Modelled from the spec: [State.getNextDemoGtin] is not among the
    sources; the specification makes it a round-robin over the fixed demo
    list. *)
Definition getNextDemoGtin : M string :=
  w <- get ;;
  modify (set_demoIndex (S (demoIndex w) mod List.length DEMO_GTINS)) ;;;
  ret (nth (demoIndex w) DEMO_GTINS "").

Definition generateDM (barcode templateId : option string) : M DmResult :=
  w <- get ;;
  let template :=
    TEMPLATES (match truthy templateId with
               | Some t => t
               | None => dm_selectedTemplate (dm w)
               end) in
  usedBarcode <- match truthy barcode with
                 | Some b => ret b
                 | None => getNextDemoGtin
                 end ;;
  match template with
  | None => throw TypeError
  | Some t =>
      w1 <- get ;;
      let '(code, pos) := generate t usedBarcode (randomPos w1) in
      modify (set_randomPos pos) ;;;
      modify (log_call (CallTemplateGenerate usedBarcode code)) ;;;
      addToHistory "DM" code ;;;
      ret {| r_code := code; r_templateName := name t;
             r_barcode := usedBarcode |}
  end.

Definition generateWeightBarcode (prefix plu : string) (weight : float)
    (discount : option float) : Res WeightBarcode :=
  let result code ctrl format :=
    {| wb_code := code ++ ctrl; wb_format := format; wb_weight := weight;
       wb_plu := plu; wb_prefix := prefix; wb_discount := discount |} in
  if prefix =? "77" then
    let code := "77" ++ padZeros plu 6 ++ padZeros (toString weight) 7 in
    Ok (result code "0" "CODE128")
  else if prefix =? "49" then
    let code := "49" ++ padZeros plu 9
                ++ padZeros (toString (or_zero discount)) 2
                ++ padZeros (toString weight) 5 in
    Ok (result code (string_of_nat (calcControlCore code)) "CODE128")
  else
    let code := "22" ++ padZeros plu 5 ++ padZeros (toString weight) 5 in
    res_map (fun ctrl => result code (string_of_nat ctrl) "EAN13")
            (calcControlEAN13 code).

Definition generateSimple (value type : string) : Res SimpleBarcode :=
  let code := trim value in
  if (type =? "EAN13") && (String.length code =? 12)%nat && all_digits code
  then res_map (fun ctrl => {| sb_code := code ++ string_of_nat ctrl;
                               sb_format := type |})
               (calcControlEAN13 code)
  else Ok {| sb_code := code; sb_format := type |}.

Definition chars : string := "ABCDEFGHIJKLMNOPQRSTUVWXYZ0123456789".

(** The loop of [generateUniqueId]: [n] more characters, the next draw of
    the random source being the one at [pos]. *)
Fixpoint uniqueId_loop (n pos : nat) : string :=
  match n with
  | O => ""
  | S k => charAt chars (entropy pos mod String.length chars)
           ++ uniqueId_loop k (S pos)
  end.

Definition generateUniqueId : M string :=
  w <- get ;;
  modify (set_randomPos (randomPos w + 8)) ;;;
  ret (uniqueId_loop 8 (randomPos w)).

(** [/01(\d{14})/] anchored at the head of [s]: the capture, if the
    expression matches there. *)
Definition run_here (s : string) : option string :=
  let run := substring 2 14 s in
  if (substring 0 2 s =? "01") && (String.length run =? 14)%nat
     && all_digits run
  then Some run else None.

(** [dmCode.match(/01(\d{14})/)]: the capture of the leftmost match. *)
Fixpoint match_AI01 (dmCode : string) : option string :=
  match dmCode with
  | EmptyString => None
  | String _ rest =>
      match run_here dmCode with
      | Some run => Some run
      | None => match_AI01 rest
      end
  end.

Definition extractEAN13FromDM (dmCode : string) : Res (option string) :=
  match match_AI01 dmCode with
  | None => Ok None
  | Some gtin14 =>
      let ean12 := substring 1 12 gtin14 in
      res_map (fun checkDigit => Some (ean12 ++ string_of_nat checkDigit))
              (calcControlEAN13 ean12)
  end.

Definition calculateDecimalPosition (quantity : float) : nat :=
  let str := toString quantity in
  match indexOf "." str with
  | None => 0
  | Some dotIndex => String.length str - dotIndex - 1
  end.

(** The discount and unique-ID segments, shared by both product types. *)
Definition discount_segments (params : Gs1Params) (code : string)
  : M string :=
  match discount params with
  | Some d =>
      if (0 <? d)%float then
        let code := code ++ AI_DISCOUNT ++ padZeros (toString d) 2
                    ++ GS_CHAR in
        uniqueId <- match truthy (uniqueId params) with
                    | Some u => ret u
                    | None => generateUniqueId
                    end ;;
        ret (code ++ AI_UNIQUE_ID ++ uniqueId ++ GS_CHAR)
      else ret code
  | None => ret code
  end.

Definition generateGS1Code (params : Gs1Params) : M string :=
  let GS := GS_CHAR in
  let code := PREFIX ++ GS in
  let goodsId :=
    substring 0 8
      (strip_non_digits
         (match truthy (goodsId params) with Some g => g | None => "" end)) in
  if goodsId =? "" then throw MissingGoodsId
  else
    let code := code ++ AI_GOODS_ID ++ goodsId ++ GS in
    if type params =? "piece" then
      let quantity := or_zero (quantity params) in
      let decimalPosition :=
        match decimalPosition params with
        | Some d => d
        | None => calculateDecimalPosition quantity
        end in
      let qtyRaw :=
        Math_round (quantity * pow10 engine_pow10 decimalPosition)%float in
      let code := code ++ AI_QUANTITY ++ padZeros (toString qtyRaw) 8 ++ GS in
      code <- discount_segments params code ;;
      ret (if (0 <? decimalPosition)%nat
           then code ++ AI_DECIMAL_POS ++ string_of_nat decimalPosition ++ GS
           else code)
    else if type params =? "weight" then
      let weight := or_zero (weight params) in
      let code := code ++ AI_WEIGHT ++ padZeros (toString weight) 6 ++ GS in
      discount_segments params code
    else throw InvalidProductType.

(** [Math.floor(Math.random() * n)]: the next draw of the random source,
    scaled to an index below [n]; 0 when [n] is 0. *)
Definition random_index (n : nat) : M nat :=
  w <- get ;;
  modify (set_randomPos (S (randomPos w))) ;;;
  ret (if (n =? 0)%nat then 0 else entropy (randomPos w) mod n).

(** [Math.random() < t / 10], for the thresholds 0.3 and 0.2 of the
    program: the next draw is below the threshold when its index among ten
    equal parts is below [t]. *)
Definition random_below_tenths (t : nat) : M bool :=
  i <- random_index 10 ;;
  ret (i <? t)%nat.

Definition methods : list string :=
  ["removeChars"; "wrongChecksum"; "replaceGS"; "addJunk"].

Definition junkChars : string := "XYZQW!@#$%&*".

(** The loop of the method 'addJunk': [n] more characters of junk. *)
Fixpoint junk_loop (n : nat) : M string :=
  match n with
  | O => ret ""
  | S k =>
      i <- random_index (String.length junkChars) ;;
      rest <- junk_loop k ;;
      ret (charAt junkChars i ++ rest)
  end.

(** The loop of the method 'wrongChecksum' over the digits of AI 01: a
    draw for every character, and a second one for the shift of a digit
    that is hit. *)
Fixpoint corrupt_gtin (gtinPart : string) : M string :=
  match gtinPart with
  | EmptyString => ret ""
  | String c rest =>
      hit <- random_below_tenths 3 ;;
      d <- (if hit && is_digit c
            then r <- random_index 9 ;;
                 ret (string_of_nat ((digit_value c + r + 1) mod 10))
            else ret (String c "")) ;;
      tail <- corrupt_gtin rest ;;
      ret (d ++ tail)
  end.

(** The loop of the method 'wrongChecksum' over a code without AI 01 at
    its head: a draw for every digit, which is shifted by 5 when hit. *)
Fixpoint corrupt_digits (code : string) : M string :=
  match code with
  | EmptyString => ret ""
  | String c rest =>
      hit <- (if is_digit c then random_below_tenths 2 else ret false) ;;
      tail <- corrupt_digits rest ;;
      ret ((if hit then string_of_nat ((digit_value c + 5) mod 10)
            else String c "") ++ tail)
  end.

(** The messages written to the console are left out. *)
Definition breakDataMatrix (code : string) (method : option string)
  : M string :=
  if code =? "" then ret code
  else
    let breakMethod :=
      match truthy method with Some m => m | None => "removeChars" end in
    breakMethod <- (if breakMethod =? "random"
                    then i <- random_index (List.length methods) ;;
                         ret (nth i methods "")
                    else ret breakMethod) ;;
    if breakMethod =? "removeChars" then
      r <- random_index 6 ;;
      let removeCount := r + 5 in
      let maxPos := String.length code - removeCount in
      position <- random_index maxPos ;;
      ret (slice code 0 position ++ slice_from code (position + removeCount))
    else if breakMethod =? "wrongChecksum" then
      if (substring 0 2 code =? "01") && (16 <=? String.length code)%nat
      then
        corruptedGtin <- corrupt_gtin (slice code 2 16) ;;
        ret ("01" ++ corruptedGtin ++ slice_from code 16)
      else corrupt_digits code
    else if breakMethod =? "replaceGS" then
      ret (replace_char (ascii_of_nat 29) "|||" code)
    else if breakMethod =? "addJunk" then
      r <- random_index 6 ;;
      junk <- junk_loop (r + 10) ;;
      insertPos <- random_index (String.length code) ;;
      ret (slice code 0 insertPos ++ junk ++ slice_from code insertPos)
    else ret code.

End WithEnv.

(** The object [generateFromConfig] returns. *)
Record ConfigBarcode : Type := {
  cb_code : string;
  cb_format : string
}.

(** A computation with a loop, run with a bound on the draws of the loop:
    it has returned, or the loop is still running. *)
Inductive Bounded (A : Type) : Type :=
| Returned (a : A)
| StillLooping.

Arguments Returned {A} a.
Arguments StillLooping {A}.

Section WithTables.

Context {E : Env} {T : Tables}.

(** The [forEach] over the fields: the code grows by one padded field at
    a time, and [hasError] records a value longer than its field. *)
Fixpoint build_fields (fields : list Field) (values : string -> option string)
    (code : string) (hasError : bool) : string * bool :=
  match fields with
  | [] => (code, hasError)
  | field :: rest =>
      let value :=
        strip_non_digits
          (match truthy (values (field_name field)) with
           | Some v => v
           | None => ""
           end) in
      build_fields rest values (code ++ padZeros value (field_length field))
        (hasError || (field_length field <? String.length value)%nat)
  end.

(** The loop of [simulateError]: digits are drawn until one differs from
    [ctrl]; [fuel] bounds the draws. *)
Fixpoint badCtrl_loop (fuel : nat) (ctrl : string) : M (Bounded string) :=
  match fuel with
  | O => ret StillLooping
  | S f =>
      i <- random_index 10 ;;
      let badCtrl := string_of_nat i in
      if badCtrl =? ctrl then badCtrl_loop f ctrl
      else ret (Returned badCtrl)
  end.

Definition generateFromConfig (fuel : nat) (typeId : string)
    (values : string -> option string) (simulateError : bool)
  : M (Bounded (option ConfigBarcode)) :=
  match BARCODE_CONFIGS typeId with
  | None => ret (Returned None)
  | Some cfg =>
      let '(code, hasError) :=
        build_fields (cfg_fields cfg) values (cfg_prefix cfg) false in
      if hasError then ret (Returned None)
      else
        ctrl <- match cfg_fixedControl cfg with
                | Some fixedControl => ret fixedControl
                | None =>
                    if typeId =? "ean13_weight"
                    then lift (res_map string_of_nat (calcControlEAN13 code))
                    else ret (string_of_nat (calcControlCore code))
                end ;;
        ctrl <- (if simulateError
                    && match cfg_fixedControl cfg with
                       | None => true
                       | Some _ => false
                       end
                 then badCtrl_loop fuel ctrl
                 else ret (Returned ctrl)) ;;
        ret (match ctrl with
             | Returned ctrl =>
                 Returned (Some {| cb_code := code ++ ctrl;
                                   cb_format := cfg_format cfg |})
             | StillLooping => StillLooping
             end)
  end.

End WithTables.

End Generators.

(** ** DataMatrix controller (js/controllers/dm.controller.js) *)

Module DM.

Import JS Config Generators.

(** The literals 0.1 and 0.05 of the timer callback, as the doubles they
    denote. *)
Definition tick_step : float := 0x1.999999999999ap-4%float.
Definition tick_threshold : float := 0x1.999999999999ap-5%float.

Section WithEnv.

Context {E : Env}.

Definition getActiveDoubleScanMode : M (option DoubleScanMode) :=
  w <- get ;;
  let p := page w in
  ret (if doubleScanSameDM p then Some sameDM
       else if doubleScanDmEan p then Some dmEan
       else if doubleScanSameEan p then Some sameEan
       else if doubleScanDifferentDM p then Some differentDM
       else None).

(** The counter of the panel; with [total] = 0 JavaScript would print NaN
    where the model keeps [index]. *)
Definition showCodeInfo (barcode templateName : string) (index total : nat)
  : M unit :=
  let displayIndex :=
    if (total <? index)%nat then (index - 1) mod total + 1 else index in
  modify (with_page (set_code_info (Some
    {| info_barcode := barcode; info_template := templateName;
       info_index := if (displayIndex =? 0)%nat then total else displayIndex;
       info_total := total |}))).

Definition hideCodeInfo : M unit := modify (with_page (set_code_info None)).

Definition togglePlayState (isPlaying : bool) : M unit :=
  modify (with_page (set_dm_play_state isPlaying)).

Definition renderPrimaryCode (code : string) (displayAsEan : bool)
    (ean13Code : option string) : M unit :=
  if displayAsEan
  then modify (log_call (CallRenderBarcode "primary-ean13-barcode"
                           ean13Code "EAN13"))
  else modify (log_call (CallRenderDM "datamatrix-container" (Some code))).

Definition renderSecondaryCode (secondary : SecondaryCode) : M unit :=
  if sc_type secondary =? "DM"
  then modify (log_call (CallRenderDM "datamatrix-container-2"
                           (sc_code secondary)))
  else if sc_type secondary =? "EAN13"
  then modify (log_call (CallRenderBarcode "ean13-barcode"
                           (sc_code secondary) "EAN13"))
  else ret tt.

Definition updateCodeText (primaryCode : string)
    (secondaryCode : option SecondaryCode) : M unit :=
  modify (with_page (set_current_code (Some primaryCode))) ;;;
  modify (with_page (set_secondary_code_text
    (match secondaryCode with
     | Some s => Some (match sc_code s with Some c => c | None => "" end)
     | None => None
     end))).

(** The secondary code of a double scan, with the two fields [sameEan]
    sets on the primary result: [displayAsEan] and [ean13Code]. *)
Definition secondaryFor (doubleScanMode : option DoubleScanMode)
    (result : DmResult) (barcode : option string)
  : M (bool * option string * option SecondaryCode) :=
  match doubleScanMode with
  | None => ret (false, None, None)
  | Some sameDM =>
      ret (false, None,
           Some {| sc_type := "DM"; sc_code := Some (r_code result);
                   sc_barcode := barcode |})
  | Some dmEan =>
      ean13 <- lift (extractEAN13FromDM (r_code result)) ;;
      ret (false, None,
           Some {| sc_type := "EAN13"; sc_code := ean13;
                   sc_barcode := None |})
  | Some sameEan =>
      ean13_1 <- lift (extractEAN13FromDM (r_code result)) ;;
      ean13_2 <- lift (extractEAN13FromDM (r_code result)) ;;
      ret (true, ean13_1,
           Some {| sc_type := "EAN13"; sc_code := ean13_2;
                   sc_barcode := None |})
  | Some differentDM =>
      w <- get ;;
      let d := dm w in
      let len := List.length (dm_rotationList d) in
      nextBarcode <-
        (if dm_isRotating d
         then item <- item_at (dm_rotationList d)
                              (dm_rotationIndex d mod len) ;;
              ret (State.barcode item)
         else getNextDemoGtin) ;;
      (* (rotationIndex - 1 + length) % length, the sum taken first *)
      templateId <-
        (if dm_isRotating d
         then item <- item_at (dm_rotationList d)
                              ((dm_rotationIndex d + len - 1) mod len) ;;
              ret (template item)
         else ret (Some (dm_selectedTemplate d))) ;;
      result2 <- generateDM (Some nextBarcode) templateId ;;
      ret (false, None,
           Some {| sc_type := "DM"; sc_code := Some (r_code result2);
                   sc_barcode := Some nextBarcode |})
  end.

Definition in_rotation (d : DmState) : bool :=
  dm_isRotating d && (0 <? List.length (dm_rotationList d))%nat.

Definition push_code (c : CachedCode) (d : DmState) : DmState :=
  let codes := (dm_generatedCodes d ++ [c])%list in
  set_codeHistoryIndex (Z.of_nat (List.length codes) - 1)
    (set_generatedCodes codes d).

Definition generateAndDisplay : M unit :=
  doubleScanMode <- getActiveDoubleScanMode ;;
  w <- get ;;
  let d := dm w in
  '(result, barcode, currentRotationIdx) <-
    (if in_rotation d
     then item <- item_at (dm_rotationList d) (dm_rotationIndex d) ;;
          result <- generateDM (Some (barcode item)) (template item) ;;
          modify (with_dm (set_rotationIndex
            (S (dm_rotationIndex d) mod List.length (dm_rotationList d)))) ;;;
          ret (result, Some (barcode item), dm_rotationIndex d)
     else result <- generateDM None None ;;
          ret (result, None, 0)) ;;
  '(displayAsEan, ean13Code, secondaryResult) <-
    secondaryFor doubleScanMode result barcode ;;
  w <- get ;;
  let d := dm w in
  (if in_rotation d
   then
     modify (with_dm (push_code
       {| code := r_code result;
          cc_barcode := match barcode with Some b => b | None => "" end;
          templateName := r_templateName result;
          rotationIdx := currentRotationIdx;
          doubleScanMode := doubleScanMode;
          primaryDisplayAsEan := displayAsEan;
          secondaryCode := secondaryResult |})) ;;;
     showCodeInfo (match barcode with Some b => b | None => "" end)
       (r_templateName result) (currentRotationIdx + 1)
       (List.length (dm_rotationList d))
   else
     modify (with_dm (push_code
       {| code := r_code result;
          cc_barcode := r_barcode result;
          templateName := r_templateName result;
          rotationIdx := List.length (dm_generatedCodes d);
          doubleScanMode := doubleScanMode;
          primaryDisplayAsEan := displayAsEan;
          secondaryCode := secondaryResult |})) ;;;
     showCodeInfo (r_barcode result) (r_templateName result)
       (List.length (dm_generatedCodes d) + 1)
       (List.length DEMO_GTINS)) ;;;
  renderPrimaryCode (r_code result) displayAsEan ean13Code ;;;
  match secondaryResult with
  | Some s => renderSecondaryCode s
  | None => ret tt
  end ;;;
  updateCodeText (r_code result) secondaryResult.

Definition displayFromCache (index : Z) : M unit :=
  w <- get ;;
  let codes := dm_generatedCodes (dm w) in
  if (index <? 0)%Z || (Z.of_nat (List.length codes) <=? index)%Z then ret tt
  else
    cached <- item_at codes (Z.to_nat index) ;;
    modify (with_dm (set_codeHistoryIndex index)) ;;;
    ean13Code <- (if primaryDisplayAsEan cached
                  then lift (extractEAN13FromDM (code cached))
                  else ret None) ;;
    renderPrimaryCode (code cached) (primaryDisplayAsEan cached) ean13Code ;;;
    match doubleScanMode cached, secondaryCode cached with
    | Some _, Some s => renderSecondaryCode s
    | _, _ => ret tt
    end ;;;
    updateCodeText (code cached) (secondaryCode cached) ;;;
    let isRotationMode := (0 <? List.length (dm_rotationList (dm w)))%nat in
    let displayIdx := rotationIdx cached + 1 in
    let total := if isRotationMode then List.length (dm_rotationList (dm w))
                 else List.length DEMO_GTINS in
    showCodeInfo (cc_barcode cached) (templateName cached) displayIdx total.

Definition stopTimer : M unit :=
  modify (with_dm (set_timerInterval None)) ;;;
  togglePlayState false.

(** [window.setInterval(callback, 100)]: a fresh handle. *)
Definition arm_interval : M nat :=
  w <- get ;;
  modify (set_nextTimerId (S (nextTimerId w))) ;;;
  ret (nextTimerId w).

Definition startTimer : M unit :=
  stopTimer ;;;
  w <- get ;;
  let len := Z.of_nat (List.length (dm_generatedCodes (dm w))) in
  (if (0 <? len)%Z && (dm_codeHistoryIndex (dm w) <? len - 1)%Z
   then modify (with_dm (set_codeHistoryIndex (len - 1))) ;;;
        displayFromCache (len - 1)
   else ret tt) ;;;
  w <- get ;;
  modify (with_dm (set_remaining (dm_timerValue (dm w)))) ;;;
  togglePlayState true ;;;
  handle <- arm_interval ;;
  modify (with_dm (set_timerInterval (Some handle))).

(** The callback [startTimer] passes to [window.setInterval]; it runs only
    while an interval is armed. *)
Definition timerCallback : M unit :=
  w <- get ;;
  match dm_timerInterval (dm w) with
  | None => ret tt
  | Some _ =>
      modify (with_dm (fun d =>
        set_remaining (dm_remaining d - tick_step)%float d)) ;;;
      w <- get ;;
      if (dm_remaining (dm w) <=? tick_threshold)%float
      then generateAndDisplay ;;;
           w <- get ;;
           modify (with_dm (set_remaining (dm_timerValue (dm w))))
      else ret tt
  end.

Definition setInterval (value : float) : M unit :=
  if PrimFloat.is_nan value || (value <=? 0)%float then ret tt
  else
    modify (with_dm (set_timerValue value)) ;;;
    modify (with_dm (set_remaining value)) ;;;
    startTimer.

Definition alert (msg : AlertMessage) : M unit :=
  modify (log_call (CallAlert msg)).

Definition startRotation : M unit :=
  w <- get ;;
  match dmFolder w with
  | None => alert SelectFolder
  | Some items =>
      let active := filter State.active items in
      if (List.length active =? 0)%nat then alert SelectGtin
      else
        modify (with_dm (fun d =>
          set_codeHistoryIndex (-1)
            (set_generatedCodes []
               (set_isRotating true
                  (set_rotationIndex 0 (set_rotationList active d)))))) ;;;
        generateAndDisplay ;;;
        startTimer
  end.

Definition stopRotation : M unit :=
  modify (with_dm (set_isRotating false)) ;;;
  stopTimer ;;;
  modify (with_dm (fun d =>
    set_codeHistoryIndex (-1)
      (set_generatedCodes []
        (set_rotationIndex 0 (set_rotationList [] d))))) ;;;
  hideCodeInfo ;;;
  generateAndDisplay.

(** [Object.keys(uniqueIndices).length]: the number of distinct
    [rotationIdx] among the generated codes. *)
Definition uniqueCount (codes : list CachedCode) : nat :=
  List.length (nodup Nat.eq_dec (map rotationIdx codes)).

Definition manualNext : M unit :=
  w <- get ;;
  let d := dm w in
  let n := List.length (dm_rotationList d) in
  let generated := List.length (dm_generatedCodes d) in
  if (0 <? n)%nat && (n <=? generated)%nat
  then displayFromCache (Z.rem (dm_codeHistoryIndex d + 1) (Z.of_nat n))
  else if (0 <? generated)%nat
          && (dm_codeHistoryIndex d <? Z.of_nat generated - 1)%Z
  then displayFromCache (dm_codeHistoryIndex d + 1)
  else if (0 <? n)%nat && (n <=? uniqueCount (dm_generatedCodes d))%nat
  then displayFromCache 0
  else generateAndDisplay.

Definition manualPrev : M unit :=
  w <- get ;;
  let d := dm w in
  let n := List.length (dm_rotationList d) in
  let generated := List.length (dm_generatedCodes d) in
  if (0 <? n)%nat && (n <=? generated)%nat
  then
    let prevIndex := (dm_codeHistoryIndex d - 1)%Z in
    displayFromCache (if (prevIndex <? 0)%Z then Z.of_nat n - 1 else prevIndex)
  else if (0 <? generated)%nat && (0 <? dm_codeHistoryIndex d)%Z
  then displayFromCache (dm_codeHistoryIndex d - 1)
  else ret tt.

End WithEnv.

End DM.

(** ** GS1 controller (js/controllers/gs1.controller.js) *)

Module GS1.

Import JS Generators.

Section WithEnv.

Context {E : Env}.

(** The part [displayCode] and [displayCodeManual] share: the item under
    the cursor is written to the page and rendered, and the cursor
    advances. The information line and the animation are left out. *)
Definition show_item (items : list Gs1Item) : M Gs1Item :=
  w <- get ;;
  let len := Z.of_nat (List.length items) in
  let k := Z.rem (gs1_rotationIndex (gs1 w)) len in
  item <- (if (k <? 0)%Z then throw TypeError
           else item_at items (Z.to_nat k)) ;;
  modify (with_page (set_gs1_display (gi_code item)
                       ((k + 1)%Z, List.length items))) ;;;
  modify (log_call (CallRenderGS1QR (gi_code item))) ;;;
  modify (with_gs1 (gs1_set_rotationIndex (gs1_rotationIndex (gs1 w) + 1))) ;;;
  ret item.

Definition displayCode : M unit :=
  w <- get ;;
  let items := gs1_rotationItems (gs1 w) in
  if (List.length items =? 0)%nat then ret tt
  else
    item <- show_item items ;;
    addToHistory "GS1" (gi_code item).

Definition displayCodeManual : M unit :=
  w <- get ;;
  let items := gs1_rotationItems (gs1 w) in
  if (List.length items =? 0)%nat then ret tt
  else
    item <- show_item items ;;
    ret tt.

Definition manualNext : M unit :=
  w <- get ;;
  if (0 <? List.length (gs1_rotationItems (gs1 w)))%nat
  then displayCodeManual
  else ret tt.

Definition manualPrev : M unit :=
  w <- get ;;
  if (0 <? List.length (gs1_rotationItems (gs1 w)))%nat
  then
    let len := Z.of_nat (List.length (gs1_rotationItems (gs1 w))) in
    let i := Z.rem (gs1_rotationIndex (gs1 w) - 2 + len) len in
    modify (with_gs1 (gs1_set_rotationIndex
                        (if (i <? 0)%Z then len - 1 else i)%Z)) ;;;
    displayCodeManual
  else ret tt.

Definition stopTimer : M unit :=
  modify (with_gs1 (gs1_set_timerInterval None)).

Definition startTimer : M unit :=
  stopTimer ;;;
  w <- get ;;
  modify (with_gs1 (gs1_set_remaining (gs1_timerValue (gs1 w)))) ;;;
  handle <- DM.arm_interval ;;
  modify (with_gs1 (gs1_set_timerInterval (Some handle))).

(** The callback [startTimer] passes to [window.setInterval]. *)
Definition timerCallback : M unit :=
  w <- get ;;
  match gs1_timerInterval (gs1 w) with
  | None => ret tt
  | Some _ =>
      modify (with_gs1 (fun g =>
        gs1_set_remaining (gs1_remaining g - DM.tick_step)%float g)) ;;;
      w <- get ;;
      if (gs1_remaining (gs1 w) <=? DM.tick_threshold)%float
      then displayCode ;;;
           w <- get ;;
           modify (with_gs1 (gs1_set_remaining (gs1_timerValue (gs1 w))))
      else ret tt
  end.

Definition setInterval (value : float) : M unit :=
  if PrimFloat.is_nan value || (value <=? 0)%float then ret tt
  else
    modify (with_gs1 (gs1_set_timerValue value)) ;;;
    w <- get ;;
    if gs1_isRotating (gs1 w) then startTimer else ret tt.

Definition startRotation : M unit :=
  w <- get ;;
  match gs1Folder w with
  | None => DM.alert SelectFolder
  | Some items =>
      let active := filter gi_active items in
      if (List.length active =? 0)%nat then DM.alert SelectCodes
      else
        modify (with_gs1 (fun g =>
          gs1_set_isRotating true
            (gs1_set_rotationIndex 0 (gs1_set_rotationItems active g)))) ;;;
        displayCode ;;;
        startTimer
  end.

Definition stopRotation : M unit :=
  modify (with_gs1 (gs1_set_isRotating false)) ;;;
  stopTimer.

(** [confirmed] is the answer to [confirm('...')], asked only when a
    folder is selected; saving and redrawing are left out. *)
Definition clearSelected (confirmed : bool) : M unit :=
  w <- get ;;
  match gs1Folder w with
  | Some items =>
      if confirmed
      then modify (set_gs1Folder
                     (Some (filter (fun x => negb (gi_active x)) items)))
      else ret tt
  | None => ret tt
  end.

End WithEnv.

End GS1.

(** ** The entry point (main.js) *)

Module Main.

Import JS Generators.

(** *** Waiting for the rendering library *)

Definition maxAttempts : nat := 50.

(** The variables of [waitForBwipJs]: the attempts made, whether the
    interval is still armed, and the calls of [callback] so far. *)
Record Poll : Type := {
  attempts : nat;
  polling : bool;
  callbacks : nat
}.

(** [waitForBwipJs] has armed its interval. *)
Definition poll_start : Poll :=
  {| attempts := 0; polling := true; callbacks := 0 |}.

(** The interval fires; [loaded] tells whether the library is there. *)
Definition poll_tick (loaded : bool) (p : Poll) : Poll :=
  if polling p then
    let attempts := S (attempts p) in
    if loaded then
      {| attempts := attempts; polling := false;
         callbacks := S (callbacks p) |}
    else if (maxAttempts <=? attempts)%nat then
      {| attempts := attempts; polling := false;
         callbacks := S (callbacks p) |}
    else
      {| attempts := attempts; polling := true; callbacks := callbacks p |}
  else p.

(** [n] periods of 100 ms after the start, the library being there at the
    [k]-th firing when [loaded k]. *)
Fixpoint poll_run (loaded : nat -> bool) (n : nat) : Poll :=
  match n with
  | O => poll_start
  | S k => poll_tick (loaded (S k)) (poll_run loaded k)
  end.

(** *** The handlers of the DataMatrix and GS1 tabs *)

Inductive Checkbox : Type :=
| BoxSameDM
| BoxDmEan
| BoxSameEan
| BoxDifferentDM.

Definition checked (box : Checkbox) (p : Page) : bool :=
  match box with
  | BoxSameDM => doubleScanSameDM p
  | BoxDmEan => doubleScanDmEan p
  | BoxSameEan => doubleScanSameEan p
  | BoxDifferentDM => doubleScanDifferentDM p
  end.

Definition set_checked (box : Checkbox) (b : bool) (p : Page) : Page :=
  match box with
  | BoxSameDM =>
      set_doubleScan b (doubleScanDmEan p) (doubleScanSameEan p)
        (doubleScanDifferentDM p) p
  | BoxDmEan =>
      set_doubleScan (doubleScanSameDM p) b (doubleScanSameEan p)
        (doubleScanDifferentDM p) p
  | BoxSameEan =>
      set_doubleScan (doubleScanSameDM p) (doubleScanDmEan p) b
        (doubleScanDifferentDM p) p
  | BoxDifferentDM =>
      set_doubleScan (doubleScanSameDM p) (doubleScanDmEan p)
        (doubleScanSameEan p) b p
  end.

Definition same_box (a b : Checkbox) : bool :=
  match a, b with
  | BoxSameDM, BoxSameDM | BoxDmEan, BoxDmEan
  | BoxSameEan, BoxSameEan | BoxDifferentDM, BoxDifferentDM => true
  | _, _ => false
  end.

(** The [forEach] over the other three boxes. *)
Definition uncheck_others (box : Checkbox) (p : Page) : Page :=
  fold_left (fun q other => set_checked other false q)
    (filter (fun other => negb (same_box other box))
       [BoxSameDM; BoxDmEan; BoxSameEan; BoxDifferentDM]) p.

(** What the user and the clock do on the two tabs, with the value each
    handler reads from the page: the number [parseFloat] makes of an
    interval, the template of a button, the box that changed. The firing
    of a timer is an event too. *)
Inductive Event : Type :=
| DmPrevClick
| DmNextClick
| DmPauseClick
| DmPlayClick
| RefreshClick
| DmIntervalChange (value : float)
| TemplateClick (template : string)
| DoubleScanChange (box : Checkbox)
| StartClick
| StopClick
| DmTimerFires
| LibraryReady
| Gs1StartClick
| Gs1StopClick
| Gs1PrevClick
| Gs1NextClick
| Gs1IntervalChange (value : float)
| Gs1ClearSelectedClick (confirmed : bool)
| Gs1TimerFires.

Section WithEnv.

Context {E : Env}.

(** The handler [bindDataMatrixEvents], [bindLibraryEvents] and
    [bindGs1Events] bind to each event; [LibraryReady] is the callback
    [init] passes to [waitForBwipJs]. A box has changed when its handler
    runs. *)
Definition handle (ev : Event) : M unit :=
  match ev with
  | DmPrevClick => DM.manualPrev
  | DmNextClick => DM.manualNext
  | DmPauseClick => DM.stopTimer
  | DmPlayClick => DM.startTimer
  | RefreshClick => DM.generateAndDisplay ;;; DM.startTimer
  | DmIntervalChange value => DM.setInterval value
  | TemplateClick template =>
      modify (with_dm (set_selectedTemplate template))
  | DoubleScanChange box =>
      modify (with_page (fun p => set_checked box (negb (checked box p)) p)) ;;;
      w <- get ;;
      (if checked box (page w)
       then modify (with_page (uncheck_others box))
       else ret tt) ;;;
      DM.generateAndDisplay
  | StartClick => DM.startRotation
  | StopClick => DM.stopRotation
  | DmTimerFires => DM.timerCallback
  | LibraryReady => DM.generateAndDisplay ;;; DM.startTimer
  | Gs1StartClick => GS1.startRotation
  | Gs1StopClick => GS1.stopRotation
  | Gs1PrevClick => GS1.manualPrev
  | Gs1NextClick => GS1.manualNext
  | Gs1IntervalChange value => GS1.setInterval value
  | Gs1ClearSelectedClick confirmed => GS1.clearSelected confirmed
  | Gs1TimerFires => GS1.timerCallback
  end.

(** An exception ends the handler it is raised in; the next event is
    handled on the state it left. *)
Fixpoint run_events (evs : list Event) (w : World) : World :=
  match evs with
  | [] => w
  | ev :: rest => run_events rest (exec (handle ev) w)
  end.

End WithEnv.

End Main.

(** ** Vocabulary of the properties *)

Module Props.

Import JS Utils Config Generators.

(** [g] is a 12-digit body followed by its EAN-13 check digit. *)
Definition valid_ean13 (g : string) : Prop :=
  exists c, calcControlEAN13 (substring 0 12 g) = Ok c
            /\ g = substring 0 12 g ++ string_of_nat c.

(** The capture of [/01(\d{14})/] when the match starts at offset [i]. *)
Definition run_at (dmCode : string) (i : nat) : option string :=
  let run := substring (i + 2) 14 dmCode in
  if (substring i 2 dmCode =? "01") && (String.length run =? 14)%nat
     && all_digits run
  then Some run else None.

(** A template whose layout embeds AI 01: the payload holds the marker
    "01" followed by the GTIN zero-padded to 14 digits, and no marker
    followed by 14 digits starts before it (none can when the payload
    opens with AI 01, as in the example of [generateDM]). *)
Definition embeds_AI01 (t : Template) : Prop :=
  forall barcode pos,
    exists pre rest,
      fst (generate t barcode pos)
      = pre ++ "01" ++ padZeros barcode 14 ++ rest
      /\ forall j, j < String.length pre ->
                   run_at (fst (generate t barcode pos)) j = None.

(** The digits [generateGS1Code] keeps of a GoodsId. *)
Definition goodsId_digits (params : Gs1Params) : string :=
  strip_non_digits
    (match truthy (goodsId params) with Some g => g | None => "" end).

Definition with_goodsId (g : option string) (params : Gs1Params)
  : Gs1Params :=
  {| goodsId := g; type := type params; quantity := quantity params;
     weight := weight params; discount := discount params;
     uniqueId := uniqueId params;
     decimalPosition := decimalPosition params |}.

(** Calls of [State.addToHistory] and of a template's [generate] in a
    list of calls. *)
Definition is_addToHistory (c : Call) : bool :=
  match c with CallAddToHistory _ _ => true | _ => false end.

Definition is_template_generate (c : Call) : bool :=
  match c with CallTemplateGenerate _ _ => true | _ => false end.

Definition count_addToHistory (w : World) : nat :=
  List.length (filter is_addToHistory (calls w)).

Definition count_generated (w : World) : nat :=
  List.length (filter is_template_generate (calls w)).


(** Between [w] and [w'] as many calls of [State.addToHistory] were added
    as calls of a template's [generate]. *)
Definition log_balance (w w' : World) : Prop :=
  count_addToHistory w' + count_generated w
  = count_addToHistory w + count_generated w'.



Section WithEnv.

Context {E : Env}.





(** [k] calls of [manualNext], one after the other. *)
Fixpoint nexts (k : nat) (w : World) : World :=
  match k with
  | O => w
  | S k' => exec DM.manualNext (nexts k' w)
  end.

(** The entry [e] holds the payload of [item]: the template the item
    names, or the selected one when it names none, generated the code of
    [e] from the barcode of the item, at some position of the random
    source. (For an item without a barcode [generateDM] takes a GTIN of
    the demo list.) *)
Definition payload_of (selected : string) (item : DmItem) (e : CachedCode)
  : Prop :=
  exists t pos,
    TEMPLATES (match truthy (template item) with
               | Some id => id
               | None => selected
               end) = Some t
    /\ templateName e = Config.name t
    /\ (barcode item <> ""
        -> code e = fst (Config.generate t (barcode item) pos)).




(** [manualNext] without its test on the number of distinct rotation
    indices. *)
Definition manualNext_plain : M unit :=
  w <- get ;;
  let d := dm w in
  let n := List.length (dm_rotationList d) in
  let generated := List.length (dm_generatedCodes d) in
  if (0 <? n)%nat && (n <=? generated)%nat
  then DM.displayFromCache (Z.rem (dm_codeHistoryIndex d + 1) (Z.of_nat n))
  else if (0 <? generated)%nat
          && (dm_codeHistoryIndex d <? Z.of_nat generated - 1)%Z
  then DM.displayFromCache (dm_codeHistoryIndex d + 1)
  else DM.generateAndDisplay.

(** Displays of the GS1 carousel one after the other, each by the timer
    ([false]) or by the button Next ([true]). *)
Fixpoint gs1_displays (manual : list bool) (w : World) : World :=
  match manual with
  | [] => w
  | m :: rest =>
      gs1_displays rest
        (exec (if m then GS1.manualNext else GS1.displayCode) w)
  end.

(** Every handler of a sequence of events returned. *)
Fixpoint all_returned (evs : list Main.Event) (w : World) : bool :=
  match evs with
  | [] => true
  | ev :: rest =>
      is_ok (fst (Main.handle ev w))
      && all_returned rest (exec (Main.handle ev) w)
  end.

(** The template an item is generated with exists. *)
Definition resolvable (selected : string) (item : DmItem) : Prop :=
  TEMPLATES (match truthy (template item) with
             | Some t => t
             | None => selected
             end) <> None.

End WithEnv.

(** *** Frames and invariants *)

(** A computation that leaves the part [f] of the state as it was,
    whether it returns or throws. *)
Definition preserves {A B} (f : World -> B) (c : M A) : Prop :=
  forall w, f (snd (c w)) = f w.

(** What the handlers of the DataMatrix tab have no part in: the GS1
    carousel, its folder and its texts on the page. *)
Definition gs1_view (w : World) :=
  (gs1 w, gs1Folder w, gs1CodeText (page w), gs1CarouselCounter (page w)).

(** What the handlers of the GS1 tab have no part in: the DataMatrix
    session, its folder, the demo list, the random source, the boxes and
    the texts of the DataMatrix tab. *)
Definition dm_view (w : World) :=
  (dm w, dmFolder w, demoIndex w, randomPos w,
   (doubleScanSameDM (page w), doubleScanDmEan (page w),
    doubleScanSameEan (page w), doubleScanDifferentDM (page w)),
   (current_code (page w), secondary_code_text (page w),
    code_info (page w), dm_play_state (page w))).

(** What a generation or a replay on the DataMatrix tab leaves alone: the
    timer, the rotation list and flag, the selected template, the folders,
    the boxes and the GS1 carousel. *)
Definition dm_display_frame (w : World) :=
  (gs1_view w, dmFolder w, nextTimerId w,
   (dm_timerInterval (dm w), dm_timerValue (dm w), dm_remaining (dm w)),
   (dm_isRotating (dm w), dm_rotationList (dm w),
    dm_selectedTemplate (dm w)),
   (doubleScanSameDM (page w), doubleScanDmEan (page w),
    doubleScanSameEan (page w), doubleScanDifferentDM (page w)),
   dm_play_state (page w)).

(** The history and the texts of the DataMatrix tab. *)
Definition dm_history (w : World) :=
  (dm_generatedCodes (dm w), dm_codeHistoryIndex (dm w),
   current_code (page w), secondary_code_text (page w), code_info (page w)).

(** The history cursor stands on an entry of the history, or at -1 on an
    empty history. *)
Definition cursor_in_history (w : World) : Prop :=
  (dm_generatedCodes (dm w) = [] /\ dm_codeHistoryIndex (dm w) = (-1)%Z)
  \/ (0 <= dm_codeHistoryIndex (dm w)
         < Z.of_nat (List.length (dm_generatedCodes (dm w))))%Z.

(** A rotation has a list and a cursor in it; without a rotation the list
    is empty. *)
Definition rotation_consistent (w : World) : Prop :=
  if dm_isRotating (dm w)
  then dm_rotationIndex (dm w) < List.length (dm_rotationList (dm w))
  else dm_rotationList (dm w) = [].

(** The pause button is shown exactly while an interval is armed. *)
Definition play_mirrors_timer (w : World) : Prop :=
  dm_play_state (page w)
  = match dm_timerInterval (dm w) with Some _ => true | None => false end.

(** The GS1 carousel: the cursor is not negative, and an interval is armed
    exactly while the carousel rotates, which it does on items only. *)
Definition gs1_consistent (w : World) : Prop :=
  (0 <= gs1_rotationIndex (gs1 w))%Z
  /\ gs1_isRotating (gs1 w)
     = match gs1_timerInterval (gs1 w) with Some _ => true | None => false end
  /\ (gs1_isRotating (gs1 w) = true -> gs1_rotationItems (gs1 w) <> []).

(** The number of double-scan boxes that are checked. *)
Definition boxes_checked (p : Page) : nat :=
  List.length
    (filter (fun box => Main.checked box p)
       [Main.BoxSameDM; Main.BoxDmEan; Main.BoxSameEan;
        Main.BoxDifferentDM]).

(** The strategy a box stands for. *)
Definition mode_of (box : Main.Checkbox) : DoubleScanMode :=
  match box with
  | Main.BoxSameDM => sameDM
  | Main.BoxDmEan => dmEan
  | Main.BoxSameEan => sameEan
  | Main.BoxDifferentDM => differentDM
  end.

(** The events of the GS1 tab. *)
Definition is_gs1_event (ev : Main.Event) : bool :=
  match ev with
  | Main.Gs1StartClick | Main.Gs1StopClick | Main.Gs1PrevClick
  | Main.Gs1NextClick | Main.Gs1IntervalChange _
  | Main.Gs1ClearSelectedClick _ | Main.Gs1TimerFires => true
  | _ => false
  end.

(** The first firing after the [k]-th that finds the library, among
    [fuel] firings, or else the firing that follows these. *)
Fixpoint first_ready (loaded : nat -> bool) (fuel k : nat) : nat :=
  match fuel with
  | O => S k
  | S f => if loaded (S k) then S k else first_ready loaded f (S k)
  end.

(** The item of the GS1 carousel [w] shows: its code and the counter. *)
Definition gs1_shows (w : World) (i : nat) : Prop :=
  gs1CodeText (page w)
  = option_map gi_code (nth_error (gs1_rotationItems (gs1 w)) i)
  /\ gs1CarouselCounter (page w)
     = Some ((Z.of_nat i + 1)%Z, List.length (gs1_rotationItems (gs1 w))).

(** The calls that render a secondary code. *)
Definition secondary_renders (s : SecondaryCode) : list Call :=
  if sc_type s =? "DM"
  then [CallRenderDM "datamatrix-container-2" (sc_code s)]
  else if sc_type s =? "EAN13"
  then [CallRenderBarcode "ean13-barcode" (sc_code s) "EAN13"]
  else [].

(** The calls that render an entry of the history: its primary code, as a
    DataMatrix or as the EAN-13 extracted from it, and its secondary code
    when it has one. *)
Definition renders_of (e : CachedCode) : list Call :=
  ((if primaryDisplayAsEan e
    then [CallRenderBarcode "primary-ean13-barcode"
            (match extractEAN13FromDM (code e) with
             | Ok r => r
             | Throw _ => None
             end) "EAN13"]
    else [CallRenderDM "datamatrix-container" (Some (code e))])
   ++ match doubleScanMode e, secondaryCode e with
      | Some _, Some s => secondary_renders s
      | _, _ => []
      end)%list.

(** The text under the secondary code of an entry. *)
Definition secondary_text_of (e : CachedCode) : option string :=
  match secondaryCode e with
  | Some s => Some (match sc_code s with Some c => c | None => "" end)
  | None => None
  end.

(** Every character of [s] is one of [alphabet]. *)
Fixpoint all_in (alphabet s : string) : bool :=
  match s with
  | EmptyString => true
  | String c r =>
      match indexOf c alphabet with
      | Some _ => all_in alphabet r
      | None => false
      end
  end.

(** [t] has the length of [s], the characters of [s] where [s] holds no
    digit, and a digit wherever [s] holds one. *)
Fixpoint digitwise (s t : string) : bool :=
  match s, t with
  | EmptyString, EmptyString => true
  | String c s', String d t' =>
      (Ascii.eqb c d || (is_digit c && is_digit d)) && digitwise s' t'
  | _, _ => false
  end.

(** The digits [generateFromConfig] keeps of the value of a field. *)
Definition field_digits (values : string -> option string) (field : Field)
  : string :=
  strip_non_digits
    (match truthy (values (field_name field)) with
     | Some v => v
     | None => ""
     end).

(** The value of a field is not longer than the field. *)
Definition fits (values : string -> option string) (field : Field) : bool :=
  (String.length (field_digits values field) <=? field_length field)%nat.

(** The fields one after the other, each padded to its width. *)
Definition fields_text (values : string -> option string)
    (fields : list Field) : string :=
  fold_right
    (fun field text =>
       padZeros (field_digits values field) (field_length field) ++ text)
    "" fields.

(** The sum of the widths of the fields. *)
Definition fields_width (fields : list Field) : nat :=
  fold_right (fun field n => field_length field + n) 0 fields.

(** The digit the [k]-th next draw of the random source gives to the loop
    of [simulateError]. *)
Definition drawn_digit {E : Env} (w : World) (k : nat) : string :=
  string_of_nat (entropy (randomPos w + k) mod 10).

(** *** Outcomes of a handler *)

(** [c], run from [w], returns a value and a state that [Q] accepts, or
    throws and leaves a state that [X] accepts. *)
Definition wp {A} (c : M A) (Q : A -> World -> Prop) (X : World -> Prop)
    (w : World) : Prop :=
  match c w with
  | (Ok a, w') => Q a w'
  | (Throw _, w') => X w'
  end.

(** [c] keeps [P], whether it returns or throws. *)
Definition keeps {A} (P : World -> Prop) (c : M A) : Prop :=
  forall w, P w -> wp c (fun _ => P) P w.

(** [c] returns from [w]. *)
Definition returns {A} (c : M A) (w : World) : Prop :=
  wp c (fun _ _ => True) (fun _ => False) w.

(** The five invariants of the two tabs. *)
Definition well_formed (w : World) : Prop :=
  cursor_in_history w
  /\ rotation_consistent w
  /\ play_mirrors_timer w
  /\ gs1_consistent w
  /\ boxes_checked (page w) <= 1.

(** The template an item names, when it names one, exists. *)
Definition item_known {E : Env} (item : DmItem) : Prop :=
  match truthy (template item) with
  | Some t => TEMPLATES t <> None
  | None => True
  end.

(** The selected template exists, and so do the templates of the items
    of the rotation and of the selected folder. *)
Definition templates_known {E : Env} (w : World) : Prop :=
  TEMPLATES (dm_selectedTemplate (dm w)) <> None
  /\ Forall item_known (dm_rotationList (dm w))
  /\ match dmFolder w with
     | Some items => Forall item_known items
     | None => True
     end.

(** The button of a template that exists. *)
Definition event_known {E : Env} (ev : Main.Event) : Prop :=
  match ev with
  | Main.TemplateClick t => TEMPLATES t <> None
  | _ => True
  end.

(** *** Parts of the state *)

(** The history and its cursor. *)
Definition history_part (w : World) :=
  (dm_generatedCodes (dm w), dm_codeHistoryIndex (dm w)).

(** The rotation: its flag, its list and its cursor. *)
Definition rotation_part (w : World) :=
  (dm_isRotating (dm w), dm_rotationList (dm w), dm_rotationIndex (dm w)).

(** The play button and the interval of the DataMatrix tab. *)
Definition play_part (w : World) :=
  (dm_play_state (page w), dm_timerInterval (dm w)).

(** The four double-scan boxes. *)
Definition boxes_part (w : World) :=
  (doubleScanSameDM (page w), doubleScanDmEan (page w),
   doubleScanSameEan (page w), doubleScanDifferentDM (page w)).

(** The GS1 carousel: its items, its cursor, its flag and its interval. *)
Definition carousel_part (w : World) :=
  (gs1_rotationItems (gs1 w), gs1_rotationIndex (gs1 w),
   gs1_isRotating (gs1 w), gs1_timerInterval (gs1 w)).

(** Where templates are named: the selection, the rotation list and the
    selected folder. *)
Definition templates_part (w : World) :=
  (dm_selectedTemplate (dm w), dm_rotationList (dm w), dmFolder w).

(** The state in which [stopRotation] generates the demo code: the
    rotation is off, the timer stopped, the list and the history reset,
    the information panel hidden. *)
Definition stopped (w : World) : World :=
  with_page (set_code_info None)
    (with_dm (fun d =>
       set_codeHistoryIndex (-1)
         (set_generatedCodes []
            (set_rotationIndex 0 (set_rotationList [] d))))
       (with_page (set_dm_play_state false)
          (with_dm (set_timerInterval None)
             (with_dm (set_isRotating false) w)))).

(** *** Generations *)

(** Calls of a template's [generate] and of [State.addToHistory] only. *)
Definition generation_calls (l : list Call) : Prop :=
  Forall (fun c => is_template_generate c || is_addToHistory c = true) l.

(** The mode the boxes select, in the order [getActiveDoubleScanMode]
    reads them. *)
Definition active_mode (p : Page) : option DoubleScanMode :=
  if doubleScanSameDM p then Some sameDM
  else if doubleScanDmEan p then Some dmEan
  else if doubleScanSameEan p then Some sameEan
  else if doubleScanDifferentDM p then Some differentDM
  else None.

(** The session a generation pushes its entry on: in a rotation, the
    rotation cursor has moved on. *)
Definition advanced (d : DmState) : DmState :=
  if DM.in_rotation d
  then set_rotationIndex
         (S (dm_rotationIndex d) mod List.length (dm_rotationList d)) d
  else d.

(** What a generation that returns leaves: one more entry [e] in the
    history, displayed. *)
Definition generated_from (w : World) (e : CachedCode) (w' : World) : Prop :=
  dm w' = DM.push_code e (advanced (dm w))
  /\ doubleScanMode e = active_mode (page w)
  /\ rotationIdx e
     = (if DM.in_rotation (dm w) then dm_rotationIndex (dm w)
        else List.length (dm_generatedCodes (dm w)))
  /\ current_code (page w') = Some (code e)
  /\ secondary_code_text (page w') = secondary_text_of e
  /\ option_map info_barcode (code_info (page w')) = Some (cc_barcode e)
  /\ exists gen,
       calls w' = (calls w ++ gen ++ renders_of e)%list
       /\ generation_calls gen.

End Props.

(** ** A sample environment and sample inputs *)

Module Sample.

Import JS Utils Config Generators.

(** A layout in the shape of the example of [generateDM]: AI 01 with the
    GTIN on 14 digits, then AI 21 with a serial drawn from the random
    source. *)
Definition type1 : Template :=
  {| name := "Type 1";
     generate := fun barcode pos =>
       ("01" ++ padZeros barcode 14 ++ "21" ++ string_of_nat pos, S pos) |}.

Definition env : Env :=
  {| TEMPLATES := fun id => if id =? "type1" then Some type1 else None;
     DEMO_GTINS := ["4810099003310"; "4607001771562"];
     calcControlCore := fun _ => 0;
     entropy := fun k => k;
     engine_pow10 := fun n => of_Z (10 ^ Z.of_nat n) |}.

Definition dm0 : DmState :=
  {| dm_selectedTemplate := "type1"; dm_isRotating := false;
     dm_rotationList := []; dm_rotationIndex := 0;
     dm_generatedCodes := []; dm_codeHistoryIndex := -1;
     dm_timerValue := 1%float; dm_remaining := 1%float;
     dm_timerInterval := None |}.

Definition gs1_0 : Gs1State :=
  {| gs1_rotationItems := []; gs1_rotationIndex := 0;
     gs1_isRotating := false; gs1_timerValue := 1%float;
     gs1_remaining := 1%float; gs1_timerInterval := None |}.

Definition page0 : Page :=
  {| doubleScanSameDM := false; doubleScanDmEan := false;
     doubleScanSameEan := false; doubleScanDifferentDM := false;
     current_code := None; secondary_code_text := None;
     code_info := None; dm_play_state := false;
     gs1CodeText := None; gs1CarouselCounter := None |}.

(** One stored GS1 code, as [addItems] keeps it in a folder. *)
Definition gs1_item : Gs1Item :=
  {| gi_code := "99MPUC" ++ GS_CHAR ++ "240123" ++ GS_CHAR ++ "3103000500"
                ++ GS_CHAR;
     gi_goodsId := "123"; gi_type := "weight"; gi_quantity := None;
     gi_weight := Some 500%float; gi_discount := 0%float;
     gi_active := true |}.

Definition item_A : DmItem :=
  {| barcode := "4810099003310"; template := Some "type1"; active := true |}.

Definition item_B : DmItem :=
  {| barcode := "4607001771562"; template := Some "type1"; active := true |}.

(** The page at rest: no rotation, no timer, a folder of two GTINs and a
    folder of one GS1 code. *)
Definition world : World :=
  {| dm := dm0; gs1 := gs1_0; demoIndex := 0;
     dmFolder := Some [item_A; item_B]; gs1Folder := Some [gs1_item];
     page := page0; randomPos := 0; nextTimerId := 1; calls := [] |}.


(** Three more stored GS1 codes, the first of them switched off. *)
Definition gs1_item_B : Gs1Item :=
  {| gi_code := "99MPUC" ++ GS_CHAR ++ "240456" ++ GS_CHAR ++ "3103000250"
                ++ GS_CHAR;
     gi_goodsId := "456"; gi_type := "weight"; gi_quantity := None;
     gi_weight := Some 250%float; gi_discount := 0%float;
     gi_active := false |}.

Definition gs1_item_C : Gs1Item :=
  {| gi_code := "99MPUC" ++ GS_CHAR ++ "240789" ++ GS_CHAR ++ "3700000003"
                ++ GS_CHAR;
     gi_goodsId := "789"; gi_type := "piece"; gi_quantity := Some 3%float;
     gi_weight := None; gi_discount := 0%float;
     gi_active := true |}.

Definition gs1_item_D : Gs1Item :=
  {| gi_code := "99MPUC" ++ GS_CHAR ++ "240321" ++ GS_CHAR ++ "3103000750"
                ++ GS_CHAR;
     gi_goodsId := "321"; gi_type := "weight"; gi_quantity := None;
     gi_weight := Some 750%float; gi_discount := 0%float;
     gi_active := true |}.

(** The page at rest with a folder of four GS1 codes, three of them
    active. *)
Definition world_carousel : World :=
  set_gs1Folder (Some [gs1_item; gs1_item_B; gs1_item_C; gs1_item_D]) world.

(** The page at rest with the box of the mode differentDM checked. *)
Definition world_differentDM : World :=
  with_page (set_doubleScan false false false true) world.

(** The double closest to 12.45. *)
Definition q12_45 : float := 0x1.8e66666666666p+3%float.

(** [{goodsId: '123', type: 'piece', quantity: 12.45, discount: 10}] *)
Definition piece_params : Gs1Params :=
  {| goodsId := Some "123"; type := "piece"; quantity := Some q12_45;
     weight := None; discount := Some 10%float; uniqueId := None;
     decimalPosition := None |}.

(** The same with a discount of 100 and a two-character unique ID. *)
Definition piece_params_wide : Gs1Params :=
  {| goodsId := Some "123"; type := "piece"; quantity := Some q12_45;
     weight := None; discount := Some 100%float; uniqueId := Some "AB";
     decimalPosition := None |}.

(** Nine digits of GoodsId and a type that is neither 'piece' nor
    'weight'. *)
Definition long_goodsId_params : Gs1Params :=
  {| goodsId := Some "123456789"; type := "box"; quantity := None;
     weight := None; discount := None; uniqueId := None;
     decimalPosition := None |}.

(** [{goodsId: '123', type: 'weight', weight: 500, discount: 10}], with a
    quantity the type does not read. *)
Definition weight_params : Gs1Params :=
  {| goodsId := Some "123"; type := "weight"; quantity := Some q12_45;
     weight := Some 500%float; discount := Some 10%float; uniqueId := None;
     decimalPosition := None |}.

(** [{goodsId: '123', type: 'piece', quantity: 12.45, uniqueId: 'AB'}]: no
    discount. *)
Definition plain_piece_params : Gs1Params :=
  {| goodsId := Some "123"; type := "piece"; quantity := Some q12_45;
     weight := None; discount := None; uniqueId := Some "AB";
     decimalPosition := None |}.

(** A table of two formats: one with a computed check digit, one with the
    fixed check digit '0'. *)
Definition tables : Tables :=
  {| BARCODE_CONFIGS := fun typeId =>
       if typeId =? "code128_19" then
         Some {| cfg_prefix := "49";
                 cfg_fields := [{| field_name := "plu"; field_length := 9 |};
                                {| field_name := "discount";
                                   field_length := 2 |};
                                {| field_name := "weight";
                                   field_length := 5 |}];
                 cfg_fixedControl := None;
                 cfg_format := "CODE128" |}
       else if typeId =? "cas_16" then
         Some {| cfg_prefix := "77";
                 cfg_fields := [{| field_name := "plu"; field_length := 6 |};
                                {| field_name := "weight";
                                   field_length := 7 |}];
                 cfg_fixedControl := Some "0";
                 cfg_format := "CODE128" |}
       else None |}.

(** The values of a form: a PLU and a weight, no discount. *)
Definition form_values (name : string) : option string :=
  if name =? "plu" then Some "12-345"
  else if name =? "weight" then Some "1500"
  else None.

End Sample.

(** * Properties *)

Import JS Utils Config Generators Props.

(** ** Strings *)

Lemma length_append (s t : string) :
  String.length (s ++ t) = String.length s + String.length t.
Proof.
  induction s as [|c s IH]; simpl; [reflexivity | now rewrite IH].
Qed.

Lemma append_assoc (s t u : string) : (s ++ t) ++ u = s ++ (t ++ u).
Proof.
  induction s as [|c s IH]; simpl; [reflexivity | now rewrite IH].
Qed.

Lemma append_empty_r (s : string) : s ++ "" = s.
Proof.
  induction s as [|c s IH]; simpl; [reflexivity | now rewrite IH].
Qed.

Lemma length_repeat_char (c : ascii) (n : nat) :
  String.length (repeat_char c n) = n.
Proof.
  induction n as [|n IH]; simpl; [reflexivity | now rewrite IH].
Qed.

Lemma all_digits_append (s t : string) :
  all_digits (s ++ t) = all_digits s && all_digits t.
Proof.
  induction s as [|c s IH]; simpl; [reflexivity|].
  now rewrite IH, andb_assoc.
Qed.

Lemma substring_0_append (s t : string) :
  substring 0 (String.length s) (s ++ t) = s.
Proof.
  induction s as [|c s IH]; simpl.
  - now destruct t.
  - now rewrite IH.
Qed.

Lemma substring_0_all (s : string) (n : nat) :
  String.length s <= n -> substring 0 n s = s.
Proof.
  revert n; induction s as [|c s IH]; intros [|n] H; simpl in *;
    try reflexivity; try lia.
  rewrite IH by lia. reflexivity.
Qed.

Lemma length_substring_0 (s : string) (n : nat) :
  String.length (substring 0 n s) = Nat.min n (String.length s).
Proof.
  revert n; induction s as [|c s IH]; intros [|n]; simpl; try reflexivity.
  now rewrite IH.
Qed.

(** ** [padZeros] *)

Lemma padZeros_length (value : string) (width : nat) :
  String.length (padZeros value width) = Nat.max width (String.length value).
Proof.
  unfold padZeros. rewrite length_append, length_repeat_char. lia.
Qed.

(** ** The weight-barcode encoder *)

(** C2, as amended: for prefix '77' the encoder returns '77', the PLU
    left-padded with zeros to 6 characters, the weight left-padded with
    zeros to 7 characters and the fixed check digit '0', with format
    CODE128; the payload has 2 + max(6, |plu|) + max(7, |weight|) + 1
    characters, and [generateWeightBarcode('77', '12345', 1500).code] is
    '7701234500015000', 16 characters long. *)
Theorem weight_barcode_77_layout (E : Env) (plu : string) (weight : float)
    (discount : option float) :
  generateWeightBarcode "77" plu weight discount
  = Ok {| wb_code := "77" ++ padZeros plu 6
                     ++ padZeros (toString weight) 7 ++ "0";
          wb_format := "CODE128"; wb_weight := weight; wb_plu := plu;
          wb_prefix := "77"; wb_discount := discount |}
  /\ String.length ("77" ++ padZeros plu 6
                    ++ padZeros (toString weight) 7 ++ "0")
     = 2 + Nat.max 6 (String.length plu)
       + Nat.max 7 (String.length (toString weight)) + 1
  /\ res_map wb_code (generateWeightBarcode "77" "12345" 1500 None)
     = Ok "7701234500015000"
  /\ String.length "7701234500015000" = 16.
Proof.
  split; [|split; [|split]].
  - unfold generateWeightBarcode. simpl.
    now rewrite !append_assoc.
  - change ("77" ++ padZeros plu 6 ++ padZeros (toString weight) 7 ++ "0")
      with (String "7" (String "7"
              (padZeros plu 6 ++ padZeros (toString weight) 7 ++ "0"))).
    simpl String.length.
    rewrite !length_append, !padZeros_length. simpl. lia.
  - vm_compute. reflexivity.
  - reflexivity.
Qed.

(** C2, as stated, fails on its example: the payload built for
    ('77', '12345', 1500) is not the 18-character '770001234500150000'. *)
Lemma weight_barcode_77_example_differs :
  res_map wb_code
    (generateWeightBarcode (E := Sample.env) "77" "12345" 1500 None)
  <> Ok "770001234500150000".
Proof.
  vm_compute. discriminate.
Qed.

(** C6, as amended: a prefix other than '77' and '49' is never refused;
    the encoder lays the payload out as for '22' ('22', PLU on 5, weight
    on 5, EAN-13 check digit, format EAN13) and echoes the prefix it was
    given. It returns a payload exactly when the 12 characters before the
    check digit are digits. *)
Theorem weight_barcode_other_prefix (E : Env) (prefix plu : string)
    (weight : float) (discount : option float)
    (H77 : prefix <> "77") (H49 : prefix <> "49") :
  let body := "22" ++ padZeros plu 5 ++ padZeros (toString weight) 5 in
  generateWeightBarcode prefix plu weight discount
  = res_map (fun ctrl =>
               {| wb_code := body ++ string_of_nat ctrl;
                  wb_format := "EAN13"; wb_weight := weight; wb_plu := plu;
                  wb_prefix := prefix; wb_discount := discount |})
            (calcControlEAN13 body)
  /\ is_ok (generateWeightBarcode prefix plu weight discount)
     = (String.length body =? 12)%nat && all_digits body.
Proof.
  intros body. unfold generateWeightBarcode.
  apply String.eqb_neq in H77, H49. rewrite H77, H49. fold body.
  split; [reflexivity|].
  unfold calcControlEAN13.
  now destruct ((String.length body =? 12)%nat && all_digits body).
Qed.

Lemma weight_barcode_other_prefix_witness :
  let body := "22" ++ padZeros "12345" 5 ++ padZeros (toString 1500) 5 in
  generateWeightBarcode (E := Sample.env) "99" "12345" 1500 None
  = res_map (fun ctrl =>
               {| wb_code := body ++ string_of_nat ctrl;
                  wb_format := "EAN13"; wb_weight := 1500%float;
                  wb_plu := "12345"; wb_prefix := "99";
                  wb_discount := None |})
            (calcControlEAN13 body)
  /\ is_ok (generateWeightBarcode (E := Sample.env) "99" "12345" 1500 None)
     = (String.length body =? 12)%nat && all_digits body.
Proof.
  apply (weight_barcode_other_prefix Sample.env "99" "12345" 1500 None);
    discriminate.
Defined.

(** C6, as stated, fails: for the unrecognized prefix '99' the encoder
    raises nothing and returns a payload. *)
Lemma weight_barcode_unknown_prefix_accepted :
  generateWeightBarcode (E := Sample.env) "99" "12345" 1500 None
  = Ok {| wb_code := "2212345015009"; wb_format := "EAN13";
          wb_weight := 1500%float; wb_plu := "12345"; wb_prefix := "99";
          wb_discount := None |}.
Proof.
  vm_compute. reflexivity.
Qed.

(** ** The simple encoder and the EAN-13 check digit *)

Lemma ean13_digit_range (s : string) : ean13_digit s <= 9.
Proof.
  unfold ean13_digit.
  pose proof (Nat.mod_upper_bound (10 - weighted_sum true s mod 10) 10).
  lia.
Qed.

Lemma calcControlEAN13_valid (d : string) :
  String.length d = 12 -> all_digits d = true ->
  calcControlEAN13 d = Ok (ean13_digit d).
Proof.
  intros Hlen Hdig. unfold calcControlEAN13.
  now rewrite Hlen, Hdig.
Qed.

(** Below ten, [String(n)] is one digit. *)
Lemma string_of_digit (n : nat) :
  n <= 9 ->
  String.length (string_of_nat n) = 1 /\ all_digits (string_of_nat n) = true.
Proof.
  intros H.
  do 10 (destruct n as [|n]; [split; reflexivity|]).
  lia.
Qed.

Lemma digit_not_space (c : ascii) : is_digit c = true -> is_space c = false.
Proof.
  unfold is_digit, is_space. intros H.
  apply andb_true_iff in H. destruct H as [H1 H2].
  apply Nat.leb_le in H1, H2.
  repeat match goal with
         | |- context [(?a <=? ?b)%nat] => destruct (Nat.leb_spec a b)
         | |- context [(?a =? ?b)%nat] => destruct (Nat.eqb_spec a b)
         end; simpl; try reflexivity; lia.
Qed.

Lemma trim_end_digits (s : string) : all_digits s = true -> trim_end s = s.
Proof.
  induction s as [|c s IH]; simpl; [reflexivity|].
  intros H. apply andb_true_iff in H. destruct H as [Hc Hs].
  rewrite (IH Hs). destruct s; [|reflexivity].
  now rewrite (digit_not_space c Hc).
Qed.

Lemma trim_digits (s : string) : all_digits s = true -> trim s = s.
Proof.
  intros H. unfold trim.
  assert (Hs : trim_start s = s).
  { destruct s as [|c s]; [reflexivity|]. simpl in *.
    apply andb_true_iff in H. destruct H as [Hc _].
    now rewrite (digit_not_space c Hc). }
  rewrite Hs. now apply trim_end_digits.
Qed.

(** C8: [generateSimple] trims its input; when the type is EAN13 and the
    trimmed value is exactly 12 digits it appends the EAN-13 check digit,
    and otherwise it returns the trimmed value unchanged; it never fails.
    For a 12-digit [d] the check digit is a single digit in [0, 9], and
    re-submitting the 13-digit result returns it unaltered. *)
Theorem simple_encoder_ean13 (value type d : string)
    (Hlen : String.length d = 12) (Hdig : all_digits d = true) :
  generateSimple value type
  = Ok {| sb_code :=
            if (type =? "EAN13") && (String.length (trim value) =? 12)%nat
               && all_digits (trim value)
            then trim value ++ string_of_nat (ean13_digit (trim value))
            else trim value;
          sb_format := type |}
  /\ calcControlEAN13 d = Ok (ean13_digit d)
  /\ ean13_digit d <= 9
  /\ String.length (string_of_nat (ean13_digit d)) = 1
  /\ generateSimple (d ++ string_of_nat (ean13_digit d)) "EAN13"
     = Ok {| sb_code := d ++ string_of_nat (ean13_digit d);
             sb_format := "EAN13" |}.
Proof.
  pose proof (ean13_digit_range d) as Hrange.
  destruct (string_of_digit _ Hrange) as [Hl1 Hd1].
  split; [|split; [|split; [|split]]].
  - unfold generateSimple, calcControlEAN13.
    destruct (type =? "EAN13"); simpl; [|reflexivity].
    destruct ((String.length (trim value) =? 12)%nat); simpl; [|reflexivity].
    now destruct (all_digits (trim value)).
  - now apply calcControlEAN13_valid.
  - exact Hrange.
  - exact Hl1.
  - unfold generateSimple.
    rewrite trim_digits by (rewrite all_digits_append, Hdig, Hd1; reflexivity).
    rewrite length_append, Hlen, Hl1. reflexivity.
Qed.

Lemma simple_encoder_ean13_witness :
  generateSimple "  590123412345 " "EAN13"
  = Ok {| sb_code := "5901234123457"; sb_format := "EAN13" |}
  /\ calcControlEAN13 "590123412345" = Ok 7
  /\ 7 <= 9
  /\ String.length "7" = 1
  /\ generateSimple "5901234123457" "EAN13"
     = Ok {| sb_code := "5901234123457"; sb_format := "EAN13" |}.
Proof.
  exact (simple_encoder_ean13 "  590123412345 " "EAN13" "590123412345"
           eq_refl eq_refl).
Defined.

(** ** The GS1 encoder *)

Lemma substring_0_empty (s : string) (n : nat) :
  substring 0 (S n) s = "" <-> s = "".
Proof.
  destruct s; simpl; split; intros H; try reflexivity; discriminate.
Qed.

Lemma strip_all_digits (s : string) : all_digits (strip_non_digits s) = true.
Proof.
  induction s as [|c s IH]; simpl; [reflexivity|].
  destruct (is_digit c) eqn:Hc; simpl; [now rewrite Hc|exact IH].
Qed.

Lemma strip_digits_id (s : string) :
  all_digits s = true -> strip_non_digits s = s.
Proof.
  induction s as [|c s IH]; simpl; [reflexivity|].
  intros H. apply andb_true_iff in H. destruct H as [Hc Hs].
  now rewrite Hc, IH.
Qed.

Lemma all_digits_substring_0 (s : string) (n : nat) :
  all_digits s = true -> all_digits (substring 0 n s) = true.
Proof.
  revert n; induction s as [|c s IH]; intros [|n] H; simpl in *;
    try reflexivity.
  apply andb_true_iff in H. destruct H as [Hc Hs].
  now rewrite Hc, IH.
Qed.

Lemma charAt_chars_length (k : nat) :
  k < 36 -> String.length (charAt chars k) = 1.
Proof.
  intros H. do 36 (destruct k as [|k]; [reflexivity|]). lia.
Qed.

Lemma uniqueId_loop_step (E : Env) (n pos : nat) :
  uniqueId_loop (S n) pos
  = charAt chars (entropy pos mod 36) ++ uniqueId_loop n (S pos).
Proof. reflexivity. Qed.

Lemma uniqueId_loop_length (E : Env) (n pos : nat) :
  String.length (uniqueId_loop n pos) = n.
Proof.
  revert pos; induction n as [|n IH]; intros pos; [reflexivity|].
  rewrite uniqueId_loop_step, length_append, IH, charAt_chars_length.
  - reflexivity.
  - apply Nat.mod_upper_bound. discriminate.
Qed.

(** What [discount_segments] returns, and the state it leaves. *)
Lemma discount_segments_run (E : Env) (params : Gs1Params) (code : string)
    (w : World) :
  discount_segments params code w
  = match discount params with
    | Some d =>
        if (0 <? d)%float then
          match truthy (uniqueId params) with
          | Some u =>
              (Ok ((code ++ AI_DISCOUNT ++ padZeros (toString d) 2 ++ GS_CHAR)
                   ++ AI_UNIQUE_ID ++ u ++ GS_CHAR), w)
          | None =>
              (Ok ((code ++ AI_DISCOUNT ++ padZeros (toString d) 2 ++ GS_CHAR)
                   ++ AI_UNIQUE_ID ++ uniqueId_loop 8 (randomPos w)
                   ++ GS_CHAR),
               set_randomPos (randomPos w + 8) w)
          end
        else (Ok code, w)
    | None => (Ok code, w)
    end.
Proof.
  unfold discount_segments.
  destruct (discount params) as [d|]; [|reflexivity].
  destruct (0 <? d)%float; [|reflexivity].
  destruct (truthy (uniqueId params)); reflexivity.
Qed.

Lemma discount_segments_ok (E : Env) (params : Gs1Params) (code : string)
    (w : World) :
  exists s w', discount_segments params code w = (Ok s, w').
Proof.
  rewrite discount_segments_run.
  destruct (discount params) as [d|]; [|eauto].
  destruct (0 <? d)%float; [|eauto].
  destruct (truthy (uniqueId params)); eauto.
Qed.

(** The three outcomes of [generateGS1Code], by the digits of the GoodsId
    and the type. *)
Lemma generateGS1Code_cases (E : Env) (params : Gs1Params) (w : World) :
  (goodsId_digits params = ""
   /\ fst (generateGS1Code params w) = Throw MissingGoodsId)
  \/ (goodsId_digits params <> ""
      /\ type params <> "piece" /\ type params <> "weight"
      /\ fst (generateGS1Code params w) = Throw InvalidProductType)
  \/ (goodsId_digits params <> ""
      /\ (type params = "piece" \/ type params = "weight")
      /\ exists payload, fst (generateGS1Code params w) = Ok payload).
Proof.
  unfold generateGS1Code. fold (goodsId_digits params).
  destruct (goodsId_digits params) as [|c r] eqn:Hg.
  - left. split; reflexivity.
  - right.
    change (substring 0 8 (String c r) =? "") with false. cbv iota.
    destruct (String.eqb_spec (type params) "piece") as [Hp|Hp].
    + right. split; [discriminate|]. split; [now left|].
      unfold bind.
      match goal with
      | |- context [discount_segments ?p ?c ?w] =>
          destruct (discount_segments_ok E p c w) as (s & w' & Hs);
          rewrite Hs
      end.
      eexists. reflexivity.
    + destruct (String.eqb_spec (type params) "weight") as [Hw|Hw].
      * right. split; [discriminate|]. split; [now right|].
        match goal with
        | |- context [discount_segments ?p ?c ?w] =>
            destruct (discount_segments_ok E p c w) as (s & w' & Hs);
            rewrite Hs
        end.
        eexists. reflexivity.
      * left. split; [discriminate|]. repeat split; assumption.
Qed.

(** C9: [generateGS1Code] raises an error if and only if the GoodsId is
    empty once its non-digits are stripped (MissingGoodsId, whatever the
    type) or the type is neither 'piece' nor 'weight' (InvalidProductType);
    in every other case it returns a payload, and no other error is
    raised. *)
Theorem gs1_errors (E : Env) (params : Gs1Params) (w : World) :
  let r := fst (generateGS1Code params w) in
  ((exists e, r = Throw e)
   <-> goodsId_digits params = ""
       \/ (type params <> "piece" /\ type params <> "weight"))
  /\ (r = Throw MissingGoodsId <-> goodsId_digits params = "")
  /\ (r = Throw InvalidProductType
      <-> goodsId_digits params <> ""
          /\ type params <> "piece" /\ type params <> "weight")
  /\ ((exists payload, r = Ok payload)
      <-> goodsId_digits params <> ""
          /\ (type params = "piece" \/ type params = "weight")).
Proof.
  intros r. subst r.
  destruct (generateGS1Code_cases E params w)
    as [[Hg Hr] | [(Hg & Hp & Hw & Hr) | (Hg & Ht & payload & Hr)]];
    rewrite Hr.
  - split; [split; [intros _; now left | intros _; now exists MissingGoodsId]|].
    split; [split; [intros _; exact Hg | reflexivity]|].
    split; [split; [discriminate | intros [H _]; contradiction]|].
    split; [intros [p H]; discriminate | intros [H _]; contradiction].
  - split; [split; [intros _; now right
                   | intros _; now exists InvalidProductType]|].
    split; [split; [discriminate | intros H; contradiction]|].
    split; [split; [intros _; now repeat split | reflexivity]|].
    split; [intros [p H]; discriminate|].
    intros [_ [H|H]]; contradiction.
  - split; [split; [intros [e H]; discriminate|]|].
    { intros [H|[H1 H2]]; [contradiction|]. destruct Ht; contradiction. }
    split; [split; [discriminate | intros H; contradiction]|].
    split; [split; [discriminate|]|].
    { intros (_ & H1 & H2). destruct Ht; contradiction. }
    split; [intros _; now split | intros _; now exists payload].
Qed.

Lemma goodsId_digits_truncated (params : Gs1Params) :
  goodsId_digits
    (with_goodsId (Some (substring 0 8 (goodsId_digits params))) params)
  = substring 0 8 (goodsId_digits params).
Proof.
  unfold goodsId_digits at 1. cbn [goodsId with_goodsId].
  set (g := substring 0 8 (goodsId_digits params)).
  assert (Hg : all_digits g = true)
    by (apply all_digits_substring_0, strip_all_digits).
  destruct g as [|c r] eqn:Eg; [reflexivity|].
  cbn [truthy]. now apply strip_digits_id.
Qed.

Lemma substring_0_twice (s : string) (n : nat) :
  substring 0 n (substring 0 n s) = substring 0 n s.
Proof.
  apply substring_0_all. rewrite length_substring_0. lia.
Qed.

(** C10, as amended: an over-long GoodsId is truncated, not rejected: when
    more than 8 digits remain after stripping, the call is never refused
    with MissingGoodsId, its outcome (the payload and the state of the
    random source, or the error of the type check) is the outcome of the
    call with the GoodsId replaced by its first 8 digits, and it succeeds
    whenever the type is 'piece' or 'weight'. *)
Theorem gs1_goodsId_truncated (E : Env) (params : Gs1Params) (w : World)
    (Hlong : 8 < String.length (goodsId_digits params)) :
  generateGS1Code params w
  = generateGS1Code
      (with_goodsId (Some (substring 0 8 (goodsId_digits params))) params) w
  /\ fst (generateGS1Code params w) <> Throw MissingGoodsId
  /\ (type params = "piece" \/ type params = "weight" ->
      exists payload, fst (generateGS1Code params w) = Ok payload).
Proof.
  assert (Hne : goodsId_digits params <> "").
  { intros H. rewrite H in Hlong. simpl in Hlong. lia. }
  split; [|split].
  - unfold generateGS1Code, discount_segments.
    fold (goodsId_digits params).
    fold (goodsId_digits
            (with_goodsId (Some (substring 0 8 (goodsId_digits params)))
               params)).
    rewrite goodsId_digits_truncated, substring_0_twice.
    reflexivity.
  - intros H.
    destruct (generateGS1Code_cases E params w)
      as [[Hg _] | [(_ & _ & _ & Hr) | (_ & _ & payload & Hr)]];
      [contradiction | |]; rewrite Hr in H; discriminate.
  - intros Ht.
    destruct (generateGS1Code_cases E params w)
      as [[Hg _] | [(_ & Hp & Hw & _) | (_ & _ & payload & Hr)]].
    + contradiction.
    + destruct Ht; contradiction.
    + now exists payload.
Qed.

Lemma gs1_goodsId_truncated_witness :
  generateGS1Code (E := Sample.env)
    (with_goodsId (Some "123456789") Sample.piece_params) Sample.world
  = generateGS1Code (E := Sample.env)
      (with_goodsId (Some "12345678") Sample.piece_params) Sample.world
  /\ fst (generateGS1Code (E := Sample.env)
            (with_goodsId (Some "123456789") Sample.piece_params)
            Sample.world)
     <> Throw MissingGoodsId
  /\ ("piece" = "piece" \/ "piece" = "weight" ->
      exists payload,
        fst (generateGS1Code (E := Sample.env)
               (with_goodsId (Some "123456789") Sample.piece_params)
               Sample.world)
        = Ok payload).
Proof.
  apply (gs1_goodsId_truncated Sample.env
           (with_goodsId (Some "123456789") Sample.piece_params)
           Sample.world).
  simpl. lia.
Defined.

(** C10, as stated, fails: with nine digits of GoodsId and the type 'box'
    the call does not succeed, it raises InvalidProductType. *)
Lemma gs1_long_goodsId_rejected_for_type :
  8 < String.length (goodsId_digits Sample.long_goodsId_params)
  /\ fst (generateGS1Code (E := Sample.env) Sample.long_goodsId_params
            Sample.world)
     = Throw InvalidProductType.
Proof.
  split; [simpl; lia | reflexivity].
Qed.

(** Up to 10^22 the power does not depend on the engine. *)
Lemma pow10_exact (beyond : nat -> float) (n : nat) :
  n <= 22 -> pow10 beyond n = of_Z (10 ^ Z.of_nat n).
Proof.
  intros H. unfold pow10. now destruct (Nat.leb_spec n 22); [|lia].
Qed.

(** The payload of a 'piece' item with a discount. *)
Lemma gs1_piece_run (E : Env) (params : Gs1Params) (w : World) (d : float) :
  goodsId_digits params <> "" ->
  type params = "piece" ->
  discount params = Some d ->
  (0 <? d)%float = true ->
  let gid := substring 0 8 (goodsId_digits params) in
  let q := or_zero (quantity params) in
  let dp := match decimalPosition params with
            | Some n => n
            | None => calculateDecimalPosition q
            end in
  let qtyRaw := Math_round (q * pow10 engine_pow10 dp)%float in
  let uid := match truthy (uniqueId params) with
             | Some u => u
             | None => uniqueId_loop 8 (randomPos w)
             end in
  fst (generateGS1Code params w)
  = Ok ("99MPUC" ++ GS_CHAR ++ "240" ++ gid ++ GS_CHAR
        ++ "37" ++ padZeros (toString qtyRaw) 8 ++ GS_CHAR
        ++ "98" ++ padZeros (toString d) 2 ++ GS_CHAR
        ++ "21" ++ uid ++ GS_CHAR
        ++ (if (0 <? dp)%nat
            then "97" ++ string_of_nat dp ++ GS_CHAR else "")).
Proof.
  intros Hg Ht Hd Hpos gid q dp qtyRaw uid.
  unfold generateGS1Code. fold (goodsId_digits params). fold gid.
  destruct (gid =? "") eqn:He.
  { apply String.eqb_eq, substring_0_empty in He. contradiction. }
  rewrite Ht, String.eqb_refl. fold q. fold dp. fold qtyRaw.
  unfold bind. rewrite discount_segments_run, Hd, Hpos.
  unfold uid, ret, PREFIX, AI_GOODS_ID, AI_QUANTITY, AI_DISCOUNT,
    AI_UNIQUE_ID, AI_DECIMAL_POS.
  destruct (truthy (uniqueId params)); cbn [fst]; f_equal;
    destruct (0 <? dp)%nat; rewrite ?append_empty_r, ?append_assoc;
    reflexivity.
Qed.

Lemma sample_decimal_position :
  calculateDecimalPosition Sample.q12_45 = 2.
Proof. vm_compute. reflexivity. Qed.

Lemma sample_quantity_raw (E : Env) :
  padZeros
    (toString (Math_round (Sample.q12_45 * pow10 engine_pow10 2)%float)) 8
  = "00001245".
Proof. vm_compute. reflexivity. Qed.

Lemma sample_discount_digits : padZeros (toString 10%float) 2 = "10".
Proof. vm_compute. reflexivity. Qed.

(** C3, as amended: for type 'piece', a GoodsId with at least one digit
    and a positive discount, [generateGS1Code] returns the prefix and, in
    order, each closed by the group separator: AI 240 with the first 8
    digits of the GoodsId; AI 37 with round(quantity * 10^decimalPosition)
    left-padded with zeros to 8 characters (more when the number is
    longer), the power being 10^decimalPosition itself up to 10^22 and
    what the engine's [Math.pow] returns beyond, which need not be the
    closest double; AI 98 with the discount left-padded with zeros to 2
    characters (more when it is longer); AI 21 with the unique ID the
    caller supplied, whatever its length, or else with a generated one of
    8 characters; and AI 97 with the decimal position, only when it is
    positive. For
    [{goodsId: '123', type: 'piece', quantity: 12.45, discount: 10}] these
    are 240123, 3700001245, 9810, 21 and the generated ID, and 972. *)
Theorem gs1_piece_layout (E : Env) (params : Gs1Params) (w : World)
    (d : float)
    (Hdigits : goodsId_digits params <> "")
    (Htype : type params = "piece")
    (Hdiscount : discount params = Some d)
    (Hpositive : (0 <? d)%float = true) :
  let gid := substring 0 8 (goodsId_digits params) in
  let q := or_zero (quantity params) in
  let dp := match decimalPosition params with
            | Some n => n
            | None => calculateDecimalPosition q
            end in
  let qtyRaw := Math_round (q * pow10 engine_pow10 dp)%float in
  let uid := match truthy (uniqueId params) with
             | Some u => u
             | None => uniqueId_loop 8 (randomPos w)
             end in
  fst (generateGS1Code params w)
  = Ok ("99MPUC" ++ GS_CHAR ++ "240" ++ gid ++ GS_CHAR
        ++ "37" ++ padZeros (toString qtyRaw) 8 ++ GS_CHAR
        ++ "98" ++ padZeros (toString d) 2 ++ GS_CHAR
        ++ "21" ++ uid ++ GS_CHAR
        ++ (if (0 <? dp)%nat
            then "97" ++ string_of_nat dp ++ GS_CHAR else ""))
  /\ (1 <= String.length gid <= 8 /\ all_digits gid = true)
  /\ (dp <= 22 -> qtyRaw = Math_round (q * of_Z (10 ^ Z.of_nat dp))%float)
  /\ String.length (padZeros (toString qtyRaw) 8)
     = Nat.max 8 (String.length (toString qtyRaw))
  /\ String.length (padZeros (toString d) 2)
     = Nat.max 2 (String.length (toString d))
  /\ (truthy (uniqueId params) = None -> String.length uid = 8)
  /\ fst (generateGS1Code Sample.piece_params w)
     = Ok ("99MPUC" ++ GS_CHAR ++ "240123" ++ GS_CHAR
           ++ "3700001245" ++ GS_CHAR ++ "9810" ++ GS_CHAR
           ++ "21" ++ uniqueId_loop 8 (randomPos w) ++ GS_CHAR
           ++ "972" ++ GS_CHAR).
Proof.
  intros gid q dp qtyRaw uid.
  split; [now apply gs1_piece_run|].
  split.
  { split; [|apply all_digits_substring_0, strip_all_digits].
    unfold gid. rewrite length_substring_0.
    destruct (goodsId_digits params); [contradiction|].
    cbn [String.length]. lia. }
  split; [intros Hdp; unfold qtyRaw; now rewrite pow10_exact|].
  split; [apply padZeros_length|].
  split; [apply padZeros_length|].
  split.
  { intros Hu. unfold uid. rewrite Hu. apply uniqueId_loop_length. }
  assert (Hg : goodsId_digits Sample.piece_params <> "")
    by (vm_compute; discriminate).
  rewrite (gs1_piece_run E Sample.piece_params w 10%float Hg
             eq_refl eq_refl eq_refl).
  cbn [Sample.piece_params quantity decimalPosition uniqueId truthy].
  change (or_zero (Some Sample.q12_45)) with Sample.q12_45.
  rewrite sample_decimal_position, sample_quantity_raw,
    sample_discount_digits.
  reflexivity.
Qed.

Lemma gs1_piece_layout_witness :
  fst (generateGS1Code (E := Sample.env) Sample.piece_params Sample.world)
  = Ok ("99MPUC" ++ GS_CHAR ++ "240123" ++ GS_CHAR ++ "3700001245"
        ++ GS_CHAR ++ "9810" ++ GS_CHAR ++ "21ABCDEFGH" ++ GS_CHAR
        ++ "972" ++ GS_CHAR).
Proof.
  assert (Hg : goodsId_digits Sample.piece_params <> "")
    by (vm_compute; discriminate).
  destruct (gs1_piece_layout Sample.env Sample.piece_params Sample.world
              10%float Hg eq_refl eq_refl eq_refl) as [H _].
  vm_compute in H |- *. exact H.
Defined.

(** C3, as stated, fails: with a discount of 100 and the unique ID 'AB'
    supplied, the discount segment holds three digits and the unique-ID
    segment two characters. *)
Lemma gs1_piece_wide_segments :
  fst (generateGS1Code (E := Sample.env) Sample.piece_params_wide
         Sample.world)
  = Ok ("99MPUC" ++ GS_CHAR ++ "240123" ++ GS_CHAR ++ "3700001245"
        ++ GS_CHAR ++ "98" ++ "100" ++ GS_CHAR ++ "21" ++ "AB" ++ GS_CHAR
        ++ "972" ++ GS_CHAR)
  /\ String.length "100" <> 2
  /\ String.length "AB" <> 8.
Proof.
  split; [vm_compute; reflexivity | split; discriminate].
Qed.

(** ** The GTIN extraction *)

Lemma run_at_0 (s : string) : run_at s 0 = run_here s.
Proof. reflexivity. Qed.

Lemma run_at_S (c : ascii) (s : string) (i : nat) :
  run_at (String c s) (S i) = run_at s i.
Proof. reflexivity. Qed.

Lemma run_at_empty (i : nat) : run_at "" i = None.
Proof. destruct i; reflexivity. Qed.

(** [match_AI01] returns the capture of the leftmost match. *)
Lemma match_AI01_first (dmCode run : string) :
  match_AI01 dmCode = Some run
  <-> exists i, run_at dmCode i = Some run
                /\ forall j, j < i -> run_at dmCode j = None.
Proof.
  induction dmCode as [|c s IH]; simpl.
  - split; [discriminate|]. intros (i & H & _).
    rewrite run_at_empty in H. discriminate.
  - destruct (run_here (String c s)) as [r|] eqn:Hh.
    + split.
      * intros H. exists 0. rewrite run_at_0, Hh. split; [exact H|].
        intros j Hj. lia.
      * intros (i & Hi & Hfirst). destruct i as [|i].
        -- now rewrite run_at_0, Hh in Hi.
        -- specialize (Hfirst 0 (Nat.lt_0_succ i)).
           rewrite run_at_0, Hh in Hfirst. discriminate.
    + rewrite IH. split.
      * intros (i & Hi & Hfirst). exists (S i). rewrite run_at_S.
        split; [exact Hi|]. intros [|j] Hj.
        -- now rewrite run_at_0.
        -- rewrite run_at_S. apply Hfirst. lia.
      * intros (i & Hi & Hfirst). destruct i as [|i].
        -- rewrite run_at_0, Hh in Hi. discriminate.
        -- exists i. rewrite run_at_S in Hi. split; [exact Hi|].
           intros j Hj. rewrite <- (run_at_S c). apply Hfirst. lia.
Qed.

Lemma match_AI01_none (dmCode : string) :
  match_AI01 dmCode = None <-> forall i, run_at dmCode i = None.
Proof.
  induction dmCode as [|c s IH]; simpl.
  - split; [intros _ i; apply run_at_empty | reflexivity].
  - destruct (run_here (String c s)) as [r|] eqn:Hh.
    + split; [discriminate|]. intros H. specialize (H 0).
      rewrite run_at_0, Hh in H. discriminate.
    + rewrite IH. split.
      * intros H [|i]; [now rewrite run_at_0 | rewrite run_at_S; apply H].
      * intros H i. rewrite <- (run_at_S c). apply H.
Qed.

Lemma length_substring (s : string) (n m : nat) :
  String.length (substring n m s) = Nat.min m (String.length s - n).
Proof.
  revert n m; induction s as [|c s IH]; intros [|n] [|m]; simpl;
    try reflexivity; rewrite IH; simpl; lia.
Qed.

Lemma all_digits_substring (s : string) (n m : nat) :
  all_digits s = true -> all_digits (substring n m s) = true.
Proof.
  revert n m; induction s as [|c s IH]; intros [|n] [|m] H; simpl in *;
    try reflexivity; apply andb_true_iff in H; destruct H as [Hc Hs].
  - now rewrite Hc, IH.
  - now apply IH.
  - now apply IH.
Qed.

Lemma run_at_shape (dmCode run : string) (i : nat) :
  run_at dmCode i = Some run ->
  String.length run = 14 /\ all_digits run = true.
Proof.
  unfold run_at. intros H.
  destruct (substring i 2 dmCode =? "01"); [|discriminate].
  destruct (Nat.eqb_spec (String.length (substring (i + 2) 14 dmCode)) 14)
    as [Hl|]; [|discriminate].
  destruct (all_digits (substring (i + 2) 14 dmCode)) eqn:Hd; [|discriminate].
  simpl in H. injection H as <-. now split.
Qed.

Lemma extractEAN13FromDM_found (dmCode run : string) :
  match_AI01 dmCode = Some run ->
  extractEAN13FromDM dmCode
  = Ok (Some (substring 1 12 run
              ++ string_of_nat (ean13_digit (substring 1 12 run)))).
Proof.
  intros H. unfold extractEAN13FromDM. rewrite H.
  apply match_AI01_first in H. destruct H as (i & Hi & _).
  apply run_at_shape in Hi. destruct Hi as [Hl Hd].
  rewrite calcControlEAN13_valid; [reflexivity| |].
  - rewrite length_substring, Hl. reflexivity.
  - now apply all_digits_substring.
Qed.

(** The extraction never throws. *)
Lemma extractEAN13FromDM_total (dmCode : string) :
  exists r, extractEAN13FromDM dmCode = Ok r.
Proof.
  destruct (match_AI01 dmCode) as [run|] eqn:H.
  - rewrite (extractEAN13FromDM_found _ _ H). eauto.
  - unfold extractEAN13FromDM. rewrite H. eauto.
Qed.

Lemma valid_ean13_shape (g : string) :
  valid_ean13 g -> String.length g = 13 /\ all_digits g = true.
Proof.
  intros (c & Hc & Hg).
  unfold calcControlEAN13 in Hc.
  destruct (Nat.eqb_spec (String.length (substring 0 12 g)) 12) as [Hl|];
    [|discriminate].
  destruct (all_digits (substring 0 12 g)) eqn:Hd; [|discriminate].
  simpl in Hc. injection Hc as <-.
  destruct (string_of_digit _ (ean13_digit_range (substring 0 12 g)))
    as [Hl1 Hd1].
  rewrite Hg, length_append, all_digits_append, Hl, Hl1, Hd, Hd1.
  now split.
Qed.

Lemma run_at_append (pre s : string) (i : nat) :
  run_at (pre ++ s) (String.length pre + i) = run_at s i.
Proof.
  induction pre as [|c pre IH]; [reflexivity|].
  cbn [String.length Nat.add append]. now rewrite run_at_S.
Qed.

(** A payload whose first run of 14 digits behind a marker "01" is the
    padded GTIN yields the GTIN back. *)
Lemma extract_of_AI01_payload (g pre rest : string) :
  valid_ean13 g ->
  (forall j, j < String.length pre ->
             run_at (pre ++ "01" ++ padZeros g 14 ++ rest) j = None) ->
  extractEAN13FromDM (pre ++ "01" ++ padZeros g 14 ++ rest) = Ok (Some g).
Proof.
  intros Hv Hfirst. destruct (valid_ean13_shape g Hv) as [Hlen Hdig].
  assert (Hpad : padZeros g 14 = String "0" g)
    by (unfold padZeros; rewrite Hlen; reflexivity).
  assert (Hrun : run_here ("01" ++ padZeros g 14 ++ rest)
                 = Some (String "0" g)).
  { rewrite Hpad. unfold run_here.
    change (substring 2 14 ("01" ++ String "0" g ++ rest))
      with (String "0" (substring 0 13 (g ++ rest))).
    rewrite <- Hlen, substring_0_append.
    change (substring 0 2 ("01" ++ String "0" g ++ rest)) with "01".
    cbn [String.length all_digits]. rewrite Hlen, Hdig. reflexivity. }
  assert (Hm : match_AI01 (pre ++ "01" ++ padZeros g 14 ++ rest)
               = Some (String "0" g)).
  { apply match_AI01_first. exists (String.length pre). split; [|exact Hfirst].
    rewrite <- (Nat.add_0_r (String.length pre)), run_at_append, run_at_0.
    exact Hrun. }
  rewrite (extractEAN13FromDM_found _ _ Hm).
  change (substring 1 12 (String "0" g)) with (substring 0 12 g).
  destruct Hv as (c & Hc & Hg).
  rewrite calcControlEAN13_valid in Hc.
  - injection Hc as Hc. rewrite Hc, <- Hg. reflexivity.
  - rewrite length_substring, Hlen. reflexivity.
  - now apply all_digits_substring.
Qed.

(** C4: for a valid 13-digit GTIN and a template whose layout embeds
    AI 01 (the marker '01', then the GTIN zero-padded to 14 digits, as the
    first such run of the payload), [extractEAN13FromDM] applied to the
    payload [generateDM] produces gives the GTIN back. The extraction takes
    the leftmost run of 14 digits that follows a marker '01', drops the
    run's first digit, recomputes the EAN-13 check digit over the next 12
    and returns the 13 digits; it returns null exactly when no marker is
    followed by 14 digits. *)
Theorem gtin_round_trip (E : Env) (g : string) (templateId : option string)
    (w : World) (t : Config.Template)
    (Hvalid : valid_ean13 g)
    (Htemplate : TEMPLATES (match truthy templateId with
                            | Some id => id
                            | None => dm_selectedTemplate (dm w)
                            end) = Some t)
    (Hlayout : embeds_AI01 t) :
  (exists r w',
      generateDM (Some g) templateId w = (Ok r, w')
      /\ extractEAN13FromDM (r_code r) = Ok (Some g))
  /\ (forall dmCode run i,
         run_at dmCode i = Some run ->
         (forall j, j < i -> run_at dmCode j = None) ->
         extractEAN13FromDM dmCode
         = Ok (Some (substring 1 12 run
                     ++ string_of_nat (ean13_digit (substring 1 12 run)))))
  /\ (forall dmCode,
         extractEAN13FromDM dmCode = Ok None
         <-> forall i, run_at dmCode i = None).
Proof.
  split; [|split].
  - destruct (valid_ean13_shape g Hvalid) as [Hlen _].
    unfold generateDM, bind, get.
    assert (Hg : truthy (Some g) = Some g)
      by (destruct g; [discriminate Hlen | reflexivity]).
    rewrite Hg, Htemplate. unfold ret.
    destruct (Hlayout g (randomPos w)) as (pre & rest & Hrest & Hfirst).
    destruct (Config.generate t g (randomPos w)) as [code pos] eqn:Hgen.
    cbn [fst] in Hrest, Hfirst. subst code.
    eexists. eexists. split; [reflexivity|].
    now apply extract_of_AI01_payload.
  - intros dmCode run i Hi Hfirst.
    apply extractEAN13FromDM_found, match_AI01_first. eauto.
  - intros dmCode. rewrite <- match_AI01_none.
    unfold extractEAN13FromDM.
    destruct (match_AI01 dmCode) as [run|] eqn:Hm.
    + split; [|discriminate].
      pose proof (extractEAN13FromDM_found _ _ Hm) as Hf.
      unfold extractEAN13FromDM in Hf. rewrite Hm in Hf. rewrite Hf.
      discriminate.
    + split; reflexivity.
Qed.

Lemma sample_gtin_valid : valid_ean13 "4810099003310".
Proof. exists 0. split; reflexivity. Defined.

Lemma sample_template_layout : embeds_AI01 Sample.type1.
Proof.
  intros barcode pos. exists "", ("21" ++ string_of_nat pos).
  split; [reflexivity|]. intros j Hj. inversion Hj.
Defined.

Lemma gtin_round_trip_witness :
  exists r w',
    generateDM (E := Sample.env) (Some "4810099003310") (Some "type1")
      Sample.world = (Ok r, w')
    /\ extractEAN13FromDM (r_code r) = Ok (Some "4810099003310").
Proof.
  exact (proj1 (gtin_round_trip Sample.env "4810099003310" (Some "type1")
                  Sample.world Sample.type1 sample_gtin_valid eq_refl
                  sample_template_layout)).
Defined.

(** ** The activity log *)

Ltac counts :=
  unfold log_balance, count_addToHistory, count_generated;
  cbn [calls log_call with_page with_dm with_gs1 set_demoIndex
       set_randomPos set_nextTimerId];
  rewrite ?filter_app, ?List.length_app;
  cbn [filter is_addToHistory is_template_generate List.length];
  try lia.




























(** ** Runs of the DataMatrix controller *)

(** What a successful [generateDM] leaves behind. *)
Lemma generateDM_run (E : Env) (barcode templateId : option string)
    (w : World) (t : Config.Template) :
  TEMPLATES (match truthy templateId with
             | Some id => id
             | None => dm_selectedTemplate (dm w)
             end) = Some t ->
  exists r w',
    generateDM barcode templateId w = (Ok r, w')
    /\ r_templateName r = Config.name t
    /\ dm w' = dm w /\ gs1 w' = gs1 w /\ page w' = page w
    /\ nextTimerId w' = nextTimerId w
    /\ calls w' = (calls w ++ [CallTemplateGenerate (r_barcode r) (r_code r);
                               CallAddToHistory "DM" (r_code r)])%list.
Proof.
  intros Ht. unfold generateDM, bind, get. rewrite Ht.
  destruct (truthy barcode) as [b|]; unfold getNextDemoGtin, addToHistory;
    unfold bind, get, modify, ret;
    match goal with
    | |- context [Config.generate t ?b ?p] =>
        destruct (Config.generate t b p) as [c pos]
    end;
    eexists; eexists; (split; [reflexivity|]);
    cbn [r_templateName r_barcode r_code dm gs1 page nextTimerId calls
         log_call set_randomPos set_demoIndex];
    rewrite <- ?app_assoc; repeat split; reflexivity.
Qed.

(** The payload of a [generateDM] that is given a barcode: what the
    template generates from that barcode at the position of the random
    source. *)
Lemma generateDM_payload (E : Env) (barcode templateId : option string)
    (w w' : World) (t : Config.Template) (r : DmResult) (b : string) :
  TEMPLATES (match truthy templateId with
             | Some id => id
             | None => dm_selectedTemplate (dm w)
             end) = Some t ->
  truthy barcode = Some b ->
  generateDM barcode templateId w = (Ok r, w') ->
  r_barcode r = b
  /\ r_code r = fst (Config.generate t b (randomPos w))
  /\ r_templateName r = Config.name t.
Proof.
  intros Ht Hb. unfold generateDM, bind, get. rewrite Ht, Hb.
  unfold addToHistory, bind, get, modify, ret.
  destruct (Config.generate t b (randomPos w)) as [c pos] eqn:Hg.
  intros H. injection H as <- _. repeat split; reflexivity.
Qed.

(** In a rotation whose items all have a template, the secondary code is
    built without an exception and leaves the session as it was; only the
    mode differentDM generates a payload for it. *)
Lemma secondaryFor_run (E : Env) (mode : option DoubleScanMode)
    (result : DmResult) (barcode : option string) (w : World) :
  dm_isRotating (dm w) = true ->
  dm_rotationList (dm w) <> [] ->
  Forall (resolvable (dm_selectedTemplate (dm w))) (dm_rotationList (dm w)) ->
  exists x w',
    DM.secondaryFor mode result barcode w = (Ok x, w')
    /\ dm w' = dm w /\ gs1 w' = gs1 w /\ page w' = page w
    /\ nextTimerId w' = nextTimerId w
    /\ count_generated w'
       = count_generated w
         + match mode with Some differentDM => 1 | _ => 0 end.
Proof.
  intros Hrot Hne Hres.
  unfold DM.secondaryFor.
  destruct mode as [[| | |]|].
  - unfold ret. eexists; eexists. split; [reflexivity|]. repeat split; lia.
  - unfold bind, lift, ret.
    destruct (extractEAN13FromDM_total (r_code result)) as [r ->].
    eexists; eexists. split; [reflexivity|]. repeat split; lia.
  - unfold bind, lift, ret.
    destruct (extractEAN13FromDM_total (r_code result)) as [r ->].
    eexists; eexists. split; [reflexivity|]. repeat split; lia.
  - unfold bind at 1, get. rewrite Hrot.
    set (l := dm_rotationList (dm w)) in *.
    assert (Hlen : 0 < List.length l)
      by (destruct l; [contradiction | simpl; lia]).
    unfold bind at 1. unfold bind at 1. unfold item_at at 1.
    destruct (nth_error l (dm_rotationIndex (dm w) mod List.length l))
      as [it1|] eqn:H1.
    2:{ apply nth_error_None in H1.
        pose proof (Nat.mod_upper_bound (dm_rotationIndex (dm w))
                      (List.length l)).
        lia. }
    unfold ret at 1. unfold ret at 1.
    unfold bind at 1. unfold bind at 1. unfold item_at at 1.
    destruct (nth_error l
                ((dm_rotationIndex (dm w) + List.length l - 1)
                   mod List.length l)) as [it2|] eqn:H2.
    2:{ apply nth_error_None in H2.
        pose proof (Nat.mod_upper_bound
                      (dm_rotationIndex (dm w) + List.length l - 1)
                      (List.length l)).
        lia. }
    unfold ret at 1. unfold ret at 1.
    assert (Hr2 : resolvable (dm_selectedTemplate (dm w)) it2).
    { rewrite Forall_forall in Hres. apply Hres. eapply nth_error_In; eauto. }
    unfold resolvable in Hr2.
    destruct (TEMPLATES _) as [t|] eqn:Ht; [|contradiction].
    destruct (generateDM_run E (Some (State.barcode it1)) (template it2) w t Ht)
      as (r & w' & Hrun & _ & Hdm & Hgs1 & Hpage & Htimer & Hcalls).
    unfold bind. rewrite Hrun. unfold ret.
    eexists; eexists. split; [reflexivity|].
    repeat split; try assumption.
    unfold count_generated. rewrite Hcalls, filter_app, List.length_app.
    reflexivity.
  - unfold ret. eexists; eexists. split; [reflexivity|]. repeat split; lia.
Qed.

(** A generation in rotation mode: one entry is pushed on the history for
    the item under the rotation cursor, with the payload of that item, and
    displayed. One payload is generated, and a second one, for the
    secondary code, in the mode differentDM. *)
Lemma generateAndDisplay_rotation (E : Env) (w : World) (item : DmItem) :
  dm_isRotating (dm w) = true ->
  nth_error (dm_rotationList (dm w)) (dm_rotationIndex (dm w)) = Some item ->
  Forall (resolvable (dm_selectedTemplate (dm w))) (dm_rotationList (dm w)) ->
  exists e w',
    DM.generateAndDisplay w = (Ok tt, w')
    /\ dm w' = DM.push_code e
                 (set_rotationIndex
                    (S (dm_rotationIndex (dm w))
                     mod List.length (dm_rotationList (dm w))) (dm w))
    /\ rotationIdx e = dm_rotationIndex (dm w)
    /\ cc_barcode e = State.barcode item
    /\ current_code (page w') = Some (code e)
    /\ option_map info_index (code_info (page w'))
       = Some (dm_rotationIndex (dm w) + 1)
    /\ gs1 w' = gs1 w
    /\ nextTimerId w' = nextTimerId w
    /\ count_generated w'
       = count_generated w
         + match active_mode (page w) with Some differentDM => 2 | _ => 1 end
    /\ active_mode (page w') = active_mode (page w)
    /\ payload_of (dm_selectedTemplate (dm w)) item e.
Proof.
  intros Hrot Hitem Hres.
  assert (Hlt : dm_rotationIndex (dm w) < List.length (dm_rotationList (dm w)))
    by (apply nth_error_Some; congruence).
  assert (Hne : dm_rotationList (dm w) <> [])
    by (intros H; rewrite H in Hlt; simpl in Hlt; lia).
  assert (Hin : DM.in_rotation (dm w) = true).
  { unfold DM.in_rotation. rewrite Hrot.
    apply Nat.ltb_lt. lia. }
  assert (Hr : resolvable (dm_selectedTemplate (dm w)) item).
  { rewrite Forall_forall in Hres. apply Hres. eapply nth_error_In; eauto. }
  unfold resolvable in Hr.
  destruct (TEMPLATES _) as [t|] eqn:Ht; [|contradiction].
  destruct (generateDM_run E (Some (State.barcode item)) (template item) w t Ht)
    as (r & w1 & Hrun & Hname & Hdm1 & Hgs1 & Hpage1 & Htimer1 & Hcalls1).
  unfold DM.generateAndDisplay, DM.getActiveDoubleScanMode.
  unfold bind at 1. unfold bind at 1. unfold get at 1. unfold ret at 1.
  unfold bind at 1. unfold get at 1.
  unfold bind at 1. rewrite Hin.
  unfold bind at 1. unfold item_at. rewrite Hitem. unfold ret at 1.
  unfold bind at 1. rewrite Hrun.
  unfold bind at 1. unfold modify at 1. unfold ret at 1.
  set (w2 := with_dm _ w1).
  set (mode := if doubleScanSameDM (page w) then _ else _).
  destruct (secondaryFor_run E mode r (Some (State.barcode item)) w2)
    as ([[dae ean] sec] & w3 & Hsec & Hdm3 & Hgs3 & Hpage3 & Htimer3 & Hgen3).
  { unfold w2. cbn. rewrite Hdm1. cbn. exact Hrot. }
  { unfold w2. cbn. rewrite Hdm1. cbn. exact Hne. }
  { unfold w2. cbn. rewrite Hdm1. cbn. exact Hres. }
  unfold bind at 1. rewrite Hsec.
  unfold bind at 1. unfold get at 1.
  assert (Hin3 : DM.in_rotation (dm w3) = true).
  { rewrite Hdm3. unfold w2. cbn. rewrite Hdm1. exact Hin. }
  rewrite Hin3.
  unfold DM.showCodeInfo, DM.renderPrimaryCode, DM.renderSecondaryCode,
    DM.updateCodeText.
  unfold bind, modify, ret.
  eexists. 
  destruct dae, sec as [s|]; try destruct (sc_type s =? "DM");
    try destruct (sc_type s =? "EAN13");
    (eexists; split; [reflexivity|]);
    cbn [dm gs1 page nextTimerId with_page with_dm log_call current_code
         code_info set_secondary_code_text set_current_code set_code_info
         option_map info_index rotationIdx cc_barcode code];
    rewrite ?Hdm3, ?Hgs3, ?Htimer3; unfold w2;
    cbn [dm gs1 nextTimerId with_dm set_rotationIndex dm_rotationList];
    rewrite ?Hdm1;
    (split; [reflexivity|]); (split; [reflexivity|]); (split; [reflexivity|]);
    (split; [reflexivity|]);
    (split; [destruct (Nat.ltb_spec (List.length (dm_rotationList (dm w)))
                         (dm_rotationIndex (dm w) + 1)); [lia|];
             destruct (Nat.eqb_spec (dm_rotationIndex (dm w) + 1) 0); [lia|];
             reflexivity|]);
    (split; [assumption|]); (split; [assumption|]);
    (assert (H1 : count_generated w2 = S (count_generated w))
      by (unfold w2, count_generated; cbn [calls with_dm];
          rewrite Hcalls1, filter_app, List.length_app; cbn; lia));
    (assert (Hp2 : page w2 = page w) by (unfold w2; exact Hpage1));
    (split;
     [change (active_mode (page w)) with mode;
      replace (match mode with Some differentDM => 2 | _ => 1 end)
        with (1 + match mode with Some differentDM => 1 | _ => 0 end)
        by (destruct mode as [[| | |]|]; reflexivity);
      counts; unfold count_generated in *; lia|]);
    (split;
     [unfold active_mode;
      cbn [page with_page log_call doubleScanSameDM doubleScanDmEan
           doubleScanSameEan doubleScanDifferentDM set_secondary_code_text
           set_current_code set_code_info];
      rewrite Hpage3, Hp2; reflexivity|]);
    exists t, (randomPos w);
    (split; [exact Ht|]);
    (split; [exact Hname|]);
    intros Hb;
    (apply (generateDM_payload E (Some (State.barcode item)) (template item)
              w w1 t r (State.barcode item) Ht);
     [destruct (State.barcode item); [contradiction | reflexivity]
     |exact Hrun]).
Qed.

(** A replay of an entry of the history: the cursor moves, the entry is
    displayed, nothing is generated or logged. *)
Lemma displayFromCache_in_range (E : Env) (index : Z) (w : World)
    (cached : CachedCode) :
  nth_error (dm_generatedCodes (dm w)) (Z.to_nat index) = Some cached ->
  (0 <= index)%Z ->
  exists w',
    DM.displayFromCache index w = (Ok tt, w')
    /\ dm w' = set_codeHistoryIndex index (dm w)
    /\ gs1 w' = gs1 w
    /\ nextTimerId w' = nextTimerId w
    /\ current_code (page w') = Some (code cached)
    /\ option_map info_barcode (code_info (page w'))
       = Some (cc_barcode cached)
    /\ (rotationIdx cached < List.length (dm_rotationList (dm w)) ->
        option_map info_index (code_info (page w'))
        = Some (rotationIdx cached + 1))
    /\ dm_play_state (page w') = dm_play_state (page w)
    /\ count_addToHistory w' = count_addToHistory w
    /\ count_generated w' = count_generated w
    /\ active_mode (page w') = active_mode (page w).
Proof.
  intros Hnth Hpos.
  assert (Hn : Z.to_nat index < List.length (dm_generatedCodes (dm w)))
    by (apply nth_error_Some; congruence).
  unfold DM.displayFromCache, bind, get.
  destruct (Z.ltb_spec index 0); [lia|].
  destruct (Z.leb_spec (Z.of_nat (List.length (dm_generatedCodes (dm w))))
              index); [lia|].
  cbn [orb].
  unfold item_at. rewrite Hnth. unfold ret, modify, lift.
  destruct (extractEAN13FromDM_total (code cached)) as [r Hr].
  unfold DM.renderPrimaryCode, DM.renderSecondaryCode, DM.updateCodeText,
    DM.showCodeInfo, bind, modify, ret.
  rewrite Hr.
  destruct (primaryDisplayAsEan cached), (doubleScanMode cached),
    (secondaryCode cached) as [s|];
    try destruct (sc_type s =? "DM"); try destruct (sc_type s =? "EAN13");
    eexists; (split; [reflexivity|]);
    (split; [reflexivity|]); (split; [reflexivity|]);
    (split; [reflexivity|]); (split; [reflexivity|]);
    (split; [reflexivity|]);
    (split;
     [intros Hidx;
      cbn [page with_page log_call code_info set_code_info option_map
           set_current_code set_secondary_code_text info_index];
      destruct (Nat.ltb_spec 0 (List.length (dm_rotationList (dm w))));
        [|lia];
      destruct (Nat.ltb_spec (List.length (dm_rotationList (dm w)))
                  (rotationIdx cached + 1)); [lia|];
      destruct (Nat.eqb_spec (rotationIdx cached + 1) 0); [lia|];
      reflexivity|]);
    (split; [reflexivity|]); (split; [counts|]); (split; [counts|]);
    reflexivity.
Qed.

(** [startTimer] always arms a fresh interval; when the history cursor
    stands on the last entry it changes nothing else of the session. *)
Lemma startTimer_run (E : Env) (w : World) :
  exists w',
    DM.startTimer w = (Ok tt, w')
    /\ dm_timerInterval (dm w') = Some (nextTimerId w)
    /\ dm_timerValue (dm w') = dm_timerValue (dm w)
    /\ dm_remaining (dm w') = dm_timerValue (dm w)
    /\ nextTimerId w' = S (nextTimerId w)
    /\ gs1 w' = gs1 w
    /\ dm_isRotating (dm w') = dm_isRotating (dm w)
    /\ dm_rotationList (dm w') = dm_rotationList (dm w)
    /\ dm_rotationIndex (dm w') = dm_rotationIndex (dm w)
    /\ dm_generatedCodes (dm w') = dm_generatedCodes (dm w)
    /\ dm_selectedTemplate (dm w') = dm_selectedTemplate (dm w)
    /\ count_addToHistory w' = count_addToHistory w
    /\ count_generated w' = count_generated w
    /\ (dm_codeHistoryIndex (dm w)
        = (Z.of_nat (List.length (dm_generatedCodes (dm w))) - 1)%Z ->
        dm_codeHistoryIndex (dm w') = dm_codeHistoryIndex (dm w)
        /\ current_code (page w') = current_code (page w)
        /\ code_info (page w') = code_info (page w)
        /\ active_mode (page w') = active_mode (page w)).
Proof.
  unfold DM.startTimer, DM.stopTimer, DM.togglePlayState, DM.arm_interval.
  unfold bind at 1. unfold bind at 1. unfold modify at 1. unfold modify at 1.
  unfold bind at 1. unfold get at 1.
  set (w0 := with_page _ (with_dm _ w)).
  set (len := Z.of_nat (List.length (dm_generatedCodes (dm w0)))).
  destruct ((0 <? len)%Z && (dm_codeHistoryIndex (dm w0) <? len - 1)%Z)
    eqn:Hjump.
  - apply andb_true_iff in Hjump. destruct Hjump as [H1 H2].
    apply Z.ltb_lt in H1, H2.
    unfold bind at 1. unfold bind at 1. unfold modify at 1.
    set (w1 := with_dm _ w0).
    destruct (nth_error (dm_generatedCodes (dm w1)) (Z.to_nat (len - 1)))
      as [cached|] eqn:Hn.
    2:{ apply nth_error_None in Hn. unfold w1, w0, len in *. cbn in *. lia. }
    destruct (displayFromCache_in_range E (len - 1)%Z w1 cached Hn
                ltac:(lia))
      as (w2 & Hrun & Hdm & Hgs & Htimer & _ & _ & _ & _ & Hc1 & Hc2 & _).
    rewrite Hrun. unfold bind, get, modify, ret.
    eexists. split; [reflexivity|].
    cbn [dm gs1 nextTimerId with_dm set_nextTimerId with_page
         set_timerInterval set_remaining dm_timerInterval dm_timerValue
         dm_remaining dm_isRotating dm_rotationList dm_rotationIndex
         dm_generatedCodes dm_selectedTemplate].
    rewrite ?Hdm, ?Hgs, ?Htimer.
    do 10 (split; [reflexivity|]).
    split; [|split].
    + counts. unfold count_addToHistory in Hc1. rewrite Hc1. reflexivity.
    + counts. unfold count_generated in Hc2. rewrite Hc2. reflexivity.
    + intros Heq. exfalso. unfold w0, len in *. cbn in *. lia.
  - unfold bind, get, modify, ret.
    eexists. split; [reflexivity|].
    do 12 (split; [reflexivity|]).
    intros _. repeat split; reflexivity.
Qed.

(** ** The timer interval *)

(** C5, as amended: [setInterval(value)] with a value that is NaN or not
    positive changes nothing, in either controller: the interval is kept
    and no timer is started or restarted. With a positive value the
    DataMatrix controller stores it in [timerValue] and [remaining] and
    always arms a fresh timer, whether or not one was running; the GS1
    controller stores it in [timerValue] and restarts the timer only when
    a rotation is on ([isRotating]), and otherwise changes nothing else. *)
Theorem setInterval_effect (E : Env) (value : float) (w : World) :
  if PrimFloat.is_nan value || (value <=? 0)%float
  then DM.setInterval value w = (Ok tt, w)
       /\ GS1.setInterval value w = (Ok tt, w)
  else
    (fst (DM.setInterval value w) = Ok tt
     /\ dm_timerValue (dm (exec (DM.setInterval value) w)) = value
     /\ dm_remaining (dm (exec (DM.setInterval value) w)) = value
     /\ dm_timerInterval (dm (exec (DM.setInterval value) w))
        = Some (nextTimerId w)
     /\ nextTimerId (exec (DM.setInterval value) w) = S (nextTimerId w))
    /\ (fst (GS1.setInterval value w) = Ok tt
        /\ gs1_timerValue (gs1 (exec (GS1.setInterval value) w)) = value
        /\ if gs1_isRotating (gs1 w)
           then gs1_timerInterval (gs1 (exec (GS1.setInterval value) w))
                = Some (nextTimerId w)
                /\ gs1_remaining (gs1 (exec (GS1.setInterval value) w))
                   = value
                /\ nextTimerId (exec (GS1.setInterval value) w)
                   = S (nextTimerId w)
           else exec (GS1.setInterval value) w
                = with_gs1 (gs1_set_timerValue value) w).
Proof.
  unfold DM.setInterval, GS1.setInterval, exec.
  destruct (PrimFloat.is_nan value || (value <=? 0)%float).
  - split; reflexivity.
  - split.
    + unfold bind at 1 2 3 4 5. unfold modify at 1 3 5 7 9.
      unfold bind at 1 2 3 4 5. unfold modify at 1 2 3 4 5.
      set (w0 := with_dm (set_remaining value) _).
      destruct (startTimer_run E w0)
        as (w' & Hrun & Hint & Hval & Hrem & Hid & _).
      rewrite Hrun. cbn [fst snd].
      rewrite Hint, Hval, Hrem, Hid. repeat split; reflexivity.
    + unfold bind, modify, get.
      cbn [gs1 with_gs1 gs1_set_timerValue gs1_isRotating].
      destruct (gs1_isRotating (gs1 w)); repeat split; reflexivity.
Qed.

(** C5, as stated, fails in the DataMatrix controller: with no timer
    running, [setInterval(5)] starts one. *)
Lemma dm_setInterval_starts_stopped_timer :
  dm_timerInterval (dm Sample.world) = None
  /\ dm_timerInterval
       (dm (exec (DM.setInterval (E := Sample.env) 5) Sample.world))
     = Some 1.
Proof. split; reflexivity. Qed.

(** ** The activity log over sequences of operations *)





(** ** Rotation and replay *)

Lemma uniqueCount_le (codes : list CachedCode) :
  DM.uniqueCount codes <= List.length codes.
Proof.
  unfold DM.uniqueCount. rewrite <- (List.length_map rotationIdx codes).
  generalize (map rotationIdx codes). intros l.
  induction l as [|x l IH]; simpl; [lia|].
  destruct (in_dec Nat.eq_dec x l); simpl; lia.
Qed.















(** In the mode differentDM the start and the call that follows it each
    generate two payloads and append one entry; in the plain mode each
    generates one. *)
Lemma rotation_differentDM_generates_twice :
  map (fun w =>
         let w1 := exec (DM.startRotation (E := Sample.env)) w in
         let w2 := nexts (E := Sample.env) 1 w1 in
         (count_generated w1, count_generated w2,
          List.length (dm_generatedCodes (dm w2))))
      [Sample.world; Sample.world_differentDM]
  = [(1, 2, 2); (2, 4, 2)].
Proof. vm_compute. reflexivity. Qed.

(** * Further properties of the encoders *)

(** ** Strings and slices *)

Lemma substring_0_0 (s : string) : substring 0 0 s = "".
Proof. now destruct s. Qed.

Lemma substring_empty (n m : nat) : substring n m "" = "".
Proof. destruct n, m; reflexivity. Qed.

Lemma substring_substring (s : string) (a m b n : nat) :
  a + m <= n -> substring a m (substring b n s) = substring (b + a) m s.
Proof.
  revert a m b n; induction s as [|c r IH]; intros a m b n H.
  - now rewrite !substring_empty.
  - destruct b as [|b]; [|cbn [substring Nat.add]; now apply IH].
    destruct n as [|n].
    + assert (a = 0) by lia. assert (m = 0) by lia. subst. reflexivity.
    + cbn [substring Nat.add]. destruct a as [|a].
      * destruct m as [|m]; [reflexivity|]. cbn [substring].
        f_equal. apply (IH 0 m 0 n). lia.
      * cbn [substring]. apply (IH a m 0 n). lia.
Qed.

(** ** Slices *)
Lemma substring_app (s : string) (a m k : nat) :
  substring a m s ++ substring (a + m) k s = substring a (m + k) s.
Proof.
  revert a m; induction s as [|c r IH]; intros a m.
  - now rewrite !substring_empty.
  - destruct a as [|a]; [|cbn [substring Nat.add]; apply IH].
    destruct m as [|m]; [reflexivity|].
    cbn [substring Nat.add append]. f_equal. apply (IH 0 m).
Qed.

Lemma slice_split (s : string) (p : nat) :
  substring 0 p s ++ slice_from s p = s.
Proof.
  unfold slice_from. rewrite (substring_app s 0 p).
  apply substring_0_all. lia.
Qed.

Lemma length_slice_from (s : string) (b : nat) :
  String.length (slice_from s b) = String.length s - b.
Proof. unfold slice_from. rewrite length_substring. lia. Qed.

Lemma slice_from_app (s t : string) :
  slice_from (s ++ t) (String.length s) = t.
Proof.
  unfold slice_from. rewrite length_append.
  replace (String.length s + String.length t - String.length s)
    with (String.length t) by lia.
  induction s as [|c s IH]; [|exact IH].
  cbn [append String.length]. apply substring_0_all. lia.
Qed.

(** ** The four methods *)
Lemma length_pos (s : string) : s <> "" -> 0 < String.length s.
Proof. destruct s; [contradiction | simpl; lia]. Qed.

Lemma eqb_empty_false (s : string) : s <> "" -> (s =? "") = false.
Proof. intros H. now apply String.eqb_neq. Qed.

Lemma append_inj_l (s a b : string) : s ++ a = s ++ b -> a = b.
Proof.
  induction s as [|c s IH]; [trivial|].
  cbn [append]. intros H. injection H as H. now apply IH.
Qed.

Lemma all_in_append (a s t : string) :
  all_in a (s ++ t) = all_in a s && all_in a t.
Proof.
  induction s as [|c s IH]; [reflexivity|].
  cbn [append all_in]. destruct (indexOf c a); [exact IH | reflexivity].
Qed.

Lemma padZeros_digits (value : string) (width : nat) :
  all_digits value = true -> all_digits (padZeros value width) = true.
Proof.
  intros H. unfold padZeros. rewrite all_digits_append, H, andb_true_r.
  induction (width - String.length value) as [|n IH]; [reflexivity|exact IH].
Qed.

Lemma padZeros_exact (value : string) (width : nat) :
  String.length value <= width -> String.length (padZeros value width) = width.
Proof. intros H. rewrite padZeros_length. lia. Qed.

(** A number below ten prints as one character, a digit. *)
Lemma string_of_digit_char (n : nat) :
  n <= 9 ->
  exists d, string_of_nat n = String d "" /\ is_digit d = true
            /\ digit_value d = n.
Proof.
  intros H.
  do 10 (destruct n as [|n]; [eexists; repeat split; reflexivity|]).
  lia.
Qed.

(** ** The weight-barcode encoder, prefixes 49 and 22 *)

(** A discount that is missing, zero or NaN is encoded as 00. *)
Lemma or_zero_falsy (discount : option float) :
  match discount with
  | Some d => PrimFloat.is_nan d || PrimFloat.is_zero d = true
  | None => True
  end ->
  padZeros (toString (or_zero discount)) 2 = "00".
Proof.
  destruct discount as [d|]; [|reflexivity].
  intros H. unfold or_zero. rewrite H. reflexivity.
Qed.

(** X1: for prefix '49' [generateWeightBarcode] never fails: it returns
    '49', the PLU left-padded with zeros to 9 characters, the discount
    ([discount || 0]) to 2, the weight to 5, and the check digit
    [Utils.calcControlCore] gives for these, with format CODE128, echoing
    the arguments in the result. Before the check digit the payload has
    2 + max(9, |plu|) + max(2, |discount|) + max(5, |weight|) characters,
    and a discount that is missing, zero or NaN fills its field with 00. *)
Theorem weight_barcode_49_layout (E : Env) (plu : string) (weight : float)
    (discount : option float) :
  let body := "49" ++ padZeros plu 9
              ++ padZeros (toString (or_zero discount)) 2
              ++ padZeros (toString weight) 5 in
  generateWeightBarcode "49" plu weight discount
  = Ok {| wb_code := body ++ string_of_nat (calcControlCore body);
          wb_format := "CODE128"; wb_weight := weight; wb_plu := plu;
          wb_prefix := "49"; wb_discount := discount |}
  /\ String.length body
     = 2 + Nat.max 9 (String.length plu)
       + Nat.max 2 (String.length (toString (or_zero discount)))
       + Nat.max 5 (String.length (toString weight))
  /\ (match discount with
      | Some d => PrimFloat.is_nan d || PrimFloat.is_zero d = true
      | None => True
      end ->
      body = "49" ++ padZeros plu 9 ++ "00" ++ padZeros (toString weight) 5).
Proof.
  intros body. split; [reflexivity|]. split.
  - unfold body.
    change ("49" ++ ?x) with (String "4" (String "9" x)).
    cbn [String.length].
    rewrite !length_append, !padZeros_length. lia.
  - intros H. unfold body. now rewrite (or_zero_falsy discount H).
Qed.

Lemma valid_ean13_built (d : string) :
  String.length d = 12 -> all_digits d = true ->
  valid_ean13 (d ++ string_of_nat (ean13_digit d)).
Proof.
  intros Hl Hd. exists (ean13_digit d).
  assert (Hs : substring 0 12 (d ++ string_of_nat (ean13_digit d)) = d)
    by (rewrite <- Hl; apply substring_0_append).
  rewrite Hs. split; [now apply calcControlEAN13_valid | reflexivity].
Qed.

(** X2: for a prefix other than '77' and '49', a PLU of at most 5 digits
    and a weight that prints as at most 5 digits, [generateWeightBarcode]
    returns a code of 13 digits that starts with 22 and is a valid EAN-13
    (its last digit is the check digit of the 12 before it);
    [generateSimple] leaves this code as it is. *)
Theorem weight_barcode_ean13_valid (E : Env) (prefix plu : string)
    (weight : float) (discount : option float)
    (H77 : prefix <> "77") (H49 : prefix <> "49")
    (Hplu : all_digits plu = true /\ String.length plu <= 5)
    (Hweight : all_digits (toString weight) = true
               /\ String.length (toString weight) <= 5) :
  exists code,
    generateWeightBarcode prefix plu weight discount
    = Ok {| wb_code := code; wb_format := "EAN13"; wb_weight := weight;
            wb_plu := plu; wb_prefix := prefix; wb_discount := discount |}
    /\ String.length code = 13
    /\ all_digits code = true
    /\ substring 0 2 code = "22"
    /\ valid_ean13 code
    /\ generateSimple code "EAN13"
       = Ok {| sb_code := code; sb_format := "EAN13" |}.
Proof.
  destruct Hplu as [Hp1 Hp2]. destruct Hweight as [Hw1 Hw2].
  set (body := "22" ++ padZeros plu 5 ++ padZeros (toString weight) 5).
  assert (Hlen : String.length body = 12).
  { unfold body. change ("22" ++ ?x) with (String "2" (String "2" x)).
    cbn [String.length]. rewrite length_append, !padZeros_exact by assumption.
    reflexivity. }
  assert (Hdig : all_digits body = true).
  { unfold body. change ("22" ++ ?x) with (String "2" (String "2" x)).
    cbn [all_digits]. rewrite all_digits_append, !padZeros_digits by assumption.
    reflexivity. }
  pose proof (ean13_digit_range body) as Hrange.
  destruct (string_of_digit _ Hrange) as [Hl1 Hd1].
  exists (body ++ string_of_nat (ean13_digit body)).
  split.
  { unfold generateWeightBarcode.
    apply String.eqb_neq in H77, H49. rewrite H77, H49. fold body.
    rewrite (calcControlEAN13_valid body Hlen Hdig). reflexivity. }
  split; [rewrite length_append, Hlen, Hl1; reflexivity|].
  split; [rewrite all_digits_append, Hdig, Hd1; reflexivity|].
  split.
  { unfold body. change ("22" ++ ?x) with (String "2" (String "2" x)).
    cbn [append substring]. now rewrite substring_0_0. }
  split; [now apply valid_ean13_built|].
  unfold generateSimple.
  rewrite trim_digits by (rewrite all_digits_append, Hdig, Hd1; reflexivity).
  rewrite length_append, Hlen, Hl1. reflexivity.
Qed.

Lemma weight_barcode_ean13_valid_witness :
  exists code,
    generateWeightBarcode (E := Sample.env) "22" "12345" 1500 None
    = Ok {| wb_code := code; wb_format := "EAN13"; wb_weight := 1500%float;
            wb_plu := "12345"; wb_prefix := "22"; wb_discount := None |}
    /\ String.length code = 13
    /\ all_digits code = true
    /\ substring 0 2 code = "22"
    /\ valid_ean13 code
    /\ generateSimple code "EAN13"
       = Ok {| sb_code := code; sb_format := "EAN13" |}.
Proof.
  apply (weight_barcode_ean13_valid Sample.env "22" "12345" 1500 None).
  - discriminate.
  - discriminate.
  - split; [reflexivity | simpl; lia].
  - split; [vm_compute; reflexivity | vm_compute; lia].
Defined.

(** ** The simple encoder *)







(** ** The unique ID *)

Lemma charAt_chars_in (k : nat) :
  k < 36 -> all_in chars (charAt chars k) = true.
Proof.
  intros H. do 36 (destruct k as [|k]; [reflexivity|]). lia.
Qed.

Lemma uniqueId_loop_alphabet (E : Env) (n pos : nat) :
  all_in chars (uniqueId_loop n pos) = true.
Proof.
  revert pos; induction n as [|n IH]; intros pos; [reflexivity|].
  rewrite uniqueId_loop_step, all_in_append, IH, charAt_chars_in.
  - reflexivity.
  - apply Nat.mod_upper_bound. discriminate.
Qed.

Lemma charAt_chars_get (k : nat) :
  k < 36 ->
  exists c, charAt chars k = String c "" /\ String.get k chars = Some c.
Proof.
  intros H. do 36 (destruct k as [|k]; [eexists; split; reflexivity|]). lia.
Qed.

Lemma uniqueId_loop_get (E : Env) (n pos i : nat) :
  i < n ->
  String.get i (uniqueId_loop n pos)
  = String.get (entropy (pos + i) mod 36) chars.
Proof.
  revert pos i; induction n as [|n IH]; intros pos i Hi; [lia|].
  rewrite uniqueId_loop_step.
  destruct (charAt_chars_get (entropy pos mod 36)) as (c & Hc & Hg);
    [apply Nat.mod_upper_bound; discriminate|].
  rewrite Hc. cbn [append]. destruct i as [|i].
  - cbn [String.get]. now rewrite Nat.add_0_r, Hg.
  - cbn [String.get]. rewrite IH by lia.
    replace (S pos + i) with (pos + S i) by lia. reflexivity.
Qed.

(** X4: [generateUniqueId] always returns 8 characters, each a capital
    letter or a digit: the [i]-th is the character of the 36-character
    alphabet the [i]-th next draw of the random source points at. The call
    consumes exactly 8 draws and changes nothing else. *)
Theorem unique_id_shape (E : Env) (w : World) :
  exists id,
    generateUniqueId w = (Ok id, set_randomPos (randomPos w + 8) w)
    /\ String.length id = 8
    /\ all_in "ABCDEFGHIJKLMNOPQRSTUVWXYZ0123456789" id = true
    /\ forall i, i < 8 ->
         String.get i id
         = String.get (entropy (randomPos w + i) mod 36)
             "ABCDEFGHIJKLMNOPQRSTUVWXYZ0123456789".
Proof.
  exists (uniqueId_loop 8 (randomPos w)).
  split; [reflexivity|].
  split; [apply uniqueId_loop_length|].
  split; [apply uniqueId_loop_alphabet|].
  intros i Hi. now apply uniqueId_loop_get.
Qed.

(** ** The extraction of the GTIN *)

Lemma run_at_inv (dmCode run : string) (i : nat) :
  run_at dmCode i = Some run ->
  substring i 2 dmCode = "01" /\ run = substring (i + 2) 14 dmCode.
Proof.
  unfold run_at. intros H.
  destruct (String.eqb_spec (substring i 2 dmCode) "01") as [H01|];
    [|discriminate].
  destruct (String.length (substring (i + 2) 14 dmCode) =? 14)%nat;
    [|discriminate].
  destruct (all_digits (substring (i + 2) 14 dmCode)); [|discriminate].
  cbn [andb] in H. injection H as <-. now split.
Qed.

(** X5: [extractEAN13FromDM] never fails, and what it returns, when it
    is not null, is always a well-formed EAN-13: 13 digits, the last one
    the check digit of the 12 before it, which are the 12 characters that
    follow a marker '01' and one more digit in the code. The first digit
    and the check digit of the embedded GTIN-14 are not read. *)
Theorem extracted_ean13_valid (dmCode : string) :
  exists r,
    extractEAN13FromDM dmCode = Ok r
    /\ forall e, r = Some e ->
         String.length e = 13 /\ all_digits e = true /\ valid_ean13 e
         /\ exists i, substring i 2 dmCode = "01"
                      /\ substring (i + 3) 12 dmCode = substring 0 12 e.
Proof.
  destruct (match_AI01 dmCode) as [run|] eqn:Hm.
  - rewrite (extractEAN13FromDM_found _ _ Hm). eexists. split; [reflexivity|].
    intros e He. injection He as <-.
    apply match_AI01_first in Hm. destruct Hm as (i & Hi & _).
    destruct (run_at_shape _ _ _ Hi) as [Hl Hd].
    destruct (run_at_inv _ _ _ Hi) as [H01 Hrun].
    set (d := substring 1 12 run).
    assert (Hdl : String.length d = 12)
      by (unfold d; rewrite length_substring, Hl; reflexivity).
    assert (Hdd : all_digits d = true)
      by (unfold d; now apply all_digits_substring).
    pose proof (ean13_digit_range d) as Hrange.
    destruct (string_of_digit _ Hrange) as [Hl1 Hd1].
    split; [rewrite length_append, Hdl, Hl1; reflexivity|].
    split; [rewrite all_digits_append, Hdd, Hd1; reflexivity|].
    split; [now apply valid_ean13_built|].
    exists i. split; [exact H01|].
    assert (Hs : substring 0 12 (d ++ string_of_nat (ean13_digit d)) = d)
      by (rewrite <- Hdl; apply substring_0_append).
    rewrite Hs. unfold d. rewrite Hrun, substring_substring by lia.
    f_equal. lia.
  - unfold extractEAN13FromDM. rewrite Hm. eexists. split; [reflexivity|].
    discriminate.
Qed.

(** ** The template lookup of the DataMatrix encoder *)

(** X6: [generateDM] looks the template up under [templateId], or under
    the selected template when [templateId] is missing or empty. When the
    template exists the call returns its name and the barcode it was given,
    and makes two calls, in this order: the template's [generate] and
    [State.addToHistory] with the generated code. When it does not exist
    the call raises a TypeError: nothing is logged, and the controller
    state and the page are left as they were. *)
Theorem generateDM_template_lookup (E : Env)
    (barcode templateId : option string)
    (w : World) :
  let id := match truthy templateId with
            | Some t => t
            | None => dm_selectedTemplate (dm w)
            end in
  match TEMPLATES id with
  | Some t =>
      exists r w',
        generateDM barcode templateId w = (Ok r, w')
        /\ r_templateName r = Config.name t
        /\ (truthy barcode <> None -> truthy barcode = Some (r_barcode r))
        /\ calls w'
           = (calls w ++ [CallTemplateGenerate (r_barcode r) (r_code r);
                          CallAddToHistory "DM" (r_code r)])%list
  | None =>
      fst (generateDM barcode templateId w) = Throw TypeError
      /\ calls (exec (generateDM barcode templateId) w) = calls w
      /\ dm (exec (generateDM barcode templateId) w) = dm w
      /\ page (exec (generateDM barcode templateId) w) = page w
  end.
Proof.
  intros id. destruct (TEMPLATES id) as [t|] eqn:Ht.
  - destruct (generateDM_run E barcode templateId w t Ht)
      as (r & w' & Hrun & Hname & _ & _ & _ & _ & Hcalls).
    exists r, w'. split; [exact Hrun|]. split; [exact Hname|].
    split; [|exact Hcalls].
    intros Hb. revert Hrun. unfold generateDM, bind, get. fold id.
    rewrite Ht. destruct (truthy barcode) as [b|]; [|contradiction].
    unfold ret, addToHistory, modify.
    destruct (Config.generate t b (randomPos w)).
    intros H. injection H as <- _. reflexivity.
  - unfold exec, generateDM, bind, get. fold id. rewrite Ht.
    destruct (truthy barcode); unfold getNextDemoGtin, bind, get, modify,
      ret, throw; repeat split; reflexivity.
Qed.

(** ** The GS1 encoder: weight items, items without a discount *)

Lemma gs1_goodsId_ok (params : Gs1Params) :
  goodsId_digits params <> "" ->
  (substring 0 8 (goodsId_digits params) =? "") = false.
Proof.
  intros H. apply String.eqb_neq. intros He.
  apply substring_0_empty in He. contradiction.
Qed.

(** X7: for type 'weight' and a GoodsId with at least one digit,
    [generateGS1Code] returns the prefix, AI 240 with the first 8 digits of
    the GoodsId and AI 3103 with the weight ([weight || 0]) left-padded
    with zeros to 6 characters, each closed by the group separator; with a
    positive discount AI 98 and AI 21 follow, the unique ID being the one
    supplied or else a generated one that consumes 8 draws of the random
    source. The quantity and the decimal position are not read and AI 97
    is never emitted; a missing weight is encoded as 000000. *)
Theorem gs1_weight_layout (E : Env) (params : Gs1Params) (w : World)
    (Hdigits : goodsId_digits params <> "")
    (Htype : type params = "weight") :
  let gid := substring 0 8 (goodsId_digits params) in
  let grams := padZeros (toString (or_zero (weight params))) 6 in
  let base := "99MPUC" ++ GS_CHAR ++ "240" ++ gid ++ GS_CHAR
              ++ "3103" ++ grams ++ GS_CHAR in
  generateGS1Code params w
  = match discount params with
    | Some d =>
        if (0 <? d)%float then
          match truthy (uniqueId params) with
          | Some u =>
              (Ok (base ++ "98" ++ padZeros (toString d) 2 ++ GS_CHAR
                   ++ "21" ++ u ++ GS_CHAR), w)
          | None =>
              (Ok (base ++ "98" ++ padZeros (toString d) 2 ++ GS_CHAR
                   ++ "21" ++ uniqueId_loop 8 (randomPos w) ++ GS_CHAR),
               set_randomPos (randomPos w + 8) w)
          end
        else (Ok base, w)
    | None => (Ok base, w)
    end
  /\ String.length grams
     = Nat.max 6 (String.length (toString (or_zero (weight params))))
  /\ (weight params = None -> grams = "000000").
Proof.
  intros gid grams base.
  split;
    [|split; [apply padZeros_length
             | intros H; unfold grams; now rewrite H]].
  unfold generateGS1Code. fold (goodsId_digits params). fold gid.
  unfold gid at 1. rewrite (gs1_goodsId_ok params Hdigits).
  rewrite Htype. cbn [String.eqb Ascii.eqb Bool.eqb].
  rewrite discount_segments_run.
  unfold PREFIX, AI_GOODS_ID, AI_WEIGHT, AI_DISCOUNT, AI_UNIQUE_ID.
  fold grams.
  replace (("99MPUC" ++ GS_CHAR) ++ "240" ++ gid ++ GS_CHAR) with
    ("99MPUC" ++ GS_CHAR ++ "240" ++ gid ++ GS_CHAR)
    by (now rewrite !append_assoc).
  replace (("99MPUC" ++ GS_CHAR ++ "240" ++ gid ++ GS_CHAR)
           ++ "3103" ++ grams ++ GS_CHAR)
    with base by (unfold base; now rewrite !append_assoc).
  destruct (discount params) as [d|]; [|reflexivity].
  destruct (0 <? d)%float; [|reflexivity].
  destruct (truthy (uniqueId params)); now rewrite !append_assoc.
Qed.

Lemma gs1_weight_layout_witness :
  generateGS1Code (E := Sample.env) Sample.weight_params Sample.world
  = (Ok ("99MPUC" ++ GS_CHAR ++ "240123" ++ GS_CHAR ++ "3103000500"
         ++ GS_CHAR ++ "9810" ++ GS_CHAR ++ "21ABCDEFGH" ++ GS_CHAR),
     set_randomPos 8 Sample.world).
Proof.
  assert (Hg : goodsId_digits Sample.weight_params <> "")
    by (vm_compute; discriminate).
  destruct (gs1_weight_layout Sample.env Sample.weight_params Sample.world
              Hg eq_refl) as [H _].
  vm_compute in H |- *. exact H.
Defined.

(** X8: for type 'piece', a GoodsId with at least one digit and a
    discount that is missing or not positive (zero, negative or NaN),
    [generateGS1Code] returns the prefix, AI 240, AI 37 and, when the
    decimal position is positive, AI 97, and nothing else: no AI 98, no
    AI 21 even when a unique ID is supplied, and the state is left as it
    was (no draw of the random source). The quantity of AI 37 is
    round(quantity * p), where p is 10^decimalPosition itself up to 10^22
    and what the engine's [Math.pow] returns beyond. *)
Theorem gs1_piece_without_discount (E : Env) (params : Gs1Params) (w : World)
    (Hdigits : goodsId_digits params <> "")
    (Htype : type params = "piece")
    (Hdiscount : match discount params with
                 | Some d => (0 <? d)%float = false
                 | None => True
                 end) :
  let gid := substring 0 8 (goodsId_digits params) in
  let q := or_zero (quantity params) in
  let dp := match decimalPosition params with
            | Some n => n
            | None => calculateDecimalPosition q
            end in
  let qtyRaw := Math_round (q * pow10 engine_pow10 dp)%float in
  generateGS1Code params w
  = (Ok ("99MPUC" ++ GS_CHAR ++ "240" ++ gid ++ GS_CHAR
         ++ "37" ++ padZeros (toString qtyRaw) 8 ++ GS_CHAR
         ++ (if (0 <? dp)%nat
             then "97" ++ string_of_nat dp ++ GS_CHAR else "")), w)
  /\ (dp <= 22 -> qtyRaw = Math_round (q * of_Z (10 ^ Z.of_nat dp))%float).
Proof.
  intros gid q dp qtyRaw.
  split; [|intros Hdp; unfold qtyRaw; now rewrite pow10_exact].
  unfold generateGS1Code. fold (goodsId_digits params). fold gid.
  unfold gid at 1. rewrite (gs1_goodsId_ok params Hdigits).
  rewrite Htype, String.eqb_refl. fold q. fold dp. fold qtyRaw.
  unfold bind. rewrite discount_segments_run.
  assert (Hd : match discount params with
               | Some d => if (0 <? d)%float then true else false
               | None => false
               end = false).
  { destruct (discount params) as [d|]; [now rewrite Hdiscount | reflexivity]. }
  unfold ret, PREFIX, AI_GOODS_ID, AI_QUANTITY, AI_DECIMAL_POS.
  destruct (discount params) as [d|];
    [rewrite Hdiscount|];
    destruct (0 <? dp)%nat; rewrite ?append_empty_r, ?append_assoc;
    reflexivity.
Qed.

Lemma gs1_piece_without_discount_witness :
  generateGS1Code (E := Sample.env) Sample.plain_piece_params Sample.world
  = (Ok ("99MPUC" ++ GS_CHAR ++ "240123" ++ GS_CHAR ++ "3700001245"
         ++ GS_CHAR ++ "972" ++ GS_CHAR), Sample.world).
Proof.
  assert (Hg : goodsId_digits Sample.plain_piece_params <> "")
    by (vm_compute; discriminate).
  pose proof (proj1 (gs1_piece_without_discount Sample.env
                       Sample.plain_piece_params Sample.world Hg eq_refl I))
    as H.
  vm_compute in H |- *. exact H.
Defined.

(** X9: the only effect of [generateGS1Code] on the state is on the random
    source: it consumes 8 draws when it succeeds with a positive discount
    and no unique ID supplied, and otherwise, in particular when it raises
    an error, leaves the state exactly as it was. *)
Theorem gs1_state_effect (E : Env) (params : Gs1Params) (w : World) :
  exec (generateGS1Code params) w
  = if is_ok (fst (generateGS1Code params w))
       && match discount params with
          | Some d => (0 <? d)%float
          | None => false
          end
       && match truthy (uniqueId params) with
          | Some _ => false
          | None => true
          end
    then set_randomPos (randomPos w + 8) w
    else w.
Proof.
  unfold exec, generateGS1Code. fold (goodsId_digits params).
  destruct (substring 0 8 (goodsId_digits params) =? ""); [reflexivity|].
  destruct (type params =? "piece").
  - unfold bind. rewrite discount_segments_run.
    destruct (discount params) as [d|]; [|reflexivity].
    destruct (0 <? d)%float; [|reflexivity].
    destruct (truthy (uniqueId params)); reflexivity.
  - destruct (type params =? "weight"); [|reflexivity].
    rewrite discount_segments_run.
    destruct (discount params) as [d|]; [|reflexivity].
    destruct (0 <? d)%float; [|reflexivity].
    destruct (truthy (uniqueId params)); reflexivity.
Qed.

(** * The code mutator *)

(** ** The random source *)

(** ** The random source *)
Lemma random_index_run (E : Env) (n : nat) (w : World) :
  random_index n w
  = (Ok (if (n =? 0)%nat then 0 else entropy (randomPos w) mod n),
     set_randomPos (S (randomPos w)) w).
Proof. reflexivity. Qed.

Lemma set_randomPos_twice (p q : nat) (w : World) :
  set_randomPos p (set_randomPos q w) = set_randomPos p w.
Proof. reflexivity. Qed.

Lemma charAt_junk (k : nat) :
  k < 12 ->
  String.length (charAt junkChars k) = 1
  /\ all_in junkChars (charAt junkChars k) = true.
Proof.
  intros H. do 12 (destruct k as [|k]; [split; reflexivity|]). lia.
Qed.

Lemma junk_loop_run (E : Env) (n : nat) (w : World) :
  exists junk,
    junk_loop n w = (Ok junk, set_randomPos (randomPos w + n) w)
    /\ String.length junk = n
    /\ all_in junkChars junk = true.
Proof.
  revert w; induction n as [|n IH]; intros w.
  - exists "". cbn [junk_loop]. unfold ret. rewrite Nat.add_0_r.
    destruct w; repeat split; reflexivity.
  - cbn [junk_loop]. unfold bind at 1. rewrite random_index_run.
    destruct (IH (set_randomPos (S (randomPos w)) w))
      as (rest & Hrun & Hl & Ha).
    unfold bind at 1. rewrite Hrun. unfold ret.
    destruct (charAt_junk (entropy (randomPos w) mod 12)) as [Hc1 Hc2];
      [apply Nat.mod_upper_bound; discriminate|].
    eexists. split; [|split].
    + cbn [randomPos set_randomPos]. rewrite set_randomPos_twice.
      replace (S (randomPos w) + n) with (randomPos w + S n) by lia.
      reflexivity.
    + cbn [Nat.eqb String.length junkChars]. rewrite length_append, Hl.
      change (String.length junkChars) with 12 in *.
      cbn [Nat.eqb]. rewrite Hc1. reflexivity.
    + change (String.length junkChars) with 12. cbn [Nat.eqb].
      rewrite all_in_append, Hc2, Ha. reflexivity.
Qed.

(** ** Damage to the digits *)

(** ** Digit-wise damage *)
Lemma digitwise_refl (s : string) : digitwise s s = true.
Proof.
  induction s as [|c s IH]; [reflexivity|].
  cbn [digitwise]. now rewrite Ascii.eqb_refl, IH.
Qed.

Lemma digitwise_append (s1 t1 s2 t2 : string) :
  digitwise s1 t1 = true -> digitwise s2 t2 = true ->
  digitwise (s1 ++ s2) (t1 ++ t2) = true.
Proof.
  revert t1; induction s1 as [|c s1 IH]; intros [|d t1] H1 H2;
    try discriminate; [exact H2|].
  cbn [append digitwise] in *.
  apply andb_true_iff in H1. destruct H1 as [Hc H1].
  now rewrite Hc, IH.
Qed.

Lemma digitwise_length (s t : string) :
  digitwise s t = true -> String.length s = String.length t.
Proof.
  revert t; induction s as [|c s IH]; intros [|d t] H; try discriminate;
    [reflexivity|].
  cbn [digitwise] in H. apply andb_true_iff in H. destruct H as [_ H].
  cbn [String.length]. f_equal. now apply IH.
Qed.

(** The run of [corrupt_gtin]: the text keeps its length and its
    characters that are not digits; a digit that is hit becomes another
    digit; one or two draws are made for each character. *)
Lemma corrupt_gtin_run (E : Env) (gtinPart : string) (w : World) :
  exists out n,
    corrupt_gtin gtinPart w = (Ok out, set_randomPos (randomPos w + n) w)
    /\ digitwise gtinPart out = true
    /\ String.length gtinPart <= n <= 2 * String.length gtinPart
    /\ ((forall k, 3 <= entropy k mod 10) -> out = gtinPart).
Proof.
  revert w; induction gtinPart as [|c rest IH]; intros w.
  - exists "", 0. cbn [corrupt_gtin]. unfold ret. rewrite Nat.add_0_r.
    destruct w. repeat split; try reflexivity; simpl; lia.
  - cbn [corrupt_gtin]. unfold random_below_tenths.
    unfold bind at 1. unfold bind at 1. rewrite random_index_run.
    unfold ret at 1. cbn [Nat.eqb].
    set (w1 := set_randomPos (S (randomPos w)) w).
    destruct ((entropy (randomPos w) mod 10 <? 3)%nat && is_digit c) eqn:Hhit.
    + apply andb_true_iff in Hhit. destruct Hhit as [Hlt Hc].
      unfold bind at 1. unfold bind at 1. rewrite random_index_run.
      unfold ret at 1. cbn [Nat.eqb].
      set (w2 := set_randomPos (S (randomPos w1)) w1).
      destruct (IH w2) as (tail & n & Hrun & Hd & Hn & _).
      unfold bind at 1. rewrite Hrun. unfold ret.
      destruct (string_of_digit_char
                  ((digit_value c + entropy (randomPos w1) mod 9 + 1) mod 10))
        as (d & Hs & Hdd & _).
      { pose proof (Nat.mod_upper_bound
                      (digit_value c + entropy (randomPos w1) mod 9 + 1) 10).
        lia. }
      exists (string_of_nat
                ((digit_value c + entropy (randomPos w1) mod 9 + 1) mod 10)
              ++ tail), (2 + n).
      split; [|split; [|split]].
      * unfold w2, w1. cbn [randomPos set_randomPos].
        rewrite !set_randomPos_twice.
        replace (S (S (randomPos w)) + n) with (randomPos w + (2 + n)) by lia.
        reflexivity.
      * rewrite Hs. cbn [append digitwise]. now rewrite Hc, Hdd, orb_true_r, Hd.
      * cbn [String.length]. lia.
      * intros Hall. apply Nat.ltb_lt in Hlt.
        specialize (Hall (randomPos w)). lia.
    + unfold bind at 1. unfold ret at 1.
      destruct (IH w1) as (tail & n & Hrun & Hd & Hn & Hsame).
      unfold bind at 1. rewrite Hrun. unfold ret.
      exists (String c tail), (1 + n).
      split; [|split; [|split]].
      * unfold w1. cbn [randomPos set_randomPos].
        rewrite !set_randomPos_twice.
        replace (S (randomPos w) + n) with (randomPos w + (1 + n)) by lia.
        reflexivity.
      * cbn [digitwise]. now rewrite Ascii.eqb_refl, Hd.
      * cbn [String.length]. lia.
      * intros Hall. now rewrite (Hsame Hall).
Qed.

Lemma corrupt_digits_run (E : Env) (code : string) (w : World) :
  exists out n,
    corrupt_digits code w = (Ok out, set_randomPos (randomPos w + n) w)
    /\ digitwise code out = true
    /\ n <= String.length code
    /\ ((forall k, 2 <= entropy k mod 10) -> out = code).
Proof.
  revert w; induction code as [|c rest IH]; intros w.
  - exists "", 0. cbn [corrupt_digits]. unfold ret. rewrite Nat.add_0_r.
    destruct w. repeat split; try reflexivity; simpl; lia.
  - cbn [corrupt_digits]. destruct (is_digit c) eqn:Hc.
    + unfold random_below_tenths.
      unfold bind at 1. unfold bind at 1. rewrite random_index_run.
      unfold ret at 1. cbn [Nat.eqb].
      set (w1 := set_randomPos (S (randomPos w)) w).
      destruct (IH w1) as (tail & n & Hrun & Hd & Hn & Hsame).
      unfold bind at 1. rewrite Hrun. unfold ret.
      destruct (string_of_digit_char ((digit_value c + 5) mod 10))
        as (d & Hs & Hdd & _).
      { pose proof (Nat.mod_upper_bound (digit_value c + 5) 10). lia. }
      eexists. exists (1 + n).
      split; [|split; [|split]].
      * unfold w1. cbn [randomPos set_randomPos].
        rewrite !set_randomPos_twice.
        replace (S (randomPos w) + n) with (randomPos w + (1 + n)) by lia.
        reflexivity.
      * destruct (entropy (randomPos w) mod 10 <? 2)%nat.
        -- rewrite Hs. cbn [append digitwise].
           now rewrite Hc, Hdd, orb_true_r, Hd.
        -- cbn [append digitwise]. now rewrite Ascii.eqb_refl, Hd.
      * cbn [String.length]. lia.
      * intros Hall.
        destruct (Nat.ltb_spec (entropy (randomPos w) mod 10) 2) as [Hlt|Hge].
        -- specialize (Hall (randomPos w)). lia.
        -- cbn [append]. now rewrite (Hsame Hall).
    + unfold bind at 1. unfold ret at 1.
      destruct (IH w) as (tail & n & Hrun & Hd & Hn & Hsame).
      unfold bind at 1. rewrite Hrun. unfold ret.
      exists (String c tail), n.
      split; [reflexivity|]. split; [|split].
      * cbn [digitwise]. now rewrite Ascii.eqb_refl, Hd.
      * cbn [String.length]. lia.
      * intros Hall. now rewrite (Hsame Hall).
Qed.

(** ** The methods of [breakDataMatrix] *)

(** X10: on a code that is not empty, the method 'removeChars', which is
    also the default when no method is given, cuts out one run of
    characters: between 5 and 10 of them, from a position such that the
    last character of a code longer than the run is never cut. The result
    has the length of the code less the run (it is empty when the code is
    not longer than the run), so it always differs from the code; two
    draws of the random source are consumed. *)
Theorem break_removeChars (E : Env) (code : string) (method : option string)
    (w : World)
    (Hcode : code <> "")
    (Hmethod : truthy method = None \/ method = Some "removeChars") :
  let removeCount := entropy (randomPos w) mod 6 + 5 in
  let maxPos := String.length code - removeCount in
  let position :=
    if (maxPos =? 0)%nat then 0 else entropy (S (randomPos w)) mod maxPos in
  let out := substring 0 position code
             ++ slice_from code (position + removeCount) in
  breakDataMatrix code method w = (Ok out, set_randomPos (randomPos w + 2) w)
  /\ 5 <= removeCount <= 10
  /\ String.length out = String.length code - removeCount
  /\ out <> code
  /\ (removeCount < String.length code ->
      position + removeCount < String.length code).
Proof.
  intros removeCount maxPos position out.
  pose proof (length_pos code Hcode) as Hpos.
  assert (Hcount : 5 <= removeCount <= 10).
  { unfold removeCount.
    pose proof (Nat.mod_upper_bound (entropy (randomPos w)) 6). lia. }
  assert (Hposition : position <= maxPos /\ (0 < maxPos -> position < maxPos)).
  { unfold position. destruct (Nat.eqb_spec maxPos 0); [lia|].
    pose proof (Nat.mod_upper_bound (entropy (S (randomPos w))) maxPos). lia. }
  assert (Hlen : String.length out = String.length code - removeCount).
  { unfold out. rewrite length_append, length_substring_0, length_slice_from.
    unfold maxPos in *. lia. }
  split; [|split; [exact Hcount|split; [exact Hlen|split]]].
  - unfold breakDataMatrix. rewrite (eqb_empty_false code Hcode).
    assert (Hm : match truthy method with
                 | Some m => m
                 | None => "removeChars"
                 end = "removeChars").
    { destruct Hmethod as [H|H]; rewrite H; reflexivity. }
    rewrite Hm. cbn [String.eqb Ascii.eqb Bool.eqb].
    unfold bind at 1. unfold ret at 1.
    cbn [String.eqb Ascii.eqb Bool.eqb].
    unfold bind at 1. rewrite random_index_run. cbn [Nat.eqb].
    unfold bind at 1. rewrite random_index_run. unfold ret.
    cbn [randomPos set_randomPos]. rewrite set_randomPos_twice.
    unfold slice. rewrite Nat.sub_0_r.
    replace (S (S (randomPos w))) with (randomPos w + 2) by lia.
    reflexivity.
  - intros H. rewrite H in Hlen. lia.
  - intros Hlt. unfold maxPos in *. lia.
Qed.

Lemma break_removeChars_witness :
  breakDataMatrix (E := Sample.env) "0104810099003310215abc" None
    Sample.world
  = (Ok "00099003310215abc", set_randomPos 2 Sample.world)
  /\ String.length "00099003310215abc"
     = String.length "0104810099003310215abc" - 5.
Proof.
  assert (Hcode : "0104810099003310215abc" <> "") by discriminate.
  destruct (break_removeChars Sample.env "0104810099003310215abc" None
              Sample.world Hcode (or_introl eq_refl))
    as (Hrun & _ & Hlen & _).
  split; [exact Hrun | exact Hlen].
Defined.

(** X11: the method 'wrongChecksum' never fails and keeps the shape of the
    code: the result has the same length, the same characters wherever the
    code holds no digit, and a digit wherever it holds one. When the code
    starts with '01' and has at least 16 characters only the 14 characters
    of the GTIN can change, at the cost of 14 to 28 draws. The damage is
    not guaranteed: when no draw falls below the threshold the code comes
    back unchanged. *)
Theorem break_wrongChecksum (E : Env) (code : string) (w : World) :
  exists out n,
    breakDataMatrix code (Some "wrongChecksum") w
    = (Ok out, set_randomPos (randomPos w + n) w)
    /\ digitwise code out = true
    /\ String.length out = String.length code
    /\ n <= 2 * String.length code
    /\ ((substring 0 2 code =? "01") && (16 <=? String.length code)%nat = true
        -> substring 0 2 out = "01"
           /\ slice_from out 16 = slice_from code 16
           /\ 14 <= n <= 28)
    /\ ((forall k, 3 <= entropy k mod 10) -> out = code).
Proof.
  assert (Hw : set_randomPos (randomPos w + 0) w = w)
    by (rewrite Nat.add_0_r; now destruct w).
  destruct code as [|c0 code0] eqn:Hcode.
  { exists "", 0. rewrite Hw. repeat split; try reflexivity; try lia.
    all: discriminate. }
  rewrite <- Hcode.
  assert (Hne : code <> "") by (rewrite Hcode; discriminate).
  unfold breakDataMatrix. rewrite (eqb_empty_false code Hne).
  cbn [truthy String.eqb Ascii.eqb Bool.eqb].
  unfold bind at 1. unfold ret at 1.
  cbn [String.eqb Ascii.eqb Bool.eqb].
  destruct ((substring 0 2 code =? "01") && (16 <=? String.length code)%nat)
    eqn:Hai.
  - apply andb_true_iff in Hai. destruct Hai as [H01 H16].
    apply String.eqb_eq in H01. apply Nat.leb_le in H16.
    unfold slice. cbn [Nat.sub].
    set (gtin := substring 2 14 code).
    assert (Hsplit : code = "01" ++ gtin ++ slice_from code 16).
    { rewrite <- H01. unfold gtin, slice_from.
      rewrite (substring_app code 2 14), (substring_app code 0 2).
      symmetry. apply substring_0_all. lia. }
    assert (Hgl : String.length gtin = 14).
    { unfold gtin. rewrite length_substring. lia. }
    destruct (corrupt_gtin_run E gtin w) as (cg & n & Hrun & Hd & Hn & Hsame).
    unfold bind. rewrite Hrun. unfold ret.
    exists ("01" ++ cg ++ slice_from code 16), n.
    assert (Hdw : digitwise code ("01" ++ cg ++ slice_from code 16) = true).
    { rewrite Hsplit at 1.
      apply digitwise_append; [reflexivity|].
      apply digitwise_append; [exact Hd | apply digitwise_refl]. }
    split; [reflexivity|]. split; [exact Hdw|].
    split; [symmetry; now apply digitwise_length|].
    split; [lia|]. split.
    + intros _.
      split; [cbn [append substring]; now rewrite substring_0_0|].
      split; [|lia].
      rewrite <- (append_assoc "01" cg (slice_from code 16)).
      assert (H16' : String.length ("01" ++ cg) = 16).
      { rewrite length_append, <- (digitwise_length _ _ Hd), Hgl.
        reflexivity. }
      pose proof (slice_from_app ("01" ++ cg) (slice_from code 16)) as Hs.
      rewrite H16' in Hs. exact Hs.
    + intros Hall. rewrite (Hsame Hall). symmetry. exact Hsplit.
  - destruct (corrupt_digits_run E code w)
      as (out & n & Hrun & Hd & Hn & Hsame).
    exists out, n. split; [exact Hrun|]. split; [exact Hd|].
    split; [symmetry; now apply digitwise_length|].
    split; [lia|]. split; [discriminate|].
    intros Hall. apply Hsame. intros k. specialize (Hall k). lia.
Qed.

Lemma count_char_append (c : ascii) (s t : string) :
  count_char c (s ++ t) = count_char c s + count_char c t.
Proof.
  induction s as [|d s IH]; [reflexivity|].
  cbn [append count_char]. rewrite IH. lia.
Qed.

Lemma replace_char_count (c : ascii) (r s : string) :
  count_char c r = 0 -> count_char c (replace_char c r s) = 0.
Proof.
  intros Hr. induction s as [|d s IH]; [reflexivity|].
  cbn [replace_char]. destruct (Ascii.eqb d c) eqn:Hd.
  - rewrite count_char_append, Hr, IH. reflexivity.
  - cbn [count_char]. now rewrite Hd, IH.
Qed.

Lemma replace_char_length (c : ascii) (r s : string) :
  String.length (replace_char c r s) + count_char c s
  = String.length s + String.length r * count_char c s.
Proof.
  induction s as [|d s IH]; [cbn; lia|].
  cbn [replace_char count_char]. destruct (Ascii.eqb d c).
  - rewrite length_append. cbn [String.length]. lia.
  - cbn [String.length]. lia.
Qed.

Lemma replace_char_none (c : ascii) (r s : string) :
  count_char c s = 0 -> replace_char c r s = s.
Proof.
  induction s as [|d s IH]; [reflexivity|].
  cbn [replace_char count_char]. destruct (Ascii.eqb d c); [discriminate|].
  intros H. now rewrite IH.
Qed.

(** X12: the method 'replaceGS' replaces every group separator (0x1D) by
    '|||' and draws nothing from the random source: no separator is left,
    the code grows by two characters for each separator, and a code
    without separators comes back unchanged. *)
Theorem break_replaceGS (E : Env) (code : string) (w : World) :
  let GS := ascii_of_nat 29 in
  let out := replace_char GS "|||" code in
  breakDataMatrix code (Some "replaceGS") w = (Ok out, w)
  /\ count_char GS out = 0
  /\ String.length out = String.length code + 2 * count_char GS code
  /\ (out = code <-> count_char GS code = 0).
Proof.
  intros GS out.
  assert (Hlen : String.length out
                 = String.length code + 2 * count_char GS code).
  { pose proof (replace_char_length GS "|||" code) as H.
    fold out in H. cbn [String.length] in H. lia. }
  split; [|split; [|split; [exact Hlen|]]].
  - unfold breakDataMatrix. destruct code as [|c code]; [reflexivity|].
    cbn [String.eqb truthy]. reflexivity.
  - apply replace_char_count. reflexivity.
  - split.
    + intros H. rewrite H in Hlen. lia.
    + apply replace_char_none.
Qed.

(** X13: on a code that is not empty, the method 'addJunk' inserts 10 to
    15 characters of the junk alphabet at one position before the last
    character of the code: the code is the result with the junk taken
    out, and the result is longer than the code by the length of the
    junk. The call consumes one draw for each junk character and two
    more. *)
Theorem break_addJunk (E : Env) (code : string) (w : World)
    (Hcode : code <> "") :
  exists junk insertPos,
    breakDataMatrix code (Some "addJunk") w
    = (Ok (substring 0 insertPos code ++ junk ++ slice_from code insertPos),
       set_randomPos (randomPos w + (String.length junk + 2)) w)
    /\ String.length junk = entropy (randomPos w) mod 6 + 10
    /\ 10 <= String.length junk <= 15
    /\ all_in "XYZQW!@#$%&*" junk = true
    /\ insertPos < String.length code
    /\ substring 0 insertPos code ++ slice_from code insertPos = code
    /\ String.length
         (substring 0 insertPos code ++ junk ++ slice_from code insertPos)
       = String.length code + String.length junk.
Proof.
  pose proof (length_pos code Hcode) as Hpos.
  unfold breakDataMatrix. rewrite (eqb_empty_false code Hcode).
  cbn [truthy String.eqb Ascii.eqb Bool.eqb].
  unfold bind at 1. unfold ret at 1.
  cbn [String.eqb Ascii.eqb Bool.eqb].
  unfold bind at 1. rewrite random_index_run. cbn [Nat.eqb].
  set (w1 := set_randomPos (S (randomPos w)) w).
  destruct (junk_loop_run E (entropy (randomPos w) mod 6 + 10) w1)
    as (junk & Hrun & Hl & Ha).
  unfold bind at 1. rewrite Hrun.
  unfold bind at 1. rewrite random_index_run. unfold ret.
  destruct (Nat.eqb_spec (String.length code) 0) as [H0|H0]; [lia|].
  exists junk. eexists. split; [|split; [|split; [|split; [|split; [|split]]]]].
  - unfold slice. rewrite Nat.sub_0_r.
    unfold w1. cbn [randomPos set_randomPos]. rewrite !set_randomPos_twice.
    rewrite Hl.
    replace (S (S (randomPos w) + (entropy (randomPos w) mod 6 + 10)))
      with (randomPos w + (entropy (randomPos w) mod 6 + 10 + 2)) by lia.
    reflexivity.
  - exact Hl.
  - pose proof (Nat.mod_upper_bound (entropy (randomPos w)) 6). lia.
  - exact Ha.
  - apply Nat.mod_upper_bound. lia.
  - apply slice_split.
  - rewrite !length_append, length_substring_0, length_slice_from. lia.
Qed.

Lemma break_addJunk_witness :
  exists junk insertPos,
    fst (breakDataMatrix (E := Sample.env) "0104810099003310215abc"
           (Some "addJunk") Sample.world)
    = Ok (substring 0 insertPos "0104810099003310215abc" ++ junk
          ++ slice_from "0104810099003310215abc" insertPos)
    /\ 10 <= String.length junk <= 15.
Proof.
  assert (Hcode : "0104810099003310215abc" <> "") by discriminate.
  destruct (break_addJunk Sample.env "0104810099003310215abc" Sample.world
              Hcode) as (junk & insertPos & Hrun & _ & Hlen & _).
  exists junk, insertPos. split; [now rewrite Hrun | exact Hlen].
Defined.

(** X14: [breakDataMatrix] returns an empty code as it is, whatever the
    method, and returns any code unchanged for a method it does not know,
    in both cases without a draw of the random source; the method 'random'
    consumes one draw to pick one of the four methods and then behaves as
    that method does. *)
Theorem break_edge_cases (E : Env) (code : string) (method : option string)
    (w : World) :
  breakDataMatrix "" method w = (Ok "", w)
  /\ (forall m,
         method = Some m -> m <> "" -> m <> "random" -> ~ In m methods ->
         breakDataMatrix code method w = (Ok code, w))
  /\ (code <> "" ->
      breakDataMatrix code (Some "random") w
      = breakDataMatrix code
          (Some (nth (entropy (randomPos w) mod 4) methods ""))
          (set_randomPos (S (randomPos w)) w)).
Proof.
  split; [reflexivity|]. split.
  - intros m -> Hm Hr Hin. unfold breakDataMatrix.
    destruct (code =? ""); [reflexivity|].
    assert (Ht : truthy (Some m) = Some m)
      by (destruct m; [contradiction|reflexivity]).
    rewrite Ht.
    apply String.eqb_neq in Hr. rewrite Hr.
    unfold bind at 1. unfold ret at 1.
    cbn [methods In] in Hin.
    destruct (String.eqb_spec m "removeChars");
      [exfalso; apply Hin; subst m; auto 10|].
    destruct (String.eqb_spec m "wrongChecksum");
      [exfalso; apply Hin; subst m; auto 10|].
    destruct (String.eqb_spec m "replaceGS");
      [exfalso; apply Hin; subst m; auto 10|].
    destruct (String.eqb_spec m "addJunk");
      [exfalso; apply Hin; subst m; auto 10|].
    reflexivity.
  - intros Hne. unfold breakDataMatrix. rewrite (eqb_empty_false code Hne).
    cbn [truthy]. rewrite String.eqb_refl.
    unfold bind at 1. unfold bind at 1. rewrite random_index_run.
    unfold ret at 1. cbn [List.length methods Nat.eqb].
    pose proof (Nat.mod_upper_bound (entropy (randomPos w)) 4) as Hb.
    destruct (entropy (randomPos w) mod 4) as [|[|[|[|k]]]]; [| | | |lia];
      reflexivity.
Qed.

(** * The config-driven encoder *)

(** The loop over the fields, in closed form. *)
Lemma build_fields_run (values : string -> option string)
    (fields : list Field) (code : string) (hasError : bool) :
  build_fields fields values code hasError
  = (code ++ fields_text values fields,
     hasError || negb (forallb (fits values) fields)).
Proof.
  revert code hasError; induction fields as [|field rest IH];
    intros code hasError; cbn [build_fields fields_text fold_right forallb].
  - now rewrite append_empty_r, orb_false_r.
  - rewrite IH. fold (field_digits values field).
    fold (fields_text values rest). rewrite append_assoc. f_equal.
    unfold fits at 2.
    rewrite Nat.ltb_antisym, negb_andb, orb_assoc. reflexivity.
Qed.

Lemma fields_text_length (values : string -> option string)
    (fields : list Field) :
  forallb (fits values) fields = true ->
  String.length (fields_text values fields) = fields_width fields.
Proof.
  induction fields as [|field rest IH]; [reflexivity|].
  cbn [forallb fields_text fields_width fold_right]. intros H.
  apply andb_true_iff in H. destruct H as [Hf Hr].
  fold (fields_text values rest). fold (fields_width rest).
  rewrite length_append, IH by exact Hr.
  rewrite padZeros_exact; [reflexivity|]. now apply Nat.leb_le.
Qed.

(** X15: [generateFromConfig] returns null, without an error and without
    a draw, when the type is not in the table or when the digits of some
    field are more than its width. Otherwise the code is the prefix, the
    fields in order, each left-padded with zeros to its width, so
    |prefix| + the sum of the widths characters, and a check digit: the
    fixed one of the format, which [simulateError] never alters, or the
    one computed by the EAN-13 algorithm (type 'ean13_weight') or by the
    core algorithm. *)
Theorem config_encoder_layout (E : Env) (T : Tables) (fuel : nat)
    (typeId : string) (values : string -> option string)
    (simulateError : bool) (w : World) :
  match BARCODE_CONFIGS typeId with
  | None =>
      generateFromConfig fuel typeId values simulateError w
      = (Ok (Returned None), w)
  | Some cfg =>
      if forallb (fits values) (cfg_fields cfg) then
        let body := cfg_prefix cfg ++ fields_text values (cfg_fields cfg) in
        String.length body
        = String.length (cfg_prefix cfg) + fields_width (cfg_fields cfg)
        /\ match cfg_fixedControl cfg with
           | Some fixedControl =>
               generateFromConfig fuel typeId values simulateError w
               = (Ok (Returned (Some {| cb_code := body ++ fixedControl;
                                        cb_format := cfg_format cfg |})), w)
           | None =>
               generateFromConfig fuel typeId values false w
               = (res_map
                    (fun ctrl =>
                       Returned (Some {| cb_code := body ++ string_of_nat ctrl;
                                         cb_format := cfg_format cfg |}))
                    (if typeId =? "ean13_weight" then calcControlEAN13 body
                     else Ok (calcControlCore body)), w)
           end
      else
        generateFromConfig fuel typeId values simulateError w
        = (Ok (Returned None), w)
  end.
Proof.
  unfold generateFromConfig.
  destruct (BARCODE_CONFIGS typeId) as [cfg|]; [|reflexivity].
  rewrite build_fields_run. cbn [orb].
  destruct (forallb (fits values) (cfg_fields cfg)) eqn:Hfit; [|reflexivity].
  cbn [negb]. split.
  { rewrite length_append, fields_text_length by exact Hfit. reflexivity. }
  destruct (cfg_fixedControl cfg) as [fixedControl|].
  - rewrite andb_false_r. reflexivity.
  - cbn [andb]. unfold bind, lift, ret.
    destruct (typeId =? "ean13_weight"); [|reflexivity].
    destruct (calcControlEAN13 _); reflexivity.
Qed.

Lemma drawn_digit_shape (E : Env) (w : World) (k : nat) :
  String.length (drawn_digit w k) = 1 /\ all_digits (drawn_digit w k) = true.
Proof.
  apply string_of_digit.
  pose proof (Nat.mod_upper_bound (entropy (randomPos w + k)) 10). lia.
Qed.

(** The loop ends at the first draw that differs from [ctrl]. *)
Lemma badCtrl_loop_run (E : Env) (T : Tables) (fuel : nat) (ctrl : string)
    (w : World) :
  (exists k, k < fuel /\ drawn_digit w k <> ctrl) ->
  exists k,
    k < fuel
    /\ badCtrl_loop fuel ctrl w
       = (Ok (Returned (drawn_digit w k)),
          set_randomPos (randomPos w + S k) w)
    /\ drawn_digit w k <> ctrl
    /\ forall j, j < k -> drawn_digit w j = ctrl.
Proof.
  revert w; induction fuel as [|fuel IH]; intros w (k0 & Hk0 & Hne); [lia|].
  cbn [badCtrl_loop]. unfold bind. rewrite random_index_run. cbn [Nat.eqb].
  destruct (String.eqb_spec (string_of_nat (entropy (randomPos w) mod 10)) ctrl)
    as [Heq|Hneq].
  - destruct k0 as [|k0].
    { exfalso. apply Hne. unfold drawn_digit. now rewrite Nat.add_0_r. }
    destruct (IH (set_randomPos (S (randomPos w)) w))
      as (k & Hk & Hrun & Hd & Hfirst).
    { exists k0. split; [lia|]. unfold drawn_digit in *.
      cbn [randomPos set_randomPos].
      replace (S (randomPos w) + k0) with (randomPos w + S k0) by lia.
      exact Hne. }
    assert (Hshift : forall j,
               drawn_digit (set_randomPos (S (randomPos w)) w) j
               = drawn_digit w (S j)).
    { intros j. unfold drawn_digit. cbn [randomPos set_randomPos].
      replace (S (randomPos w) + j) with (randomPos w + S j) by lia.
      reflexivity. }
    exists (S k). split; [lia|]. split; [|split].
    + rewrite Hrun, Hshift. cbn [randomPos set_randomPos].
      rewrite set_randomPos_twice.
      replace (S (randomPos w) + S k) with (randomPos w + S (S k)) by lia.
      reflexivity.
    + now rewrite <- Hshift.
    + intros [|j] Hj.
      * unfold drawn_digit. now rewrite Nat.add_0_r.
      * rewrite <- Hshift. apply Hfirst. lia.
  - exists 0. split; [lia|]. split; [|split].
    + unfold ret, drawn_digit. rewrite Nat.add_0_r.
      replace (randomPos w + 1) with (S (randomPos w)) by lia. reflexivity.
    + unfold drawn_digit. now rewrite Nat.add_0_r.
    + intros j Hj. lia.
Qed.

(** The loop is still running when every draw so far gave [ctrl]. *)
Lemma badCtrl_loop_stuck (E : Env) (T : Tables) (fuel : nat) (ctrl : string)
    (w : World) :
  (forall k, k < fuel -> drawn_digit w k = ctrl) ->
  badCtrl_loop fuel ctrl w
  = (Ok StillLooping, set_randomPos (randomPos w + fuel) w).
Proof.
  revert w; induction fuel as [|fuel IH]; intros w H.
  - cbn [badCtrl_loop]. unfold ret. rewrite Nat.add_0_r. now destruct w.
  - cbn [badCtrl_loop]. unfold bind. rewrite random_index_run. cbn [Nat.eqb].
    pose proof (H 0 ltac:(lia)) as H0. unfold drawn_digit in H0.
    rewrite Nat.add_0_r in H0. rewrite H0, String.eqb_refl.
    rewrite IH.
    + cbn [randomPos set_randomPos]. rewrite set_randomPos_twice.
      replace (S (randomPos w) + fuel) with (randomPos w + S fuel) by lia.
      reflexivity.
    + intros k Hk. specialize (H (S k) ltac:(lia)).
      unfold drawn_digit in *. cbn [randomPos set_randomPos].
      replace (S (randomPos w) + k) with (randomPos w + S k) by lia.
      exact H.
Qed.

(** X16: for a format with a computed check digit, [simulateError] changes
    the check digit and nothing else: the loop draws digits until one
    differs from the right check digit, and as soon as one of the first
    [fuel] draws differs the call returns the code with that digit in the
    place of the check digit, a single digit other than the right one, in
    the same format; so long as every draw gives the right digit the loop
    goes on. *)
Theorem config_encoder_simulated_error (E : Env) (T : Tables) (fuel : nat)
    (typeId : string) (values : string -> option string) (w : World)
    (cfg : BarcodeConfig) (good : ConfigBarcode)
    (Hcfg : BARCODE_CONFIGS typeId = Some cfg)
    (Hcomputed : cfg_fixedControl cfg = None)
    (Hgood : generateFromConfig fuel typeId values false w
             = (Ok (Returned (Some good)), w)) :
  exists body ctrl,
    cb_code good = body ++ ctrl
    /\ body = cfg_prefix cfg ++ fields_text values (cfg_fields cfg)
    /\ ((exists k, k < fuel /\ drawn_digit w k <> ctrl) ->
        exists k bad,
          k < fuel
          /\ generateFromConfig fuel typeId values true w
             = (Ok (Returned (Some bad)),
                set_randomPos (randomPos w + S k) w)
          /\ cb_code bad = body ++ drawn_digit w k
          /\ drawn_digit w k <> ctrl
          /\ (forall j, j < k -> drawn_digit w j = ctrl)
          /\ String.length (drawn_digit w k) = 1
          /\ all_digits (drawn_digit w k) = true
          /\ cb_format bad = cb_format good
          /\ cb_code bad <> cb_code good)
    /\ ((forall k, k < fuel -> drawn_digit w k = ctrl) ->
        fst (generateFromConfig fuel typeId values true w) = Ok StillLooping).
Proof.
  revert Hgood. unfold generateFromConfig. rewrite Hcfg, Hcomputed.
  rewrite build_fields_run. cbn [orb andb].
  destruct (forallb (fits values) (cfg_fields cfg)); [|discriminate].
  cbn [negb].
  set (body := cfg_prefix cfg ++ fields_text values (cfg_fields cfg)).
  unfold bind at 1 3 5.
  destruct ((if typeId =? "ean13_weight"
             then lift (res_map string_of_nat (calcControlEAN13 body))
             else ret (string_of_nat (calcControlCore body))) w)
    as [[ctrl|e] w0] eqn:Hctrl; [|discriminate].
  assert (Hw0 : w0 = w).
  { destruct (typeId =? "ean13_weight"); unfold lift, ret in Hctrl;
      now injection Hctrl. }
  subst w0. unfold bind at 1. unfold ret at 1 2.
  intros Hgood. injection Hgood as <-. cbn [cb_code cb_format].
  exists body, ctrl. split; [reflexivity|]. split; [reflexivity|]. split.
  - intros Hdraw.
    destruct (badCtrl_loop_run E T fuel ctrl w Hdraw)
      as (k & Hk & Hrun & Hne & Hfirst).
    destruct (drawn_digit_shape E w k) as [Hl Hd].
    exists k. eexists. split; [exact Hk|].
    unfold bind. rewrite Hrun. unfold ret.
    split; [reflexivity|]. cbn [cb_code cb_format].
    repeat split; try assumption.
    intros H. apply append_inj_l in H. contradiction.
  - intros Hall. unfold bind.
    rewrite (badCtrl_loop_stuck E T fuel ctrl w Hall). reflexivity.
Qed.

Lemma config_encoder_simulated_error_witness :
  exists bad,
    generateFromConfig (E := Sample.env) (T := Sample.tables) 5 "code128_19"
      Sample.form_values true Sample.world
    = (Ok (Returned (Some bad)), set_randomPos 2 Sample.world)
    /\ cb_code bad = "490000123450001500" ++ "1"
    /\ cb_code bad <> "490000123450001500" ++ "0".
Proof.
  destruct (config_encoder_simulated_error Sample.env Sample.tables 5
              "code128_19" Sample.form_values Sample.world
              {| cfg_prefix := "49";
                 cfg_fields := [{| field_name := "plu"; field_length := 9 |};
                                {| field_name := "discount";
                                   field_length := 2 |};
                                {| field_name := "weight";
                                   field_length := 5 |}];
                 cfg_fixedControl := None;
                 cfg_format := "CODE128" |}
              {| cb_code := "4900001234500015000"; cb_format := "CODE128" |}
              eq_refl eq_refl eq_refl)
    as (body & ctrl & Hgood & Hbody & Hbad & _).
  assert (Hb : body = "490000123450001500").
  { rewrite Hbody. vm_compute. reflexivity. }
  subst body. cbn [cb_code] in Hgood.
  assert (Hc : ctrl = "0").
  { symmetry. apply (append_inj_l "490000123450001500"). exact Hgood. }
  subst ctrl.
  destruct Hbad as (k & bad & Hk & Hrun & Hcode & Hne & Hfirst & _).
  { exists 1. split; [lia | discriminate]. }
  assert (Hk1 : k = 1).
  { destruct k as [|[|k]]; [exfalso; now apply Hne | reflexivity |].
    specialize (Hfirst 1 ltac:(lia)). discriminate Hfirst. }
  subst k. exists bad. split; [exact Hrun|]. split; [exact Hcode|].
  rewrite Hcode. discriminate.
Defined.

(** * Further properties of the controllers *)

(** ** Frames *)

Lemma preserves_ret {A B} (f : World -> B) (a : A) : preserves f (ret a).
Proof. intros w. reflexivity. Qed.

Lemma preserves_throw {A B} (f : World -> B) (e : JsError) :
  preserves f (@throw A e).
Proof. intros w. reflexivity. Qed.

Lemma preserves_lift {A B} (f : World -> B) (r : Res A) :
  preserves f (lift r).
Proof. intros w. reflexivity. Qed.

Lemma preserves_get {B} (f : World -> B) : preserves f get.
Proof. intros w. reflexivity. Qed.

Lemma preserves_modify {B} (f : World -> B) (g : World -> World) :
  (forall w, f (g w) = f w) -> preserves f (modify g).
Proof. intros H w. apply H. Qed.

Lemma preserves_bind {A B C} (f : World -> C) (c : M A) (k : A -> M B) :
  preserves f c -> (forall a, preserves f (k a)) -> preserves f (bind c k).
Proof.
  intros Hc Hk w. unfold bind. specialize (Hc w).
  destruct (c w) as [[a|e] w1]; cbn [snd] in *.
  - rewrite <- Hc. apply Hk.
  - exact Hc.
Qed.

Lemma preserves_item_at {A B} (f : World -> B) (l : list A) (i : nat) :
  preserves f (item_at l i).
Proof.
  unfold item_at. destruct (nth_error l i);
    [apply preserves_ret | apply preserves_throw].
Qed.

(** One step of a proof that a computation preserves a part of the
    state. *)
Ltac preserves_step :=
  match goal with
  | |- preserves _ (bind _ _) => apply preserves_bind; [|intros ?]
  | |- preserves _ (ret _) => apply preserves_ret
  | |- preserves _ (throw _) => apply preserves_throw
  | |- preserves _ (lift _) => apply preserves_lift
  | |- preserves _ get => apply preserves_get
  | |- preserves _ (item_at _ _) => apply preserves_item_at
  | |- preserves _ (modify _) => apply preserves_modify; intros; reflexivity
  | |- preserves _ (if ?b then _ else _) => destruct b
  | |- preserves _ (match ?x with _ => _ end) => destruct x
  | |- preserves _ _ => progress cbv beta zeta
  end.

(** The definitions a generation or a replay is made of. *)
Ltac unfold_display :=
  unfold DM.generateAndDisplay, DM.displayFromCache, DM.secondaryFor,
    DM.getActiveDoubleScanMode, DM.showCodeInfo, DM.renderPrimaryCode,
    DM.renderSecondaryCode, DM.updateCodeText, generateDM, getNextDemoGtin,
    addToHistory.

Lemma frame_generateAndDisplay (E : Env) :
  preserves dm_display_frame DM.generateAndDisplay.
Proof. unfold_display. repeat preserves_step. Qed.

Lemma frame_displayFromCache (E : Env) (index : Z) :
  preserves dm_display_frame (DM.displayFromCache index).
Proof. unfold_display. repeat preserves_step. Qed.

(** The definitions the handlers are made of. *)
Ltac unfold_handlers :=
  unfold Main.handle, DM.manualNext, DM.manualPrev, DM.startRotation,
    DM.stopRotation, DM.setInterval, DM.timerCallback, DM.startTimer,
    DM.stopTimer, DM.alert, DM.hideCodeInfo, DM.togglePlayState,
    GS1.startRotation, GS1.stopRotation, GS1.manualNext, GS1.manualPrev,
    GS1.setInterval, GS1.timerCallback, GS1.clearSelected, GS1.startTimer,
    GS1.stopTimer, GS1.displayCode, GS1.displayCodeManual, GS1.show_item,
    DM.arm_interval;
  unfold DM.alert; unfold_display.


(** ** Outcomes *)

Lemma wp_bind {A B} (c : M A) (k : A -> M B) (Q : B -> World -> Prop)
    (X : World -> Prop) (w : World) :
  wp c (fun a w' => wp (k a) Q X w') X w -> wp (bind c k) Q X w.
Proof. unfold wp, bind. destruct (c w) as [[a|e] w']; auto. Qed.

Lemma wp_ret {A} (a : A) (Q : A -> World -> Prop) (X : World -> Prop)
    (w : World) :
  Q a w -> wp (ret a) Q X w.
Proof. auto. Qed.

Lemma wp_throw {A} (e : JsError) (Q : A -> World -> Prop)
    (X : World -> Prop) (w : World) :
  X w -> wp (throw e) Q X w.
Proof. auto. Qed.

Lemma wp_get (Q : World -> World -> Prop) (X : World -> Prop) (w : World) :
  Q w w -> wp get Q X w.
Proof. auto. Qed.

Lemma wp_modify (g : World -> World) (Q : unit -> World -> Prop)
    (X : World -> Prop) (w : World) :
  Q tt (g w) -> wp (modify g) Q X w.
Proof. auto. Qed.

Lemma wp_item_at {A} (l : list A) (i : nat) (Q : A -> World -> Prop)
    (X : World -> Prop) (w : World) :
  (forall a, nth_error l i = Some a -> Q a w) ->
  (nth_error l i = None -> X w) ->
  wp (item_at l i) Q X w.
Proof.
  intros HQ HX. unfold wp, item_at.
  destruct (nth_error l i) as [a|]; cbn; auto.
Qed.

Lemma wp_mono {A} (c : M A) (Q Q' : A -> World -> Prop)
    (X X' : World -> Prop) (w : World) :
  wp c Q X w ->
  (forall a w', Q a w' -> Q' a w') ->
  (forall w', X w' -> X' w') ->
  wp c Q' X' w.
Proof. unfold wp. destruct (c w) as [[a|e] w']; auto. Qed.

(** A computation that preserves [f] ends in a state with the same [f]. *)
Lemma wp_frame {A B} (f : World -> B) (c : M A) (Q : A -> World -> Prop)
    (X : World -> Prop) (w : World) :
  preserves f c ->
  (forall a w', f w' = f w -> Q a w') ->
  (forall w', f w' = f w -> X w') ->
  wp c Q X w.
Proof.
  intros Hf HQ HX. unfold wp. specialize (Hf w).
  destruct (c w) as [[a|e] w']; cbn [snd] in Hf; auto.
Qed.

Lemma wp_exec {A} (c : M A) (P : World -> Prop) (w : World) :
  wp c (fun _ => P) P w -> P (exec c w).
Proof. unfold wp, exec. destruct (c w) as [[a|e] w']; auto. Qed.

Lemma keeps_of_frame {A B} (f : World -> B) (P : World -> Prop) (c : M A) :
  (forall w w', f w' = f w -> P w -> P w') ->
  preserves f c -> keeps P c.
Proof.
  intros HP Hf w Hw. apply (wp_frame f); [exact Hf | |]; intros; eauto.
Qed.

Lemma keeps_bind {A B} (P : World -> Prop) (c : M A) (k : A -> M B) :
  keeps P c -> (forall a, keeps P (k a)) -> keeps P (bind c k).
Proof.
  intros Hc Hk w Hw. apply wp_bind.
  apply (wp_mono _ _ _ _ _ _ (Hc w Hw)); [|auto].
  intros a w' Hw'. apply Hk, Hw'.
Qed.

(** ** The two tabs *)

(** X17: the two tabs do not interfere. No handler of the GS1 tab (start,
    stop, previous, next, interval, clear selected, timer) changes the
    DataMatrix session, its folder, the demo cursor, the random source,
    the double-scan boxes or the texts of the DataMatrix tab; no handler
    of the DataMatrix tab changes the GS1 carousel, its folder or its
    texts. This holds whether the handler returns or throws. *)
Theorem tabs_independent (E : Env) (ev : Main.Event) (w : World) :
  if is_gs1_event ev
  then dm_view (exec (Main.handle ev) w) = dm_view w
  else gs1_view (exec (Main.handle ev) w) = gs1_view w.
Proof.
  destruct ev;
    try match goal with box : Main.Checkbox |- _ => destruct box end;
    cbn [is_gs1_event];
    match goal with
    | |- ?f (exec ?c w) = ?f w =>
        assert (H : preserves f c);
        [unfold_handlers; repeat preserves_step | exact (H w)]
    end.
Qed.

(** ** The counter of the information panel *)

(** X18: with a positive total, [showCodeInfo] shows the barcode, the
    template name and a counter index/total whose index always lies
    between 1 and the total: an index within 1..total is shown as it is,
    a larger one is wrapped to ((index - 1) mod total) + 1, and 0 is
    shown as the total. *)
Theorem code_info_counter (barcode templateName : string) (index total : nat)
    (w : World) (Htotal : 0 < total) :
  exists info,
    DM.showCodeInfo barcode templateName index total w
    = (Ok tt, with_page (set_code_info (Some info)) w)
    /\ info_barcode info = barcode
    /\ info_template info = templateName
    /\ info_total info = total
    /\ 1 <= info_index info <= total
    /\ (1 <= index <= total -> info_index info = index)
    /\ (total < index -> info_index info = (index - 1) mod total + 1)
    /\ (index = 0 -> info_index info = total).
Proof.
  unfold DM.showCodeInfo, modify. eexists. split; [reflexivity|].
  cbn [info_barcode info_template info_total info_index].
  split; [reflexivity|]. split; [reflexivity|]. split; [reflexivity|].
  pose proof (Nat.mod_upper_bound (index - 1) total ltac:(lia)) as Hmod.
  destruct (Nat.ltb_spec total index) as [Hgt|Hle].
  - destruct (Nat.eqb_spec ((index - 1) mod total + 1) 0) as [H0|H0]; [lia|].
    repeat split; intros; lia.
  - destruct (Nat.eqb_spec index 0) as [H0|H0]; repeat split; intros; lia.
Qed.

Lemma code_info_counter_witness :
  exists info,
    DM.showCodeInfo "4810099003310" "Type 1" 7 3 Sample.world
    = (Ok tt, with_page (set_code_info (Some info)) Sample.world)
    /\ info_index info = 1 /\ info_total info = 3.
Proof.
  destruct (code_info_counter "4810099003310" "Type 1" 7 3 Sample.world
              ltac:(lia))
    as (info & Hrun & _ & _ & Htotal & _ & _ & Hwrap & _).
  exists info. split; [exact Hrun|]. split; [|exact Htotal].
  rewrite Hwrap by lia. reflexivity.
Defined.

(** ** The dead test of [manualNext] *)

(** X19: the test of [manualNext] on the number of distinct rotation
    indices never decides anything: when it is reached the history is
    shorter than the rotation list, so the number of distinct indices is
    too, and the branch that replays entry 0 is never taken. [manualNext]
    behaves as the function without the test. *)
Theorem manualNext_unique_test_dead (E : Env) (w : World) :
  DM.manualNext w = manualNext_plain w
  /\ ((0 <? List.length (dm_rotationList (dm w)))%nat
      && (List.length (dm_rotationList (dm w))
          <=? List.length (dm_generatedCodes (dm w)))%nat = false ->
      (0 <? List.length (dm_rotationList (dm w)))%nat
      && (List.length (dm_rotationList (dm w))
          <=? DM.uniqueCount (dm_generatedCodes (dm w)))%nat = false).
Proof.
  assert (Hdead :
            (0 <? List.length (dm_rotationList (dm w)))%nat
            && (List.length (dm_rotationList (dm w))
                <=? List.length (dm_generatedCodes (dm w)))%nat = false ->
            (0 <? List.length (dm_rotationList (dm w)))%nat
            && (List.length (dm_rotationList (dm w))
                <=? DM.uniqueCount (dm_generatedCodes (dm w)))%nat = false).
  { intros H. pose proof (uniqueCount_le (dm_generatedCodes (dm w))) as Hu.
    destruct (Nat.ltb_spec 0 (List.length (dm_rotationList (dm w))));
      [|reflexivity].
    cbn [andb] in *. apply Nat.leb_gt in H. apply Nat.leb_gt. lia. }
  split; [|exact Hdead].
  unfold DM.manualNext, manualNext_plain, bind, get.
  destruct ((0 <? List.length (dm_rotationList (dm w)))%nat
            && (List.length (dm_rotationList (dm w))
                <=? List.length (dm_generatedCodes (dm w)))%nat) eqn:Hfull;
    [reflexivity|].
  destruct ((0 <? List.length (dm_generatedCodes (dm w)))%nat
            && (dm_codeHistoryIndex (dm w)
                <? Z.of_nat (List.length (dm_generatedCodes (dm w))) - 1)%Z);
    [reflexivity|].
  now rewrite (Hdead eq_refl).
Qed.

(** ** Refused rotations *)

(** X20: a rotation that cannot start changes nothing. Without a selected
    folder [startRotation] of either controller only alerts that a folder
    must be selected; with a folder that has no active item it only alerts
    that items must be selected (GTINs, or codes on the GS1 tab). In both
    cases the call returns and the session, the timers and the page are
    as before. *)
Theorem rotation_refused (E : Env) (w : World) :
  (match dmFolder w with
   | None =>
       DM.startRotation w = (Ok tt, log_call (CallAlert SelectFolder) w)
   | Some items =>
       filter active items = [] ->
       DM.startRotation w = (Ok tt, log_call (CallAlert SelectGtin) w)
   end)
  /\ (match gs1Folder w with
      | None =>
          GS1.startRotation w = (Ok tt, log_call (CallAlert SelectFolder) w)
      | Some items =>
          filter gi_active items = [] ->
          GS1.startRotation w = (Ok tt, log_call (CallAlert SelectCodes) w)
      end).
Proof.
  split.
  - unfold DM.startRotation, bind, get. destruct (dmFolder w) as [items|];
      [|reflexivity].
    intros H. rewrite H. reflexivity.
  - unfold GS1.startRotation, bind, get. destruct (gs1Folder w) as [items|];
      [|reflexivity].
    intros H. rewrite H. reflexivity.
Qed.

(** ** Waiting for the rendering library *)

Lemma first_ready_spec (loaded : nat -> bool) (fuel k : nat) :
  let r := first_ready loaded fuel k in
  k < r <= k + fuel + 1
  /\ (forall j, k < j < r -> loaded j = false)
  /\ (r < k + fuel + 1 -> loaded r = true).
Proof.
  revert k; induction fuel as [|fuel IH]; intros k; cbn [first_ready].
  - repeat split; intros; lia.
  - destruct (loaded (S k)) eqn:Hl.
    + repeat split; try lia. intros _. exact Hl.
    + destruct (IH (S k)) as (H1 & H2 & H3).
      split; [lia|]. split.
      * intros j Hj. destruct (Nat.eq_dec j (S k)) as [->|Hne];
          [exact Hl | apply H2; lia].
      * intros H. apply H3. lia.
Qed.

(** The state of the wait after [n] firings, in closed form. *)
Lemma poll_run_closed (loaded : nat -> bool) (n : nat) :
  let r := first_ready loaded (Main.maxAttempts - 1) 0 in
  Main.poll_run loaded n
  = {| Main.attempts := Nat.min n r;
       Main.polling := (n <? r)%nat;
       Main.callbacks := if (n <? r)%nat then 0 else 1 |}.
Proof.
  intros r.
  destruct (first_ready_spec loaded (Main.maxAttempts - 1) 0)
    as (Hr & Hfalse & Htrue).
  fold r in Hr, Hfalse, Htrue. clearbody r.
  change (Main.maxAttempts - 1) with 49 in *.
  induction n as [|n IH]; cbn [Main.poll_run].
  - unfold Main.poll_start. destruct (Nat.ltb_spec 0 r); [|lia].
    reflexivity.
  - rewrite IH. unfold Main.poll_tick.
    cbn [Main.polling Main.attempts Main.callbacks].
    destruct (Nat.ltb_spec n r) as [Hlt|Hge].
    + rewrite Nat.min_l by lia.
      destruct (loaded (S n)) eqn:Hl.
      * assert (r = S n).
        { destruct (Nat.eq_dec r (S n)); [assumption|].
          rewrite Hfalse in Hl by lia. discriminate. }
        subst r. destruct (Nat.ltb_spec (S n) (S n)); [lia|].
        rewrite Nat.min_id. reflexivity.
      * change Main.maxAttempts with 50.
        destruct (Nat.leb_spec 50 (S n)) as [H50|H50].
        -- assert (r = S n) by lia.
           destruct (Nat.ltb_spec (S n) r); [lia|].
           subst r. rewrite Nat.min_id. reflexivity.
        -- assert (S n < r).
           { destruct (Nat.eq_dec r (S n)) as [Heq|]; [|lia].
             rewrite <- Heq, Htrue in Hl by lia. discriminate. }
           destruct (Nat.ltb_spec (S n) r); [|lia].
           rewrite Nat.min_l by lia. reflexivity.
    + destruct (Nat.ltb_spec (S n) r); [lia|].
      rewrite !Nat.min_r by lia. reflexivity.
Qed.

(** X21: [waitForBwipJs] calls its callback exactly once, whatever the
    library does: at the first firing of the 100 ms interval that finds
    the library, or at the 50th firing if none of the first 49 did. Before
    that firing the callback has not run and the interval is armed; from
    it on the interval is cleared, the count of attempts stands still and
    the callback is never called again. *)
Theorem library_wait_calls_back_once (loaded : nat -> bool) (n : nat) :
  let p := Main.poll_run loaded n in
  let r := first_ready loaded (Main.maxAttempts - 1) 0 in
  1 <= r <= 50
  /\ (forall k, 1 <= k < r -> loaded k = false)
  /\ (r < 50 -> loaded r = true)
  /\ Main.callbacks p = (if (n <? r)%nat then 0 else 1)
  /\ Main.polling p = (n <? r)%nat
  /\ Main.attempts p = Nat.min n r
  /\ Main.callbacks p <= 1
  /\ (50 <= n -> Main.callbacks p = 1 /\ Main.polling p = false).
Proof.
  intros p r. unfold p. rewrite poll_run_closed. fold r.
  cbn [Main.callbacks Main.polling Main.attempts].
  destruct (first_ready_spec loaded (Main.maxAttempts - 1) 0)
    as (Hr & Hfalse & Htrue).
  fold r in Hr, Hfalse, Htrue.
  change (Main.maxAttempts - 1) with 49 in *.
  split; [lia|]. split; [intros k Hk; apply Hfalse; lia|].
  split; [intros H; apply Htrue; lia|].
  split; [reflexivity|]. split; [reflexivity|]. split; [reflexivity|].
  split; [destruct (n <? r)%nat; lia|].
  intros H. destruct (Nat.ltb_spec n r); [lia|]. now split.
Qed.

(** ** The GS1 carousel *)

Lemma items_length_pos {A} (l : list A) : l <> [] -> 0 < List.length l.
Proof. destruct l; [contradiction | simpl; lia]. Qed.

(** A display of the carousel: the item under the cursor, taken modulo the
    number of items, is shown, and the cursor advances by one. *)
Lemma show_item_run (items : list Gs1Item) (w : World) :
  items <> [] ->
  (0 <= gs1_rotationIndex (gs1 w))%Z ->
  let n := List.length items in
  let k := Z.to_nat (gs1_rotationIndex (gs1 w)) mod n in
  exists item,
    nth_error items k = Some item
    /\ GS1.show_item items w
       = (Ok item,
          with_gs1 (gs1_set_rotationIndex (gs1_rotationIndex (gs1 w) + 1))
            (log_call (CallRenderGS1QR (gi_code item))
               (with_page
                  (set_gs1_display (gi_code item) ((Z.of_nat k + 1)%Z, n))
                  w))).
Proof.
  intros Hne Hidx n k.
  pose proof (items_length_pos items Hne) as Hn. fold n in Hn.
  assert (Hk : k < n) by (apply Nat.mod_upper_bound; lia).
  assert (Hrem : Z.rem (gs1_rotationIndex (gs1 w)) (Z.of_nat n)
                 = Z.of_nat k).
  { rewrite Z.rem_mod_nonneg by lia. unfold k.
    rewrite Nat2Z.inj_mod, Z2Nat.id by lia. reflexivity. }
  destruct (nth_error items k) as [item|] eqn:Hitem.
  2:{ apply nth_error_None in Hitem. fold n in Hitem. lia. }
  exists item. split; [reflexivity|].
  unfold GS1.show_item, bind, get. fold n. rewrite Hrem.
  destruct (Z.ltb_spec (Z.of_nat k) 0); [lia|].
  unfold item_at. rewrite Nat2Z.id, Hitem. reflexivity.
Qed.

Lemma displayCode_run (w : World) :
  gs1_rotationItems (gs1 w) <> [] ->
  (0 <= gs1_rotationIndex (gs1 w))%Z ->
  let items := gs1_rotationItems (gs1 w) in
  let n := List.length items in
  let k := Z.to_nat (gs1_rotationIndex (gs1 w)) mod n in
  exists item,
    nth_error items k = Some item
    /\ GS1.displayCode w
       = (Ok tt,
          log_call (CallAddToHistory "GS1" (gi_code item))
            (with_gs1 (gs1_set_rotationIndex (gs1_rotationIndex (gs1 w) + 1))
               (log_call (CallRenderGS1QR (gi_code item))
                  (with_page
                     (set_gs1_display (gi_code item) ((Z.of_nat k + 1)%Z, n))
                     w)))).
Proof.
  intros Hne Hidx items n k.
  destruct (show_item_run items w Hne Hidx) as (item & Hitem & Hrun).
  exists item. split; [exact Hitem|].
  unfold GS1.displayCode, bind, get. fold items.
  pose proof (items_length_pos items Hne) as Hn.
  destruct (Nat.eqb_spec (List.length items) 0); [lia|].
  rewrite Hrun. reflexivity.
Qed.

Lemma displayCodeManual_run (w : World) :
  gs1_rotationItems (gs1 w) <> [] ->
  (0 <= gs1_rotationIndex (gs1 w))%Z ->
  let items := gs1_rotationItems (gs1 w) in
  let n := List.length items in
  let k := Z.to_nat (gs1_rotationIndex (gs1 w)) mod n in
  exists item,
    nth_error items k = Some item
    /\ GS1.displayCodeManual w
       = (Ok tt,
          with_gs1 (gs1_set_rotationIndex (gs1_rotationIndex (gs1 w) + 1))
            (log_call (CallRenderGS1QR (gi_code item))
               (with_page
                  (set_gs1_display (gi_code item) ((Z.of_nat k + 1)%Z, n))
                  w))).
Proof.
  intros Hne Hidx items n k.
  destruct (show_item_run items w Hne Hidx) as (item & Hitem & Hrun).
  exists item. split; [exact Hitem|].
  unfold GS1.displayCodeManual, bind, get. fold items.
  pose proof (items_length_pos items Hne) as Hn.
  destruct (Nat.eqb_spec (List.length items) 0); [lia|].
  rewrite Hrun. reflexivity.
Qed.

(** What a display, by the timer or by the button Next, comes to. *)
Lemma gs1_display_step (manual : bool) (w : World) :
  gs1_rotationItems (gs1 w) <> [] ->
  (0 <= gs1_rotationIndex (gs1 w))%Z ->
  let w' := exec (if manual then GS1.manualNext else GS1.displayCode) w in
  fst ((if manual then GS1.manualNext else GS1.displayCode) w) = Ok tt
  /\ gs1_rotationItems (gs1 w') = gs1_rotationItems (gs1 w)
  /\ gs1_rotationIndex (gs1 w') = (gs1_rotationIndex (gs1 w) + 1)%Z
  /\ gs1_isRotating (gs1 w') = gs1_isRotating (gs1 w)
  /\ gs1_timerInterval (gs1 w') = gs1_timerInterval (gs1 w)
  /\ gs1_shows w'
       (Z.to_nat (gs1_rotationIndex (gs1 w))
        mod List.length (gs1_rotationItems (gs1 w))).
Proof.
  intros Hne Hidx. cbv zeta.
  pose proof (items_length_pos _ Hne) as Hn.
  destruct manual.
  - destruct (displayCodeManual_run w Hne Hidx) as (item & Hitem & Hrun).
    unfold exec, GS1.manualNext, bind, get.
    destruct (Nat.ltb_spec 0 (List.length (gs1_rotationItems (gs1 w))));
      [|lia].
    rewrite Hrun. cbn [fst snd].
    unfold gs1_shows.
    cbn [gs1 page with_gs1 with_page log_call gs1_rotationItems
         gs1_rotationIndex gs1_isRotating gs1_timerInterval
         gs1_set_rotationIndex set_gs1_display gs1CodeText
         gs1CarouselCounter].
    rewrite Hitem. repeat split; reflexivity.
  - destruct (displayCode_run w Hne Hidx) as (item & Hitem & Hrun).
    unfold exec. rewrite Hrun. cbn [fst snd].
    unfold gs1_shows.
    cbn [gs1 page with_gs1 with_page log_call gs1_rotationItems
         gs1_rotationIndex gs1_isRotating gs1_timerInterval
         gs1_set_rotationIndex set_gs1_display gs1CodeText
         gs1CarouselCounter].
    rewrite Hitem. repeat split; reflexivity.
Qed.

(** After [j] displays that followed the first one, the carousel over
    [act] shows item [j] modulo the number of items. *)
Lemma gs1_displays_run (act : list Gs1Item) (steps : list bool)
    (j : nat) (w : World) :
  act <> [] ->
  gs1_rotationItems (gs1 w) = act ->
  gs1_rotationIndex (gs1 w) = Z.of_nat (S j) ->
  gs1_shows w (j mod List.length act) ->
  let w' := gs1_displays steps w in
  gs1_rotationItems (gs1 w') = act
  /\ gs1_rotationIndex (gs1 w') = Z.of_nat (S (j + List.length steps))
  /\ gs1_isRotating (gs1 w') = gs1_isRotating (gs1 w)
  /\ gs1_timerInterval (gs1 w') = gs1_timerInterval (gs1 w)
  /\ gs1_shows w' ((j + List.length steps) mod List.length act).
Proof.
  intros Hne. revert j w; induction steps as [|m rest IH];
    intros j w Hitems Hindex Hshows; cbn [gs1_displays List.length].
  - rewrite Nat.add_0_r. repeat split; try assumption; apply Hshows.
  - destruct (gs1_display_step m w) as (_ & Hi & Hx & Hr & Ht & Hs);
      [now rewrite Hitems | lia |].
    set (w1 := exec (if m then GS1.manualNext else GS1.displayCode) w) in *.
    destruct (IH (S j) w1) as (Hi' & Hx' & Hr' & Ht' & Hs').
    + now rewrite Hi.
    + rewrite Hx, Hindex. lia.
    + rewrite Hindex, Hitems, Nat2Z.id in Hs. exact Hs.
    + cbv zeta in *. rewrite Hr', Ht', Hr, Ht.
      replace (j + S (List.length rest)) with (S j + List.length rest) by lia.
      repeat split; try assumption; apply Hs'.
Qed.

(** [startRotation] on a folder with active codes: the first one is shown
    and logged, and the timer is armed. *)
Lemma gs1_startRotation_run (w : World) (items : list Gs1Item) :
  gs1Folder w = Some items ->
  filter gi_active items <> [] ->
  let act := filter gi_active items in
  exists item w',
    GS1.startRotation w = (Ok tt, w')
    /\ nth_error act 0 = Some item
    /\ gs1 w'
       = {| gs1_rotationItems := act; gs1_rotationIndex := 1;
            gs1_isRotating := true; gs1_timerValue := gs1_timerValue (gs1 w);
            gs1_remaining := gs1_timerValue (gs1 w);
            gs1_timerInterval := Some (nextTimerId w) |}
    /\ gs1_shows w' 0
    /\ calls w'
       = (calls w ++ [CallRenderGS1QR (gi_code item);
                      CallAddToHistory "GS1" (gi_code item)])%list
    /\ dm w' = dm w.
Proof.
  intros Hfolder Hne act.
  unfold GS1.startRotation, bind at 1, get at 1. rewrite Hfolder. fold act.
  change (act <> []) in Hne. clearbody act.
  pose proof (items_length_pos act Hne) as Hn.
  destruct (Nat.eqb_spec (List.length act) 0); [lia|].
  unfold bind at 1. unfold modify at 1.
  set (w0 := with_gs1 _ w).
  destruct (displayCode_run w0) as (item & Hitem & Hrun);
    [exact Hne | cbn; lia |].
  unfold bind at 1. rewrite Hrun.
  cbn [gs1 w0 with_gs1 gs1_rotationItems gs1_set_isRotating
       gs1_set_rotationIndex gs1_set_rotationItems gs1_rotationIndex] in *.
  change (Z.to_nat 0) with 0 in *. rewrite Nat.Div0.mod_0_l in *.
  exists item. eexists. split; [reflexivity|].
  split; [exact Hitem|]. split; [reflexivity|]. split.
  - unfold gs1_shows.
    cbn [gs1 page with_gs1 with_page log_call gs1_rotationItems
         gs1_set_rotationIndex gs1_set_timerInterval gs1_set_remaining
         set_nextTimerId set_gs1_display gs1CodeText gs1CarouselCounter].
    change (gs1_rotationItems (gs1 w0)) with act.
    rewrite Hitem. split; reflexivity.
  - split; [|reflexivity].
    cbn [calls with_gs1 with_page log_call set_nextTimerId].
    now rewrite <- app_assoc.
Qed.

(** X22: started on a folder with active codes, the GS1 carousel returns,
    rotates over exactly the active codes in folder order and arms a fresh
    interval. After the first display and [k] more, each by the timer or
    by the button Next, it shows the code of item [k mod n] with the
    counter [(k mod n) + 1]/[n], [n] being the number of active codes, and
    its cursor stands at [k + 1]. *)
Theorem gs1_rotation_order (w : World) (items : list Gs1Item)
    (Hfolder : gs1Folder w = Some items)
    (Hactive : filter gi_active items <> []) :
  let act := filter gi_active items in
  let w1 := exec GS1.startRotation w in
  fst (GS1.startRotation w) = Ok tt
  /\ gs1_isRotating (gs1 w1) = true
  /\ gs1_timerInterval (gs1 w1) = Some (nextTimerId w)
  /\ forall steps,
       let wk := gs1_displays steps w1 in
       let k := List.length steps in
       gs1_rotationItems (gs1 wk) = act
       /\ gs1CodeText (page wk)
          = option_map gi_code (nth_error act (k mod List.length act))
       /\ gs1CarouselCounter (page wk)
          = Some ((Z.of_nat (k mod List.length act) + 1)%Z, List.length act)
       /\ gs1_rotationIndex (gs1 wk) = Z.of_nat (k + 1).
Proof.
  intros act w1.
  destruct (gs1_startRotation_run w items Hfolder Hactive)
    as (item & w' & Hrun & _ & Hgs & Hshows & _).
  assert (Hw1 : w1 = w') by (unfold w1, exec; now rewrite Hrun).
  rewrite Hrun, Hw1, Hgs. cbn [fst gs1_isRotating gs1_timerInterval].
  split; [reflexivity|]. split; [reflexivity|]. split; [reflexivity|].
  intros steps.
  set (wk := gs1_displays steps w'). set (k := List.length steps).
  destruct (gs1_displays_run act steps 0 w' Hactive)
    as (Hi & Hx & _ & _ & Hs).
  - now rewrite Hgs.
  - now rewrite Hgs.
  - rewrite Nat.Div0.mod_0_l. exact Hshows.
  - fold wk in Hi, Hx, Hs. cbn [Nat.add] in Hx, Hs. fold k in Hx, Hs.
    unfold gs1_shows in Hs. rewrite Hi in Hs. destruct Hs as [Hs1 Hs2].
    split; [exact Hi|]. split; [exact Hs1|]. split; [exact Hs2|].
    rewrite Hx. f_equal. lia.
Qed.

Lemma gs1_rotation_order_witness :
  let w1 := exec GS1.startRotation Sample.world_carousel in
  let w5 := gs1_displays [false; true; false; true] w1 in
  gs1_isRotating (gs1 w1) = true
  /\ gs1_rotationItems (gs1 w5)
     = [Sample.gs1_item; Sample.gs1_item_C; Sample.gs1_item_D]
  /\ gs1CodeText (page w5) = Some (gi_code Sample.gs1_item_C)
  /\ gs1CarouselCounter (page w5) = Some (2%Z, 3)
  /\ gs1_rotationIndex (gs1 w5) = 5%Z.
Proof.
  destruct (gs1_rotation_order Sample.world_carousel
              [Sample.gs1_item; Sample.gs1_item_B; Sample.gs1_item_C;
               Sample.gs1_item_D]
              eq_refl ltac:(discriminate)) as (_ & Hrot & _ & Hsteps).
  split; [exact Hrot|].
  exact (Hsteps [false; true; false; true]).
Defined.

(** [manualPrev] while an item is on display: the cursor is set on the
    item before it, which is then shown. *)
Lemma gs1_manualPrev_run (w : World) :
  gs1_rotationItems (gs1 w) <> [] ->
  (1 <= gs1_rotationIndex (gs1 w))%Z ->
  let items := gs1_rotationItems (gs1 w) in
  let n := List.length items in
  let prev := (Z.to_nat (gs1_rotationIndex (gs1 w) - 1) + n - 1) mod n in
  exists item,
    nth_error items prev = Some item
    /\ GS1.manualPrev w
       = (Ok tt,
          with_gs1 (gs1_set_rotationIndex (Z.of_nat prev + 1))
            (log_call (CallRenderGS1QR (gi_code item))
               (with_page
                  (set_gs1_display (gi_code item)
                     ((Z.of_nat prev + 1)%Z, n))
                  (with_gs1 (gs1_set_rotationIndex (Z.of_nat prev)) w)))).
Proof.
  intros Hne Hidx items n prev.
  pose proof (items_length_pos items Hne) as Hn. fold n in Hn.
  assert (Hprev : prev < n) by (apply Nat.mod_upper_bound; lia).
  assert (Hrem : Z.rem (gs1_rotationIndex (gs1 w) - 2 + Z.of_nat n)
                   (Z.of_nat n) = Z.of_nat prev).
  { rewrite Z.rem_mod_nonneg by lia. unfold prev.
    rewrite Nat2Z.inj_mod. f_equal. lia. }
  unfold GS1.manualPrev, bind at 1, get at 1. fold items. fold n.
  destruct (Nat.ltb_spec 0 n); [|lia].
  rewrite Hrem. destruct (Z.ltb_spec (Z.of_nat prev) 0); [lia|].
  unfold bind at 1, modify at 1.
  set (w2 := with_gs1 _ w).
  destruct (displayCodeManual_run w2) as (item & Hitem & Hrun);
    [exact Hne | cbn; lia |].
  cbn [w2 gs1 with_gs1 gs1_rotationItems gs1_rotationIndex
       gs1_set_rotationIndex] in Hitem, Hrun.
  fold items in Hitem, Hrun. fold n in Hitem, Hrun.
  rewrite Nat2Z.id, (Nat.mod_small prev n Hprev) in Hitem, Hrun.
  exists item. split; [exact Hitem|]. exact Hrun.
Qed.

(** X23: with a code on display, the button Previous of the GS1 carousel
    returns and shows the item before the one on display, wrapping from
    the first item to the last; it leaves the list of items as it is,
    normalises the cursor and adds nothing to the activity log. Previous
    after Next shows the item that was on display. *)
Theorem gs1_prev_steps_back (w : World)
    (Hitems : gs1_rotationItems (gs1 w) <> [])
    (Hshown : (1 <= gs1_rotationIndex (gs1 w))%Z) :
  let items := gs1_rotationItems (gs1 w) in
  let n := List.length items in
  let shown := Z.to_nat (gs1_rotationIndex (gs1 w) - 1) mod n in
  let prev := (shown + n - 1) mod n in
  let w1 := exec GS1.manualPrev w in
  fst (GS1.manualPrev w) = Ok tt
  /\ gs1_rotationItems (gs1 w1) = items
  /\ gs1_shows w1 prev
  /\ gs1_rotationIndex (gs1 w1) = (Z.of_nat prev + 1)%Z
  /\ count_addToHistory w1 = count_addToHistory w
  /\ gs1_shows (exec GS1.manualPrev (exec GS1.manualNext w)) shown.
Proof.
  intros items n shown prev w1.
  pose proof (items_length_pos items Hitems) as Hn. fold n in Hn.
  assert (Hback : forall v : World,
            gs1_rotationItems (gs1 v) = items ->
            (1 <= gs1_rotationIndex (gs1 v))%Z ->
            let p := (Z.to_nat (gs1_rotationIndex (gs1 v) - 1) + n - 1)
                       mod n in
            fst (GS1.manualPrev v) = Ok tt
            /\ gs1_rotationItems (gs1 (exec GS1.manualPrev v)) = items
            /\ gs1_shows (exec GS1.manualPrev v) p
            /\ gs1_rotationIndex (gs1 (exec GS1.manualPrev v))
               = (Z.of_nat p + 1)%Z
            /\ count_addToHistory (exec GS1.manualPrev v)
               = count_addToHistory v).
  { intros v Hv Hx p.
    destruct (gs1_manualPrev_run v) as (item & Hitem & Hrun);
      [now rewrite Hv | exact Hx |].
    rewrite Hv in Hitem, Hrun. fold n in Hitem, Hrun. fold p in Hitem, Hrun.
    unfold exec. rewrite Hrun. cbn [fst snd]. unfold gs1_shows.
    cbn [gs1 page with_gs1 with_page log_call gs1_rotationItems
         gs1_rotationIndex gs1_set_rotationIndex set_gs1_display
         gs1CodeText gs1CarouselCounter].
    rewrite Hv, Hitem. fold n.
    repeat split; try reflexivity.
    unfold count_addToHistory.
    cbn [calls with_gs1 with_page log_call].
    rewrite filter_app, List.length_app. cbn. lia. }
  assert (Hprev : prev
                  = (Z.to_nat (gs1_rotationIndex (gs1 w) - 1) + n - 1)
                      mod n).
  { unfold prev, shown.
    replace (Z.to_nat (gs1_rotationIndex (gs1 w) - 1) mod n + n - 1)
      with (Z.to_nat (gs1_rotationIndex (gs1 w) - 1) mod n + (n - 1))
      by lia.
    rewrite Nat.Div0.add_mod_idemp_l. f_equal. lia. }
  destruct (Hback w eq_refl Hshown) as (H1 & H2 & H3 & H4 & H5).
  fold w1 in H2, H3, H4, H5. rewrite <- Hprev in H3, H4.
  split; [exact H1|]. split; [exact H2|]. split; [exact H3|].
  split; [exact H4|]. split; [exact H5|].
  destruct (gs1_display_step true w Hitems ltac:(lia))
    as (_ & Hi & Hx & _ & _ & _).
  cbv zeta in Hi, Hx.
  set (v := exec GS1.manualNext w) in *.
  destruct (Hback v Hi ltac:(lia)) as (_ & _ & Hs & _).
  replace ((Z.to_nat (gs1_rotationIndex (gs1 v) - 1) + n - 1) mod n)
    with shown in Hs; [exact Hs|].
  rewrite Hx. unfold shown.
  replace (Z.to_nat (gs1_rotationIndex (gs1 w) + 1 - 1) + n - 1)
    with (Z.to_nat (gs1_rotationIndex (gs1 w) - 1) + 1 * n) by lia.
  now rewrite Nat.Div0.mod_add.
Qed.

Lemma gs1_prev_steps_back_witness :
  let w := exec GS1.startRotation Sample.world_carousel in
  let w1 := exec GS1.manualPrev w in
  gs1CodeText (page w) = Some (gi_code Sample.gs1_item)
  /\ gs1_rotationItems (gs1 w1)
     = [Sample.gs1_item; Sample.gs1_item_C; Sample.gs1_item_D]
  /\ gs1CodeText (page w1) = Some (gi_code Sample.gs1_item_D)
  /\ gs1CarouselCounter (page w1) = Some (3%Z, 3)
  /\ gs1_rotationIndex (gs1 w1) = 3%Z
  /\ gs1_shows (exec GS1.manualPrev (exec GS1.manualNext w)) 0.
Proof.
  refine (let H := gs1_prev_steps_back
                     (exec GS1.startRotation Sample.world_carousel)
                     ltac:(discriminate) ltac:(vm_compute; discriminate)
          in _).
  destruct H as (_ & Hitems & [Htext Hcount] & Hidx & _ & Hback).
  split; [reflexivity|]. split; [exact Hitems|]. split; [exact Htext|].
  split; [exact Hcount|]. split; [exact Hidx|]. exact Hback.
Defined.

(** ** Invariants of the two tabs *)

(** One step of a symbolic run. *)
Ltac wp_step :=
  match goal with
  | |- wp (bind _ _) _ _ _ => apply wp_bind
  | |- wp (ret _) _ _ _ => apply wp_ret
  | |- wp get _ _ _ => apply wp_get
  | |- wp (modify _) _ _ _ => apply wp_modify
  | |- wp (throw _) _ _ _ => apply wp_throw
  | |- wp (item_at _ _) _ _ _ => apply wp_item_at; [intros ? ?|intros ?]
  | |- wp (if ?b then _ else _) _ _ _ => destruct b eqn:?
  | |- wp (match ?x with _ => _ end) _ _ _ => destruct x eqn:?
  | |- wp _ _ _ _ => progress cbv beta zeta
  end.

(** One step of a proof that a computation keeps a property of the part
    [f] of the state; [leaf] closes calls of functions known to keep it. *)
Ltac keeps_step leaf :=
  match goal with
  | |- keeps _ (bind _ _) => apply keeps_bind; [|intros ?]
  | |- keeps _ (if ?b then _ else _) => destruct b eqn:?
  | |- keeps _ (match ?x with _ => _ end) => destruct x eqn:?
  | |- keeps _ _ => leaf
  | |- keeps _ _ => progress cbv beta zeta
  end.

Ltac by_frame f HP :=
  solve [apply (keeps_of_frame f); [exact HP|];
         unfold_handlers; repeat preserves_step].

(** *** The history cursor *)

Lemma cursor_frame (w w' : World) :
  history_part w' = history_part w ->
  cursor_in_history w -> cursor_in_history w'.
Proof.
  unfold history_part, cursor_in_history. intros H. injection H as H1 H2.
  now rewrite H1, H2.
Qed.

Lemma cursor_push (e : CachedCode) (w : World) :
  cursor_in_history (with_dm (DM.push_code e) w).
Proof.
  right. cbn. rewrite List.length_app. cbn. lia.
Qed.

Lemma keeps_cursor_generateAndDisplay (E : Env) :
  keeps cursor_in_history DM.generateAndDisplay.
Proof.
  unfold DM.generateAndDisplay.
  repeat keeps_step ltac:(by_frame history_part cursor_frame);
    intros w Hw; apply wp_modify; apply cursor_push.
Qed.

Lemma keeps_cursor_displayFromCache (E : Env) (index : Z) :
  keeps cursor_in_history (DM.displayFromCache index).
Proof.
  intros w Hw. unfold DM.displayFromCache.
  apply wp_bind, wp_get. cbv beta zeta.
  destruct ((index <? 0)%Z
            || (Z.of_nat (List.length (dm_generatedCodes (dm w)))
                <=? index)%Z) eqn:Hguard; [exact Hw|].
  apply orb_false_iff in Hguard. destruct Hguard as [H0 Hlen].
  apply Z.ltb_ge in H0. apply Z.leb_gt in Hlen.
  apply wp_bind, wp_item_at; [intros cached _|intros _; exact Hw].
  apply wp_bind, wp_modify.
  apply (wp_frame history_part);
    [unfold_handlers; repeat preserves_step | |];
    intros; (eapply cursor_frame; [eassumption|]); right; cbn; lia.
Qed.

Lemma keeps_cursor_startTimer (E : Env) :
  keeps cursor_in_history DM.startTimer.
Proof.
  intros w Hw. unfold DM.startTimer.
  apply wp_bind.
  apply (wp_frame history_part); [unfold_handlers; repeat preserves_step | |];
    [|intros; eapply cursor_frame; eassumption].
  intros _ w0 H0. pose proof (cursor_frame _ _ H0 Hw) as Hw0.
  apply wp_bind, wp_get. cbv beta zeta.
  apply wp_bind.
  - destruct ((0 <? Z.of_nat (List.length (dm_generatedCodes (dm w0))))%Z
              && (dm_codeHistoryIndex (dm w0)
                  <? Z.of_nat (List.length (dm_generatedCodes (dm w0))) - 1)%Z)
      eqn:Hjump.
    + apply andb_true_iff in Hjump. destruct Hjump as [H1 H2].
      apply Z.ltb_lt in H1, H2.
      apply wp_bind, wp_modify.
      eapply wp_mono;
        [apply keeps_cursor_displayFromCache; right; cbn; lia | |];
        cbv beta.
      * intros _ w1 Hw1.
        apply (wp_frame history_part);
          [unfold_handlers; repeat preserves_step | |];
          intros; eapply cursor_frame; eassumption.
      * auto.
    + apply wp_ret.
      apply (wp_frame history_part);
        [unfold_handlers; repeat preserves_step | |];
        intros; eapply cursor_frame; eassumption.
Qed.

Ltac cursor_leaf :=
  first [ apply keeps_cursor_generateAndDisplay
        | apply keeps_cursor_displayFromCache
        | apply keeps_cursor_startTimer
        | by_frame history_part cursor_frame ].

Lemma keeps_cursor_handle (E : Env) (ev : Main.Event) :
  keeps cursor_in_history (Main.handle ev).
Proof.
  destruct ev; cbn [Main.handle];
    unfold DM.manualNext, DM.manualPrev, DM.setInterval, DM.startRotation,
      DM.stopRotation, DM.timerCallback;
    repeat keeps_step cursor_leaf;
    intros w Hw; apply wp_modify; left; split; reflexivity.
Qed.

(** *** The rotation cursor *)

Lemma rotation_frame (w w' : World) :
  rotation_part w' = rotation_part w ->
  rotation_consistent w -> rotation_consistent w'.
Proof.
  unfold rotation_part, rotation_consistent. intros H. injection H as H1 H2 H3.
  now rewrite H1, H2, H3.
Qed.

Lemma keeps_rotation_generateAndDisplay (E : Env) :
  keeps rotation_consistent DM.generateAndDisplay.
Proof.
  intros w Hw. unfold DM.generateAndDisplay.
  apply wp_bind.
  apply (wp_frame rotation_part); [unfold_handlers; repeat preserves_step | |];
    [|intros; eapply rotation_frame; eassumption].
  intros mode w0 H0. pose proof (rotation_frame _ _ H0 Hw) as Hw0.
  clear w Hw H0.
  apply wp_bind, wp_get. cbv beta zeta.
  match goal with
  | |- wp (bind _ ?k) _ _ _ =>
      assert (Hrest : forall x w1,
                rotation_consistent w1 ->
                wp (k x) (fun _ => rotation_consistent) rotation_consistent
                  w1)
  end.
  { intros [[result barcode] idx] w1 Hw1.
    apply (wp_frame rotation_part);
      [unfold_handlers; repeat preserves_step | |];
      intros; eapply rotation_frame; eassumption. }
  apply wp_bind.
  destruct (DM.in_rotation (dm w0)) eqn:Hin.
  - apply andb_true_iff in Hin. destruct Hin as [Hrot Hlen].
    apply Nat.ltb_lt in Hlen.
    apply wp_bind, wp_item_at; [intros item _|intros _; exact Hw0].
    apply wp_bind.
    apply (wp_frame rotation_part);
      [unfold_handlers; repeat preserves_step | |];
      [|intros; eapply rotation_frame; eassumption].
    intros result w1 H1. injection H1 as H1a H1b H1c.
    apply wp_bind, wp_modify, wp_ret.
    apply (Hrest (result, Some (barcode item), dm_rotationIndex (dm w0))).
    unfold rotation_consistent. cbn. rewrite H1a, H1b, Hrot.
    apply Nat.mod_upper_bound. lia.
  - apply wp_bind.
    apply (wp_frame rotation_part);
      [unfold_handlers; repeat preserves_step | |];
      [|intros; eapply rotation_frame; eassumption].
    intros result w1 H1. apply wp_ret. apply (Hrest (result, None, 0)).
    eapply rotation_frame; eassumption.
Qed.

Ltac rotation_leaf :=
  first [ apply keeps_rotation_generateAndDisplay
        | by_frame rotation_part rotation_frame ].

Lemma stopRotation_stopped (E : Env) (w : World) :
  DM.stopRotation w = DM.generateAndDisplay (stopped w).
Proof.
  cbv beta iota delta [DM.stopRotation DM.stopTimer DM.togglePlayState
                       DM.hideCodeInfo bind modify stopped].
  reflexivity.
Qed.

Lemma wp_eq {A} (c c' : M A) (Q : A -> World -> Prop) (X : World -> Prop)
    (w w' : World) :
  c w = c' w' -> wp c' Q X w' -> wp c Q X w.
Proof. unfold wp. now intros ->. Qed.

Lemma keeps_rotation_stopRotation (E : Env) :
  keeps rotation_consistent DM.stopRotation.
Proof.
  intros w _. apply (wp_eq _ _ _ _ _ _ (stopRotation_stopped E w)).
  apply keeps_rotation_generateAndDisplay. reflexivity.
Qed.

Lemma keeps_rotation_handle (E : Env) (ev : Main.Event) :
  keeps rotation_consistent (Main.handle ev).
Proof.
  destruct ev; cbn [Main.handle];
    try apply keeps_rotation_stopRotation;
    unfold DM.manualNext, DM.manualPrev, DM.setInterval, DM.startRotation,
      DM.timerCallback;
    repeat keeps_step rotation_leaf.
  intros w Hw; apply wp_modify. unfold rotation_consistent. cbn.
  apply Nat.eqb_neq in Heqb. lia.
Qed.

(** *** The play button *)

Lemma play_frame (w w' : World) :
  play_part w' = play_part w -> play_mirrors_timer w -> play_mirrors_timer w'.
Proof.
  unfold play_part, play_mirrors_timer. intros H. injection H as H1 H2.
  now rewrite H1, H2.
Qed.

Lemma keeps_play_stopTimer : keeps play_mirrors_timer DM.stopTimer.
Proof.
  intros w _. unfold DM.stopTimer, DM.togglePlayState.
  repeat wp_step. reflexivity.
Qed.

Lemma keeps_play_startTimer (E : Env) : keeps play_mirrors_timer DM.startTimer.
Proof.
  intros w Hw. unfold DM.startTimer.
  apply wp_bind.
  eapply wp_mono; [apply keeps_play_stopTimer, Hw | cbv beta | auto].
  intros _ w0 Hw0. apply wp_bind, wp_get. cbv beta zeta.
  apply wp_bind.
  apply (wp_frame play_part); [unfold_handlers; repeat preserves_step | |];
    [|intros; eapply play_frame; eassumption].
  intros _ w1 H1. unfold DM.togglePlayState, DM.arm_interval.
  repeat wp_step. reflexivity.
Qed.

Ltac play_leaf :=
  first [ apply keeps_play_stopTimer
        | apply keeps_play_startTimer
        | by_frame play_part play_frame ].

Lemma keeps_play_handle (E : Env) (ev : Main.Event) :
  keeps play_mirrors_timer (Main.handle ev).
Proof.
  destruct ev;
    try match goal with box : Main.Checkbox |- _ => destruct box end;
    cbn [Main.handle];
    unfold DM.manualNext, DM.manualPrev, DM.setInterval, DM.startRotation,
      DM.stopRotation, DM.timerCallback;
    repeat keeps_step play_leaf.
Qed.

(** *** The double-scan boxes *)

Lemma boxes_frame (w w' : World) :
  boxes_part w' = boxes_part w ->
  forall b, Main.checked b (page w') = Main.checked b (page w).
Proof.
  unfold boxes_part. intros H b. injection H as H1 H2 H3 H4.
  destruct b; assumption.
Qed.

Lemma boxes_checked_frame (w w' : World) :
  boxes_part w' = boxes_part w ->
  boxes_checked (page w') <= 1 -> boxes_checked (page w) <= 1.
Proof.
  intros H. unfold boxes_checked. cbn [filter].
  now rewrite !(boxes_frame _ _ H).
Qed.

(** A change of a box: the box is toggled and, when it is now checked,
    the three others are unchecked. *)
Lemma toggle_box (box b : Main.Checkbox) (p : Page) :
  let p1 := Main.set_checked box (negb (Main.checked box p)) p in
  let p2 := if Main.checked box p1 then Main.uncheck_others box p1 else p1 in
  Main.checked b p2
  = if Main.same_box b box then negb (Main.checked box p)
    else Main.checked box p && Main.checked b p.
Proof.
  destruct p as [b1 b2 b3 b4 c s i ps g1 g2].
  destruct box, b, b1, b2, b3, b4; reflexivity.
Qed.

Lemma toggle_box_count (box : Main.Checkbox) (p : Page) :
  let p1 := Main.set_checked box (negb (Main.checked box p)) p in
  let p2 := if Main.checked box p1 then Main.uncheck_others box p1 else p1 in
  boxes_checked p <= 1 -> boxes_checked p2 <= 1.
Proof.
  destruct p as [b1 b2 b3 b4 c s i ps g1 g2].
  destruct box, b1, b2, b3, b4; cbn; lia.
Qed.

Lemma double_scan_change_page (E : Env) (box : Main.Checkbox) (w : World) :
  let p1 := Main.set_checked box (negb (Main.checked box (page w))) (page w) in
  let p2 := if Main.checked box p1 then Main.uncheck_others box p1 else p1 in
  boxes_part (exec (Main.handle (Main.DoubleScanChange box)) w)
  = boxes_part (with_page (fun _ => p2) w).
Proof.
  intros p1 p2. apply wp_exec with (P := fun w' => boxes_part w' = _).
  cbn [Main.handle].
  apply wp_bind, wp_modify. apply wp_bind, wp_get. cbv beta.
  cbn [page with_page]. fold p1.
  set (w2 := with_page (fun _ => p2) w).
  assert (Hgen : forall v, boxes_part v = boxes_part w2 ->
            wp DM.generateAndDisplay
              (fun _ w' => boxes_part w' = boxes_part w2)
              (fun w' => boxes_part w' = boxes_part w2) v).
  { intros v Hv.
    apply (wp_frame boxes_part); [unfold_handlers; repeat preserves_step | |];
      intros; congruence. }
  apply wp_bind. unfold p2. destruct (Main.checked box p1).
  - apply wp_modify. apply Hgen. reflexivity.
  - apply wp_ret. apply Hgen. reflexivity.
Qed.

Lemma keeps_boxes_handle (E : Env) (ev : Main.Event) :
  keeps (fun w => boxes_checked (page w) <= 1) (Main.handle ev).
Proof.
  assert (HP : forall w w', boxes_part w' = boxes_part w ->
             boxes_checked (page w) <= 1 -> boxes_checked (page w') <= 1).
  { intros w w' H. apply boxes_checked_frame. now symmetry. }
  destruct ev;
    try solve [apply (keeps_of_frame boxes_part); [exact HP|];
               unfold_handlers; repeat preserves_step].
  intros w Hw.
  pose proof (double_scan_change_page E box w) as Hf. cbv zeta in Hf.
  pose proof (toggle_box_count box (page w) Hw) as Hc. cbv zeta in Hc.
  unfold exec in Hf. unfold wp.
  destruct (Main.handle (Main.DoubleScanChange box) w) as [[a|e] w'];
    cbn [snd] in Hf; apply (HP _ _ Hf); exact Hc.
Qed.

(** *** The GS1 carousel *)

Lemma gs1_consistent_frame (w w' : World) :
  carousel_part w' = carousel_part w -> gs1_consistent w -> gs1_consistent w'.
Proof.
  unfold carousel_part, gs1_consistent. intros H. injection H as H1 H2 H3 H4.
  now rewrite H1, H2, H3, H4.
Qed.

Lemma keeps_gs1_displayCode : keeps gs1_consistent GS1.displayCode.
Proof.
  intros w Hw. unfold wp.
  destruct (gs1_rotationItems (gs1 w)) as [|i l] eqn:Hitems.
  - unfold GS1.displayCode, bind, get. rewrite Hitems. exact Hw.
  - destruct (displayCode_run w) as (item & _ & Hrun);
      [rewrite Hitems; discriminate | apply Hw |].
    rewrite Hrun. destruct Hw as (H1 & H2 & H3).
    repeat split; cbn; try assumption; lia.
Qed.

Lemma keeps_gs1_displayCodeManual :
  keeps gs1_consistent GS1.displayCodeManual.
Proof.
  intros w Hw. unfold wp.
  destruct (gs1_rotationItems (gs1 w)) as [|i l] eqn:Hitems.
  - unfold GS1.displayCodeManual, bind, get. rewrite Hitems. exact Hw.
  - destruct (displayCodeManual_run w) as (item & _ & Hrun);
      [rewrite Hitems; discriminate | apply Hw |].
    rewrite Hrun. destruct Hw as (H1 & H2 & H3).
    repeat split; cbn; try assumption; lia.
Qed.

Ltac gs1_leaf :=
  first [ apply keeps_gs1_displayCode
        | apply keeps_gs1_displayCodeManual
        | by_frame carousel_part gs1_consistent_frame ].

Lemma keeps_gs1_startRotation : keeps gs1_consistent GS1.startRotation.
Proof.
  intros w Hw. unfold wp.
  destruct (gs1Folder w) as [items|] eqn:Hfolder.
  - destruct (filter gi_active items) as [|i l] eqn:Hact.
    + unfold GS1.startRotation, bind, get. rewrite Hfolder, Hact. exact Hw.
    + destruct (gs1_startRotation_run w items Hfolder)
        as (item & w' & Hrun & _ & Hgs & _);
        [rewrite Hact; discriminate|].
      rewrite Hrun. unfold gs1_consistent. rewrite Hgs, Hact. cbn.
      repeat split; [lia | discriminate].
  - unfold GS1.startRotation, bind, get. rewrite Hfolder. exact Hw.
Qed.

Lemma keeps_gs1_handle (E : Env) (ev : Main.Event) :
  keeps gs1_consistent (Main.handle ev).
Proof.
  destruct ev;
    try match goal with box : Main.Checkbox |- _ => destruct box end;
    cbn [Main.handle];
    try apply keeps_gs1_startRotation;
    try by_frame carousel_part gs1_consistent_frame.
  - (* stopRotation *)
    intros w (H1 & H2 & H3). unfold GS1.stopRotation, GS1.stopTimer.
    repeat wp_step. repeat split; cbn; [exact H1 | discriminate].
  - (* manualPrev *)
    unfold GS1.manualPrev. repeat keeps_step gs1_leaf.
    intros w (H1 & H2 & H3). apply wp_modify.
    apply Nat.ltb_lt in Heqb.
    repeat split; cbn; try assumption.
    destruct (Z.ltb_spec
                (Z.rem (gs1_rotationIndex (gs1 a) - 2
                        + Z.of_nat (List.length (gs1_rotationItems (gs1 a))))
                   (Z.of_nat (List.length (gs1_rotationItems (gs1 a))))) 0);
      lia.
  - (* manualNext *)
    unfold GS1.manualNext. repeat keeps_step gs1_leaf.
  - (* setInterval *)
    intros w (H1 & H2 & H3).
    unfold GS1.setInterval, GS1.startTimer, GS1.stopTimer, DM.arm_interval.
    repeat wp_step; repeat split; cbn in *; try assumption; congruence.
  - (* timerCallback *)
    unfold GS1.timerCallback. repeat keeps_step gs1_leaf.
Qed.

(** *** The five together *)

Lemma keeps_well_formed_handle (E : Env) (ev : Main.Event) :
  keeps well_formed (Main.handle ev).
Proof.
  intros w (H1 & H2 & H3 & H4 & H5).
  pose proof (keeps_cursor_handle E ev w H1) as K1.
  pose proof (keeps_rotation_handle E ev w H2) as K2.
  pose proof (keeps_play_handle E ev w H3) as K3.
  pose proof (keeps_gs1_handle E ev w H4) as K4.
  pose proof (keeps_boxes_handle E ev w H5) as K5.
  unfold wp, well_formed in *.
  destruct (Main.handle ev w) as [[a|e] w']; auto.
Qed.

(** X24: five invariants hold after any sequence of the events of the two
    tabs, whether the handlers return or throw, once they hold before
    it: the history cursor stands on an entry of the history (or at -1 on
    an empty one); a rotation has a cursor inside its list and without a
    rotation the list is empty; the pause button is shown exactly while
    the DataMatrix interval is armed; the GS1 cursor is not negative and
    the GS1 interval is armed exactly while the carousel rotates, which it
    does on a non-empty list only; at most one double-scan box is
    checked. *)
Theorem invariants_kept (E : Env) (evs : list Main.Event) (w : World)
    (Hw : well_formed w) :
  well_formed (Main.run_events evs w).
Proof.
  revert w Hw. induction evs as [|ev evs IH]; intros w Hw;
    cbn [Main.run_events]; [exact Hw|].
  apply IH. apply wp_exec. apply keeps_well_formed_handle, Hw.
Qed.

(** *** No exception *)

Lemma returns_of_run {A} (c : M A) (w w' : World) (a : A) :
  c w = (Ok a, w') -> returns c w.
Proof. unfold returns, wp. now intros ->. Qed.

Lemma wp_of_run {A} (c : M A) (Q : A -> World -> Prop) (X : World -> Prop)
    (w w' : World) (a : A) :
  c w = (Ok a, w') -> Q a w' -> wp c Q X w.
Proof. unfold wp. now intros ->. Qed.

Lemma displayFromCache_returns (E : Env) (index : Z) (w : World) :
  returns (DM.displayFromCache index) w.
Proof.
  unfold returns, DM.displayFromCache.
  apply wp_bind, wp_get. cbv beta zeta.
  destruct ((index <? 0)%Z
            || (Z.of_nat (List.length (dm_generatedCodes (dm w)))
                <=? index)%Z) eqn:Hguard; [exact I|].
  apply orb_false_iff in Hguard. destruct Hguard as [H0 Hlen].
  apply Z.ltb_ge in H0. apply Z.leb_gt in Hlen.
  apply wp_bind, wp_item_at.
  2:{ intros Hn. apply nth_error_None in Hn. lia. }
  intros cached _. apply wp_bind, wp_modify. apply wp_bind.
  destruct (extractEAN13FromDM_total (code cached)) as [r Hr].
  unfold DM.renderPrimaryCode, DM.renderSecondaryCode, DM.updateCodeText,
    DM.showCodeInfo.
  destruct (primaryDisplayAsEan cached);
    [unfold lift, wp at 1; rewrite Hr|];
    repeat wp_step; exact I.
Qed.

Lemma item_known_resolvable (E : Env) (selected : string) (item : DmItem) :
  TEMPLATES selected <> None -> item_known item -> resolvable selected item.
Proof.
  unfold item_known, resolvable. destruct (truthy (template item)); auto.
Qed.

Lemma items_known_resolvable (E : Env) (selected : string)
    (items : list DmItem) :
  TEMPLATES selected <> None -> Forall item_known items ->
  Forall (resolvable selected) items.
Proof.
  intros Hs H. eapply Forall_impl; [|exact H].
  intros item. now apply item_known_resolvable.
Qed.

Lemma generateAndDisplay_returns (E : Env) (w : World) :
  rotation_consistent w ->
  TEMPLATES (dm_selectedTemplate (dm w)) <> None ->
  Forall item_known (dm_rotationList (dm w)) ->
  wp DM.generateAndDisplay (fun _ _ => True) (fun _ => False) w.
Proof.
  intros Hrc Hsel Hitems. unfold rotation_consistent in Hrc.
  destruct (dm_isRotating (dm w)) eqn:Hrot.
  - destruct (nth_error (dm_rotationList (dm w)) (dm_rotationIndex (dm w)))
      as [item|] eqn:Hitem; [|apply nth_error_None in Hitem; lia].
    destruct (generateAndDisplay_rotation E w item Hrot Hitem)
      as (e & w' & Hrun & _).
    + now apply items_known_resolvable.
    + exact (wp_of_run _ _ _ _ _ _ Hrun I).
  - destruct (TEMPLATES (dm_selectedTemplate (dm w))) as [t|] eqn:Ht;
      [|contradiction].
    unfold DM.generateAndDisplay, DM.getActiveDoubleScanMode.
    apply wp_bind. apply wp_bind, wp_get. apply wp_ret.
    apply wp_bind, wp_get. cbv beta zeta.
    unfold DM.in_rotation at 1. rewrite Hrot. cbn [andb].
    apply wp_bind, wp_bind.
    destruct (generateDM_run E None None w t Ht)
      as (r & w1 & Hrun & _ & Hdm1 & _).
    apply (wp_of_run _ _ _ _ _ _ Hrun). apply wp_ret.
    apply wp_bind.
    assert (Hsec : wp (DM.secondaryFor
                         (if doubleScanSameDM (page w) then Some sameDM
                          else if doubleScanDmEan (page w) then Some dmEan
                          else if doubleScanSameEan (page w)
                          then Some sameEan
                          else if doubleScanDifferentDM (page w)
                          then Some differentDM else None) r None)
                      (fun _ w' => dm w' = dm w) (fun _ => False) w1).
    { unfold DM.secondaryFor.
      destruct (extractEAN13FromDM_total (r_code r)) as [x Hx].
      destruct (doubleScanSameDM (page w));
        [|destruct (doubleScanDmEan (page w));
          [|destruct (doubleScanSameEan (page w));
            [|destruct (doubleScanDifferentDM (page w))]]];
        try (repeat wp_step; exact Hdm1);
        try (unfold lift at 1; apply wp_bind; unfold wp at 1; rewrite Hx;
             repeat wp_step; try (unfold lift, wp; rewrite Hx);
             repeat wp_step; exact Hdm1).
      apply wp_bind, wp_get. cbv beta zeta. rewrite Hdm1, Hrot.
      unfold getNextDemoGtin. apply wp_bind, wp_bind, wp_get.
      apply wp_bind, wp_modify, wp_ret. apply wp_bind, wp_ret.
      set (w2 := set_demoIndex _ w1).
      destruct (generateDM_run E
                  (Some (nth (demoIndex w1) DEMO_GTINS ""))
                  (Some (dm_selectedTemplate (dm w))) w2 t)
        as (r2 & w3 & Hrun2 & _ & Hdm3 & _).
      { unfold w2. cbn [dm set_demoIndex]. rewrite Hdm1.
        destruct (dm_selectedTemplate (dm w)) as [|c s] eqn:Hs; cbn;
          rewrite ?Hs; exact Ht. }
      apply wp_bind. apply (wp_of_run _ _ _ _ _ _ Hrun2). apply wp_ret.
      rewrite Hdm3. unfold w2. cbn. exact Hdm1. }
    eapply wp_mono; [exact Hsec| |auto]. cbv beta.
    intros [[dae ean] sec] w2 Hdm2.
    unfold DM.renderPrimaryCode, DM.renderSecondaryCode, DM.updateCodeText,
      DM.showCodeInfo.
    repeat wp_step; exact I.
Qed.

Lemma templates_frame (E : Env) (w w' : World) :
  templates_part w' = templates_part w ->
  templates_known w -> templates_known w'.
Proof.
  unfold templates_part, templates_known. intros H. injection H as H1 H2 H3.
  now rewrite H1, H2, H3.
Qed.

Lemma items_known_filter (E : Env) (f : DmItem -> bool)
    (items : list DmItem) :
  Forall item_known items -> Forall item_known (filter f items).
Proof.
  rewrite !Forall_forall. intros H x Hx. apply filter_In in Hx. apply H, Hx.
Qed.

Lemma keeps_templates_handle (E : Env) (ev : Main.Event) :
  event_known ev -> keeps templates_known (Main.handle ev).
Proof.
  intros Hev.
  destruct ev;
    try match goal with box : Main.Checkbox |- _ => destruct box end;
    cbn [Main.handle];
    try by_frame templates_part (templates_frame E).
  - (* a template is chosen *)
    intros w (H1 & H2 & H3). apply wp_modify.
    repeat split; assumption.
  - (* startRotation *)
    intros w (H1 & H2 & H3). unfold DM.startRotation.
    apply wp_bind, wp_get. cbv beta zeta.
    destruct (dmFolder w) as [items|] eqn:Hfolder.
    + destruct (List.length (filter active items) =? 0)%nat.
      * apply (wp_frame templates_part);
          [unfold_handlers; repeat preserves_step | |];
          intros; (eapply templates_frame; [eassumption|]);
          unfold templates_known; rewrite Hfolder; auto.
      * apply wp_bind, wp_modify.
        apply (wp_frame templates_part);
          [unfold_handlers; repeat preserves_step | |];
          intros; (eapply templates_frame; [eassumption|]);
          unfold templates_known; cbn; rewrite Hfolder;
          (repeat split; [assumption| |assumption]);
          now apply items_known_filter.
    + apply (wp_frame templates_part);
        [unfold_handlers; repeat preserves_step | |];
        intros; (eapply templates_frame; [eassumption|]);
        unfold templates_known; rewrite Hfolder; auto.
  - (* stopRotation *)
    intros w (H1 & H2 & H3).
    apply (wp_eq _ _ _ _ _ _ (stopRotation_stopped E w)).
    apply (wp_frame templates_part);
      [unfold_handlers; repeat preserves_step | |];
      intros; (eapply templates_frame; [eassumption|]);
      unfold templates_known, stopped; cbn; repeat split; auto.
Qed.

Lemma startTimer_returns (E : Env) (w : World) : returns DM.startTimer w.
Proof.
  destruct (startTimer_run E w) as (w' & Hrun & _).
  exact (returns_of_run _ _ _ _ Hrun).
Qed.

Lemma gs1_displayCode_returns (w : World) :
  (0 <= gs1_rotationIndex (gs1 w))%Z -> returns GS1.displayCode w.
Proof.
  intros Hidx.
  destruct (gs1_rotationItems (gs1 w)) as [|i l] eqn:Hitems.
  - unfold returns, wp, GS1.displayCode, bind, get. rewrite Hitems.
    exact I.
  - destruct (displayCode_run w) as (item & _ & Hrun);
      [rewrite Hitems; discriminate | exact Hidx |].
    exact (returns_of_run _ _ _ _ Hrun).
Qed.

Lemma gs1_displayCodeManual_returns (w : World) :
  (0 <= gs1_rotationIndex (gs1 w))%Z -> returns GS1.displayCodeManual w.
Proof.
  intros Hidx.
  destruct (gs1_rotationItems (gs1 w)) as [|i l] eqn:Hitems.
  - unfold returns, wp, GS1.displayCodeManual, bind, get. rewrite Hitems.
    exact I.
  - destruct (displayCodeManual_run w) as (item & _ & Hrun);
      [rewrite Hitems; discriminate | exact Hidx |].
    exact (returns_of_run _ _ _ _ Hrun).
Qed.

Lemma gs1_startRotation_returns (w : World) : returns GS1.startRotation w.
Proof.
  destruct (gs1Folder w) as [items|] eqn:Hfolder.
  - destruct (filter gi_active items) as [|i l] eqn:Hact.
    + unfold returns, wp, GS1.startRotation, bind, get.
      rewrite Hfolder, Hact. exact I.
    + destruct (gs1_startRotation_run w items Hfolder)
        as (item & w' & Hrun & _); [rewrite Hact; discriminate|].
      exact (returns_of_run _ _ _ _ Hrun).
  - unfold returns, wp, GS1.startRotation, bind, get. rewrite Hfolder.
    exact I.
Qed.

(** A generation followed by steps that cannot throw. *)
Ltac after_generation :=
  eapply wp_mono;
  [apply generateAndDisplay_returns | cbv beta; intros | auto].

Lemma handle_returns (E : Env) (ev : Main.Event) (w : World) :
  well_formed w -> templates_known w -> returns (Main.handle ev) w.
Proof.
  intros (Hcur & Hrot & Hplay & Hgs1 & Hboxes) (Hsel & Hlist & Hfolder).
  destruct Hgs1 as (Hidx & _).
  unfold returns.
  destruct ev; cbn [Main.handle].
  - unfold DM.manualPrev. repeat wp_step;
      first [exact I | apply displayFromCache_returns].
  - unfold DM.manualNext. repeat wp_step;
      first [ apply displayFromCache_returns
            | apply generateAndDisplay_returns; assumption ].
  - unfold DM.stopTimer, DM.togglePlayState. repeat wp_step. exact I.
  - apply startTimer_returns.
  - apply wp_bind. after_generation; try assumption.
    apply startTimer_returns.
  - unfold DM.setInterval. repeat wp_step;
      first [exact I | apply startTimer_returns].
  - apply wp_modify. exact I.
  - repeat wp_step; apply generateAndDisplay_returns; assumption.
  - unfold DM.startRotation, DM.alert. repeat wp_step; try exact I.
    after_generation.
    + unfold rotation_consistent. cbn. apply Nat.eqb_neq in Heqb. lia.
    + exact Hsel.
    + cbn. now apply items_known_filter.
    + apply startTimer_returns.
  - apply (wp_eq _ _ _ _ _ _ (stopRotation_stopped E w)).
    apply generateAndDisplay_returns;
      [reflexivity | exact Hsel | constructor].
  - unfold DM.timerCallback. repeat wp_step; try exact I.
    after_generation; try assumption.
  - apply wp_bind. after_generation; try assumption.
    apply startTimer_returns.
  - apply gs1_startRotation_returns.
  - unfold GS1.stopRotation, GS1.stopTimer. repeat wp_step. exact I.
  - unfold GS1.manualPrev. repeat wp_step; try exact I.
    apply gs1_displayCodeManual_returns. cbn.
    apply Nat.ltb_lt in Heqb.
    destruct (Z.ltb_spec
                (Z.rem (gs1_rotationIndex (gs1 w) - 2
                        + Z.of_nat (List.length (gs1_rotationItems (gs1 w))))
                   (Z.of_nat (List.length (gs1_rotationItems (gs1 w))))) 0);
      lia.
  - unfold GS1.manualNext. repeat wp_step; try exact I.
    apply gs1_displayCodeManual_returns, Hidx.
  - unfold GS1.setInterval, GS1.startTimer, GS1.stopTimer, DM.arm_interval.
    repeat wp_step; exact I.
  - unfold GS1.clearSelected. repeat wp_step; exact I.
  - unfold GS1.timerCallback. repeat wp_step; try exact I.
    eapply wp_mono;
      [apply gs1_displayCode_returns; cbn; exact Hidx
      | cbv beta; intros; repeat wp_step; exact I | auto].
Qed.

(** X25: from a state that satisfies the invariants and in which the
    selected template and the templates of the folder and rotation items
    exist, no handler of the two tabs throws, whatever the sequence of
    events, provided the template buttons pressed name existing
    templates; the templates are still all known afterwards. *)
Theorem no_exception (E : Env) (evs : list Main.Event) (w : World)
    (Hw : well_formed w) (Htemplates : templates_known w)
    (Hevs : Forall event_known evs) :
  all_returned evs w = true
  /\ templates_known (Main.run_events evs w).
Proof.
  revert w Hw Htemplates. induction Hevs as [|ev evs Hev Hevs IH];
    intros w Hw Ht; cbn [all_returned Main.run_events]; [now split|].
  pose proof (handle_returns E ev w Hw Ht) as Hr.
  pose proof (wp_exec _ _ _ (keeps_well_formed_handle E ev w Hw)) as Hw'.
  pose proof (wp_exec _ _ _ (keeps_templates_handle E ev Hev w Ht)) as Ht'.
  destruct (IH _ Hw' Ht') as [IH1 IH2]. split; [|exact IH2].
  rewrite IH1, andb_true_r.
  unfold returns, wp in Hr.
  destruct (Main.handle ev w) as [[a|e] w']; [reflexivity|contradiction].
Qed.

Lemma invariants_kept_witness :
  well_formed
    (Main.run_events (E := Sample.env)
       [Main.LibraryReady; Main.StartClick; Main.DmNextClick;
        Main.DoubleScanChange Main.BoxDmEan; Main.DmTimerFires;
        Main.StopClick; Main.Gs1StartClick; Main.Gs1PrevClick]
       Sample.world).
Proof.
  apply (invariants_kept Sample.env).
  unfold well_formed. split; [left; split; reflexivity|].
  split; [reflexivity|]. split; [reflexivity|]. split; [|cbn; lia].
  split; [discriminate|]. split; [reflexivity|discriminate].
Defined.

Lemma no_exception_witness :
  all_returned (E := Sample.env)
    [Main.LibraryReady; Main.TemplateClick "type1"; Main.StartClick;
     Main.DmNextClick; Main.DoubleScanChange Main.BoxDifferentDM;
     Main.DmTimerFires; Main.StopClick; Main.Gs1StartClick;
     Main.Gs1PrevClick]
    Sample.world
  = true.
Proof.
  refine (proj1 (no_exception Sample.env _ Sample.world _ _ _)).
  - unfold well_formed. split; [left; split; reflexivity|].
    split; [reflexivity|]. split; [reflexivity|]. split; [|cbn; lia].
    split; [discriminate|]. split; [reflexivity|discriminate].
  - split; [discriminate|]. split; [constructor|].
    cbn. repeat constructor; discriminate.
  - repeat constructor. discriminate.
Defined.

(** ** What a generation and a replay draw *)

Lemma wp_lift_ok {A} (r : Res A) (a : A) (Q : A -> World -> Prop)
    (X : World -> Prop) (w : World) :
  r = Ok a -> Q a w -> wp (lift r) Q X w.
Proof. intros ->. auto. Qed.

Lemma generateDM_wp (E : Env) (barcode templateId : option string)
    (w : World) :
  wp (generateDM barcode templateId)
    (fun r w' =>
       dm w' = dm w /\ page w' = page w
       /\ exists gen, calls w' = (calls w ++ gen)%list
                      /\ generation_calls gen)
    (fun w' => dm w' = dm w /\ page w' = page w) w.
Proof.
  unfold generateDM, getNextDemoGtin, addToHistory.
  repeat wp_step; cbn [dm page calls log_call set_randomPos set_demoIndex];
    try (split; reflexivity);
    (split; [reflexivity|]); (split; [reflexivity|]);
    rewrite <- app_assoc; eexists; (split; [reflexivity|]);
    repeat constructor.
Qed.

Lemma secondaryFor_wp (E : Env) (mode : option DoubleScanMode)
    (result : DmResult) (barcode : option string) (w : World) :
  wp (DM.secondaryFor mode result barcode)
    (fun x w' =>
       let '(displayAsEan, ean13Code, secondaryResult) := x in
       dm w' = dm w /\ page w' = page w
       /\ (exists gen, calls w' = (calls w ++ gen)%list
                       /\ generation_calls gen)
       /\ (displayAsEan = true ->
           extractEAN13FromDM (r_code result) = Ok ean13Code)
       /\ (mode = None -> secondaryResult = None))
    (fun w' => dm w' = dm w /\ page w' = page w) w.
Proof.
  assert (Hnil : exists gen, calls w = (calls w ++ gen)%list
                             /\ generation_calls gen).
  { exists []. rewrite app_nil_r. split; [reflexivity|constructor]. }
  unfold DM.secondaryFor.
  destruct (extractEAN13FromDM_total (r_code result)) as [x Hx].
  destruct mode as [[| | |]|].
  - apply wp_ret. repeat split; try assumption; discriminate.
  - apply wp_bind, (wp_lift_ok _ _ _ _ _ Hx), wp_ret.
    repeat split; try assumption; discriminate.
  - apply wp_bind, (wp_lift_ok _ _ _ _ _ Hx).
    apply wp_bind, (wp_lift_ok _ _ _ _ _ Hx), wp_ret.
    repeat split; try assumption; try discriminate. intros _. exact Hx.
  - apply wp_bind, wp_get. cbv beta zeta.
    assert (Hgen : forall b t (v : World),
              dm v = dm w -> page v = page w -> calls v = calls w ->
              wp (result2 <- generateDM (Some b) t ;;
                  ret (false, @None string,
                       Some {| sc_type := "DM";
                               sc_code := Some (r_code result2);
                               sc_barcode := Some b |}))
                (fun x w' =>
                   let '(displayAsEan, ean13Code, secondaryResult) := x in
                   dm w' = dm w /\ page w' = page w
                   /\ (exists gen, calls w' = (calls w ++ gen)%list
                                   /\ generation_calls gen)
                   /\ (displayAsEan = true ->
                       extractEAN13FromDM (r_code result) = Ok ean13Code)
                   /\ (Some differentDM = None -> secondaryResult = None))
                (fun w' => dm w' = dm w /\ page w' = page w) v).
    { intros b t v Hd Hp Hc. apply wp_bind.
      eapply wp_mono; [apply generateDM_wp| |]; cbv beta.
      - intros r w' (H1 & H2 & H3). apply wp_ret.
        rewrite H1, H2, Hd, Hp, <- Hc.
        repeat split; try assumption; discriminate.
      - intros w' (H1 & H2). rewrite H1, H2. now split. }
    apply wp_bind.
    destruct (dm_isRotating (dm w)).
    + apply wp_bind, wp_item_at; [intros it1 _|intros _; now split].
      apply wp_ret. apply wp_bind, wp_bind, wp_item_at;
        [intros it2 _|intros _; now split].
      apply wp_ret. now apply Hgen.
    + unfold getNextDemoGtin. apply wp_bind, wp_get. cbv beta.
      apply wp_bind, wp_modify, wp_ret. apply wp_bind, wp_ret.
      now apply Hgen.
  - apply wp_ret. repeat split; try assumption; discriminate.
Qed.

Lemma in_rotation_advanced (d : DmState) :
  DM.in_rotation (advanced d) = DM.in_rotation d.
Proof. unfold advanced. destruct (DM.in_rotation d) eqn:H; exact H. Qed.

Lemma advanced_codes (d : DmState) :
  dm_generatedCodes (advanced d) = dm_generatedCodes d.
Proof. unfold advanced. destruct (DM.in_rotation d); reflexivity. Qed.

Lemma generateAndDisplay_wp (E : Env) (w : World) :
  wp DM.generateAndDisplay
    (fun _ w' => exists e, generated_from w e w')
    (fun w' => dm_history w' = dm_history w) w.
Proof.
  unfold DM.generateAndDisplay, DM.getActiveDoubleScanMode.
  apply wp_bind. apply wp_bind, wp_get, wp_ret.
  fold (active_mode (page w)).
  apply wp_bind, wp_get. cbv beta zeta.
  match goal with
  | |- wp (bind _ ?k) _ _ _ =>
      assert (Hrest : forall result barcode idx v,
                dm v = advanced (dm w) -> page v = page w ->
                (exists gen, calls v = (calls w ++ gen)%list
                             /\ generation_calls gen) ->
                (DM.in_rotation (dm w) = true ->
                 idx = dm_rotationIndex (dm w)) ->
                wp (k (result, barcode, idx))
                  (fun _ w' => exists e, generated_from w e w')
                  (fun w' => dm_history w' = dm_history w) v)
  end.
  { intros result barcode idx v Hd Hp (gen1 & Hc & Hg1) Hidx.
    assert (Hhist : forall v', dm v' = dm v -> page v' = page v ->
              dm_history v' = dm_history w).
    { intros v' H1 H2. unfold dm_history. rewrite H1, H2, Hd, Hp.
      unfold advanced. destruct (DM.in_rotation (dm w)); reflexivity. }
    cbv beta iota. apply wp_bind.
    eapply wp_mono; [apply secondaryFor_wp | cbv beta |];
      [|intros v' (H1 & H2); now apply Hhist].
    intros [[dae ean] sec] v2 (Hd2 & Hp2 & (gen2 & Hc2 & Hg2) & Hean & Hnone).
    apply wp_bind, wp_get. cbv beta zeta.
    rewrite Hd2, Hd, in_rotation_advanced.
    assert (Hcalls : calls v2 = (calls w ++ (gen1 ++ gen2))%list)
      by (rewrite Hc2, Hc; now rewrite app_assoc).
    assert (Hgen : generation_calls (gen1 ++ gen2))
      by (apply Forall_app; now split).
    clear Hc Hc2 Hg1 Hg2.
    assert (Hprim :
              (if dae
               then [CallRenderBarcode "primary-ean13-barcode"
                       (match extractEAN13FromDM (r_code result) with
                        | Ok r => r
                        | Throw _ => None
                        end) "EAN13"]
               else [CallRenderDM "datamatrix-container"
                       (Some (r_code result))])
              = (if dae
                 then [CallRenderBarcode "primary-ean13-barcode" ean "EAN13"]
                 else [CallRenderDM "datamatrix-container"
                         (Some (r_code result))])).
    { destruct dae; [|reflexivity]. now rewrite (Hean eq_refl). }
    unfold DM.showCodeInfo, DM.renderPrimaryCode, DM.renderSecondaryCode,
      DM.updateCodeText.
    destruct (DM.in_rotation (dm w)) eqn:Hin;
      repeat wp_step;
      eexists; unfold generated_from, renders_of, secondary_text_of,
        secondary_renders;
      cbn [dm page calls with_dm with_page log_call code doubleScanMode
           rotationIdx primaryDisplayAsEan secondaryCode cc_barcode
           current_code secondary_code_text code_info set_current_code
           set_secondary_code_text set_code_info option_map info_barcode];
      rewrite ?Hd2, ?Hd, ?Hcalls, ?Hin, ?advanced_codes;
      (split; [reflexivity|]); (split; [reflexivity|]);
      (split; [try reflexivity; now apply Hidx|]);
      (split; [reflexivity|]); (split; [reflexivity|]);
      (split; [reflexivity|]);
      exists (gen1 ++ gen2)%list; (split; [|exact Hgen]);
      cbn [code doubleScanMode primaryDisplayAsEan secondaryCode];
      rewrite ?Hprim;
      repeat match goal with
             | H : (_ =? _) = _ |- _ => rewrite H
             end;
      (destruct (active_mode (page w));
       [|try discriminate (Hnone eq_refl)]);
      cbn [app]; rewrite <- ?app_assoc; cbn [app]; reflexivity. }
  apply wp_bind.
  destruct (DM.in_rotation (dm w)) eqn:Hin.
  - apply wp_bind, wp_item_at; [intros item _|intros _; reflexivity].
    apply wp_bind.
    eapply wp_mono; [apply generateDM_wp | cbv beta |];
      [|intros v (H1 & H2); unfold dm_history; now rewrite H1, H2].
    intros result v (Hd & Hp & Hgen).
    apply wp_bind, wp_modify, wp_ret. apply Hrest.
    + cbn [dm with_dm]. unfold advanced. now rewrite Hd, Hin.
    + exact Hp.
    + exact Hgen.
    + reflexivity.
  - apply wp_bind.
    eapply wp_mono; [apply generateDM_wp | cbv beta |];
      [|intros v (H1 & H2); unfold dm_history; now rewrite H1, H2].
    intros result v (Hd & Hp & Hgen). apply wp_ret. apply Hrest.
    + unfold advanced. now rewrite Hin.
    + exact Hp.
    + exact Hgen.
    + discriminate.
Qed.

Lemma displayFromCache_outside (E : Env) (index : Z) (w : World) :
  (index < 0 \/ Z.of_nat (List.length (dm_generatedCodes (dm w))) <= index)%Z ->
  DM.displayFromCache index w = (Ok tt, w).
Proof.
  intros H. unfold DM.displayFromCache, bind, get.
  destruct (Z.ltb_spec index 0); [reflexivity|].
  destruct (Z.leb_spec (Z.of_nat (List.length (dm_generatedCodes (dm w))))
              index); [reflexivity|lia].
Qed.

(** A replay renders the entry as it is recorded and writes its texts. *)
Lemma displayFromCache_replay (E : Env) (index : Z) (w : World)
    (e : CachedCode) :
  (0 <= index)%Z ->
  nth_error (dm_generatedCodes (dm w)) (Z.to_nat index) = Some e ->
  exists w',
    DM.displayFromCache index w = (Ok tt, w')
    /\ dm w' = set_codeHistoryIndex index (dm w)
    /\ calls w' = (calls w ++ renders_of e)%list
    /\ current_code (page w') = Some (code e)
    /\ secondary_code_text (page w') = secondary_text_of e
    /\ option_map info_barcode (code_info (page w')) = Some (cc_barcode e).
Proof.
  intros Hpos Hnth.
  assert (Hn : Z.to_nat index < List.length (dm_generatedCodes (dm w)))
    by (apply nth_error_Some; congruence).
  unfold DM.displayFromCache, bind, get.
  destruct (Z.ltb_spec index 0); [lia|].
  destruct (Z.leb_spec (Z.of_nat (List.length (dm_generatedCodes (dm w))))
              index); [lia|].
  cbn [orb]. unfold item_at. rewrite Hnth. unfold ret, modify, lift.
  destruct (extractEAN13FromDM_total (code e)) as [r Hr].
  unfold DM.renderPrimaryCode, DM.renderSecondaryCode, DM.updateCodeText,
    DM.showCodeInfo, bind, modify, ret, renders_of, secondary_renders,
    secondary_text_of.
  rewrite Hr.
  destruct (primaryDisplayAsEan e), (doubleScanMode e),
    (secondaryCode e) as [s|];
    try destruct (sc_type s =? "DM"); try destruct (sc_type s =? "EAN13");
    eexists; (split; [reflexivity|]);
    cbn [dm page calls with_dm with_page log_call current_code
         secondary_code_text code_info set_current_code
         set_secondary_code_text set_code_info option_map info_barcode app];
    rewrite <- ?app_assoc, ?app_nil_r; cbn [app]; repeat split; reflexivity.
Qed.

(** X26: a generation that returns appends exactly one entry to the
    history and puts the cursor on it. The entry records the double-scan
    mode the boxes select and, as its index, the rotation cursor (in a
    rotation) or its own position in the history; its code and the code
    of its secondary are the texts on the page, its barcode is in the
    information panel, and the calls made are generations and log entries
    followed by the renderings of the entry. A generation that throws
    leaves the history, its cursor and the texts as they were. *)
Theorem generation_outcome (E : Env) (w : World) :
  match DM.generateAndDisplay w with
  | (Ok _, w') =>
      exists e,
        dm_generatedCodes (dm w') = (dm_generatedCodes (dm w) ++ [e])%list
        /\ dm_codeHistoryIndex (dm w')
           = Z.of_nat (List.length (dm_generatedCodes (dm w)))
        /\ doubleScanMode e = active_mode (page w)
        /\ rotationIdx e
           = (if DM.in_rotation (dm w) then dm_rotationIndex (dm w)
              else List.length (dm_generatedCodes (dm w)))
        /\ current_code (page w') = Some (code e)
        /\ secondary_code_text (page w') = secondary_text_of e
        /\ option_map info_barcode (code_info (page w'))
           = Some (cc_barcode e)
        /\ exists gen,
             calls w' = (calls w ++ gen ++ renders_of e)%list
             /\ generation_calls gen
  | (Throw _, w') => dm_history w' = dm_history w
  end.
Proof.
  pose proof (generateAndDisplay_wp E w) as H. unfold wp in H.
  destruct (DM.generateAndDisplay w) as [[[]|err] w']; [|exact H].
  destruct H as (e & Hd & Hrest). exists e.
  rewrite Hd. unfold DM.push_code.
  cbn [dm_generatedCodes dm_codeHistoryIndex set_codeHistoryIndex
       set_generatedCodes].
  rewrite advanced_codes, List.length_app. cbn [List.length].
  split; [reflexivity|]. split; [lia|]. exact Hrest.
Qed.

(** X27: a replay draws what the generation drew. The entry a generation
    pushed is displayed by [displayFromCache], from any later state that
    holds it at index [i], with the same rendering calls (primary code
    as DataMatrix or as EAN-13, then the secondary code) and the same two
    code texts as when it was generated; the replay moves the cursor to
    [i] and leaves the history, the timer, the rotation, the selected
    template, the boxes and the GS1 carousel as they are. An index
    outside the history replays nothing and changes nothing. *)
Theorem replay_fidelity (E : Env) (w w1 : World)
    (Hrun : DM.generateAndDisplay w = (Ok tt, w1)) :
  exists e,
    nth_error (dm_generatedCodes (dm w1))
      (List.length (dm_generatedCodes (dm w))) = Some e
    /\ current_code (page w1) = Some (code e)
    /\ secondary_code_text (page w1) = secondary_text_of e
    /\ (exists gen, calls w1 = (calls w ++ gen ++ renders_of e)%list
                    /\ generation_calls gen)
    /\ (forall (v : World) (i : nat),
         nth_error (dm_generatedCodes (dm v)) i = Some e ->
         let v' := exec (DM.displayFromCache (Z.of_nat i)) v in
         calls v' = (calls v ++ renders_of e)%list
         /\ current_code (page v') = current_code (page w1)
         /\ secondary_code_text (page v') = secondary_code_text (page w1)
         /\ dm_codeHistoryIndex (dm v') = Z.of_nat i
         /\ dm_generatedCodes (dm v') = dm_generatedCodes (dm v)
         /\ dm_display_frame v' = dm_display_frame v)
    /\ forall (v : World) (index : Z),
         (index < 0
          \/ Z.of_nat (List.length (dm_generatedCodes (dm v))) <= index)%Z ->
         DM.displayFromCache index v = (Ok tt, v).
Proof.
  pose proof (generateAndDisplay_wp E w) as H. unfold wp in H.
  rewrite Hrun in H.
  destruct H as (e & Hd & _ & _ & Hcur & Hsec & _ & Hcalls).
  exists e.
  split; [|split; [exact Hcur|split; [exact Hsec|split; [|split]]]].
  - rewrite Hd. unfold DM.push_code.
    cbn [dm_generatedCodes set_codeHistoryIndex set_generatedCodes].
    rewrite advanced_codes, nth_error_app2, Nat.sub_diag by lia.
    reflexivity.
  - exact Hcalls.
  - intros v i Hnth v'.
    destruct (displayFromCache_replay E (Z.of_nat i) v e ltac:(lia))
      as (v1 & Hrun1 & Hd1 & Hc1 & Hcur1 & Hsec1 & _);
      [now rewrite Nat2Z.id|].
    pose proof (frame_displayFromCache E (Z.of_nat i) v) as Hframe.
    unfold v', exec. rewrite Hrun1 in Hframe |- *. cbn [snd] in Hframe |- *.
    rewrite Hc1, Hcur1, Hsec1, Hcur, Hsec, Hd1.
    repeat split; try reflexivity. exact Hframe.
  - intros v index. apply displayFromCache_outside.
Qed.

Lemma replay_fidelity_witness :
  let w1 := exec (DM.generateAndDisplay (E := Sample.env)) Sample.world in
  current_code
    (page (exec (DM.displayFromCache (E := Sample.env) 0) w1))
  = current_code (page w1).
Proof.
  destruct (replay_fidelity Sample.env Sample.world
              (exec (DM.generateAndDisplay (E := Sample.env)) Sample.world)
              eq_refl) as (e & Hnth & _ & _ & _ & Hreplay & _).
  destruct (Hreplay
              (exec (DM.generateAndDisplay (E := Sample.env)) Sample.world)
              0 Hnth) as (_ & H & _).
  exact H.
Defined.

(** ** Next and Previous over a complete history *)

Lemma manualNext_cached (E : Env) (w : World) (c : nat) :
  let n := List.length (dm_rotationList (dm w)) in
  0 < n -> n <= List.length (dm_generatedCodes (dm w)) ->
  dm_codeHistoryIndex (dm w) = Z.of_nat c ->
  DM.manualNext w = DM.displayFromCache (Z.of_nat (S c mod n)) w.
Proof.
  intros n Hn Hfull Hc. unfold DM.manualNext, bind, get. fold n.
  destruct (Nat.ltb_spec 0 n); [|lia].
  destruct (Nat.leb_spec n (List.length (dm_generatedCodes (dm w))));
    [|lia].
  cbn [andb]. rewrite Hc, Z.rem_mod_nonneg by lia.
  rewrite Nat2Z.inj_mod. do 2 f_equal. lia.
Qed.

Lemma manualPrev_cached (E : Env) (w : World) (c : nat) :
  let n := List.length (dm_rotationList (dm w)) in
  0 < n -> n <= List.length (dm_generatedCodes (dm w)) ->
  dm_codeHistoryIndex (dm w) = Z.of_nat c -> c < n ->
  DM.manualPrev w = DM.displayFromCache (Z.of_nat ((c + n - 1) mod n)) w.
Proof.
  intros n Hn Hfull Hc Hlt. unfold DM.manualPrev, bind, get. fold n.
  destruct (Nat.ltb_spec 0 n); [|lia].
  destruct (Nat.leb_spec n (List.length (dm_generatedCodes (dm w))));
    [|lia].
  cbn [andb]. rewrite Hc. f_equal.
  destruct (Z.ltb_spec (Z.of_nat c - 1) 0).
  - assert (c = 0) by lia. subst c. cbn [Nat.add].
    rewrite Nat.mod_small by lia. lia.
  - replace (c + n - 1) with (c - 1 + 1 * n) by lia.
    rewrite Nat.Div0.mod_add, Nat.mod_small by lia. lia.
Qed.

(** A replay by [manualNext] or [manualPrev]: the cursor moves to [j] and
    the entry [j] is displayed. *)
Lemma replay_step (E : Env) (w : World) (j : nat) (c : M unit) :
  c w = DM.displayFromCache (Z.of_nat j) w ->
  j < List.length (dm_generatedCodes (dm w)) ->
  fst (c w) = Ok tt
  /\ dm (exec c w) = set_codeHistoryIndex (Z.of_nat j) (dm w)
  /\ current_code (page (exec c w))
     = option_map code (nth_error (dm_generatedCodes (dm w)) j)
  /\ secondary_code_text (page (exec c w))
     = match nth_error (dm_generatedCodes (dm w)) j with
       | Some e => secondary_text_of e
       | None => None
       end
  /\ count_generated (exec c w) = count_generated w.
Proof.
  intros Hc Hj.
  destruct (nth_error (dm_generatedCodes (dm w)) j) as [e|] eqn:Hnth;
    [|apply nth_error_None in Hnth; lia].
  destruct (displayFromCache_in_range E (Z.of_nat j) w e)
    as (w' & Hrun & _ & _ & _ & _ & _ & _ & _ & _ & Hgen & _);
    [now rewrite Nat2Z.id | lia |].
  destruct (displayFromCache_replay E (Z.of_nat j) w e ltac:(lia))
    as (w2 & Hrun2 & Hd & _ & Hcur & Hsec & _); [now rewrite Nat2Z.id|].
  assert (w2 = w') by congruence. subst w2.
  unfold exec. rewrite Hc, Hrun. cbn [fst snd option_map].
  repeat split; assumption.
Qed.

Lemma set_codeHistoryIndex_back (d : DmState) (i j : Z) :
  dm_codeHistoryIndex d = j ->
  set_codeHistoryIndex j (set_codeHistoryIndex i d) = d.
Proof. intros <-. destruct d. reflexivity. Qed.

(** X28: once a rotation has generated a code for every item, Next and
    Previous only replay: Next moves the cursor from entry [c] to entry
    [(c + 1) mod n] and Previous to [(c - 1) mod n], [n] being the number
    of items, each showing the code of the entry it moves to; Previous
    after Next, and Next after Previous, restore the session and the code
    shown, and nothing is generated. *)
Theorem dm_next_prev_round_trip (E : Env) (w : World) (c : nat)
    (Hrotation : 0 < List.length (dm_rotationList (dm w)))
    (Hfull : List.length (dm_rotationList (dm w))
             <= List.length (dm_generatedCodes (dm w)))
    (Hcursor : dm_codeHistoryIndex (dm w) = Z.of_nat c)
    (Hc : c < List.length (dm_rotationList (dm w))) :
  let n := List.length (dm_rotationList (dm w)) in
  let codes := dm_generatedCodes (dm w) in
  let next := exec DM.manualNext w in
  let prev := exec DM.manualPrev w in
  dm next = set_codeHistoryIndex (Z.of_nat (S c mod n)) (dm w)
  /\ current_code (page next) = option_map code (nth_error codes (S c mod n))
  /\ dm prev = set_codeHistoryIndex (Z.of_nat ((c + n - 1) mod n)) (dm w)
  /\ current_code (page prev)
     = option_map code (nth_error codes ((c + n - 1) mod n))
  /\ dm (exec DM.manualPrev next) = dm w
  /\ current_code (page (exec DM.manualPrev next))
     = option_map code (nth_error codes c)
  /\ dm (exec DM.manualNext prev) = dm w
  /\ current_code (page (exec DM.manualNext prev))
     = option_map code (nth_error codes c)
  /\ count_generated (exec DM.manualPrev next) = count_generated w
  /\ count_generated (exec DM.manualNext prev) = count_generated w.
Proof.
  intros n codes next prev.
  assert (Hn1 : S c mod n < n) by (apply Nat.mod_upper_bound; lia).
  assert (Hn2 : (c + n - 1) mod n < n) by (apply Nat.mod_upper_bound; lia).
  destruct (replay_step E w (S c mod n) DM.manualNext)
    as (_ & Hd1 & Hc1 & _ & Hg1);
    [now apply manualNext_cached | fold n; lia |].
  destruct (replay_step E w ((c + n - 1) mod n) DM.manualPrev)
    as (_ & Hd2 & Hc2 & _ & Hg2);
    [now apply manualPrev_cached | fold n; lia |].
  fold next in Hd1, Hc1, Hg1. fold prev in Hd2, Hc2, Hg2.
  fold codes in Hc1, Hc2.
  assert (Hj1 : (S c mod n + n - 1) mod n = c).
  { destruct (Nat.eq_dec (S c) n) as [Heq|Hne].
    - rewrite Heq, Nat.Div0.mod_same. cbn [Nat.add].
      rewrite Nat.mod_small by lia. lia.
    - rewrite (Nat.mod_small (S c)) by lia.
      replace (S c + n - 1) with (c + 1 * n) by lia.
      rewrite Nat.Div0.mod_add. apply Nat.mod_small. lia. }
  assert (Hj2 : S ((c + n - 1) mod n) mod n = c).
  { destruct (Nat.eq_dec c 0) as [->|Hne].
    - cbn [Nat.add]. rewrite (Nat.mod_small (n - 1)) by lia.
      replace (S (n - 1)) with n by lia. apply Nat.Div0.mod_same.
    - replace (c + n - 1) with (c - 1 + 1 * n) by lia.
      rewrite Nat.Div0.mod_add, (Nat.mod_small (c - 1)) by lia.
      replace (S (c - 1)) with c by lia. apply Nat.mod_small. lia. }
  destruct (replay_step E next c DM.manualPrev)
    as (_ & Hd3 & Hc3 & _ & Hg3).
  { pose proof (manualPrev_cached E next (S c mod n)) as Hp.
    cbv zeta in Hp. rewrite Hd1 in Hp.
    cbn [dm_rotationList dm_generatedCodes dm_codeHistoryIndex
         set_codeHistoryIndex] in Hp.
    fold n in Hp. rewrite Hj1 in Hp. apply Hp; lia. }
  { rewrite Hd1. cbn. fold n. lia. }
  destruct (replay_step E prev c DM.manualNext)
    as (_ & Hd4 & Hc4 & _ & Hg4).
  { pose proof (manualNext_cached E prev ((c + n - 1) mod n)) as Hp.
    cbv zeta in Hp. rewrite Hd2 in Hp.
    cbn [dm_rotationList dm_generatedCodes dm_codeHistoryIndex
         set_codeHistoryIndex] in Hp.
    fold n in Hp. rewrite Hj2 in Hp. apply Hp; lia. }
  { rewrite Hd2. cbn. fold n. lia. }
  rewrite Hd1 in Hd3, Hc3. rewrite Hd2 in Hd4, Hc4.
  cbn [dm_generatedCodes set_codeHistoryIndex] in Hc3, Hc4.
  fold codes in Hc3, Hc4.
  repeat split; try assumption; try congruence.
  - rewrite Hd3. now apply set_codeHistoryIndex_back.
  - rewrite Hd4. now apply set_codeHistoryIndex_back.
Qed.

Lemma dm_next_prev_round_trip_witness :
  let w := nexts (E := Sample.env) 1
             (exec (DM.startRotation (E := Sample.env)) Sample.world) in
  dm (exec (DM.manualPrev (E := Sample.env))
        (exec (DM.manualNext (E := Sample.env)) w))
  = dm w.
Proof.
  refine (proj1 (proj2 (proj2 (proj2 (proj2
            (dm_next_prev_round_trip Sample.env _ 1 _ _ _ _))))));
    vm_compute; first [reflexivity | lia].
Defined.

(** ** Stopping a rotation *)

Lemma generateDM_unknown (E : Env) (barcode templateId : option string)
    (w : World) :
  TEMPLATES (match truthy templateId with
             | Some id => id
             | None => dm_selectedTemplate (dm w)
             end) = None ->
  fst (generateDM barcode templateId w) = Throw TypeError.
Proof.
  intros Ht. unfold generateDM, bind, get. rewrite Ht.
  destruct (truthy barcode); reflexivity.
Qed.

Lemma generateAndDisplay_demo_unknown (E : Env) (w : World) :
  DM.in_rotation (dm w) = false ->
  TEMPLATES (dm_selectedTemplate (dm w)) = None ->
  fst (DM.generateAndDisplay w) = Throw TypeError.
Proof.
  intros Hin Ht.
  pose proof (generateDM_unknown E None None w Ht) as Hgen.
  unfold DM.generateAndDisplay, DM.getActiveDoubleScanMode.
  unfold bind at 1. unfold bind at 1. unfold get at 1. unfold ret at 1.
  unfold bind at 1. unfold get at 1. rewrite Hin.
  unfold bind at 1. unfold bind at 1.
  destruct (generateDM None None w) as [[r|e] w1]; cbn [fst] in Hgen;
    [discriminate|].
  cbn [fst]. injection Hgen as ->. reflexivity.
Qed.

(** X29: [stopRotation] ends the rotation and stops the timer without
    restarting it: afterwards no rotation is on, the rotation list is
    empty, no interval is armed and the play button is shown. If the
    selected template exists the call returns and the history holds one
    fresh demo code, displayed, with the cursor on it; if it does not, the
    call throws a TypeError after the reset: the history is empty, the
    cursor at -1, the information panel hidden and the code text still
    the one of the rotation. *)
Theorem stopRotation_effect (E : Env) (w : World) :
  let w' := exec DM.stopRotation w in
  dm_isRotating (dm w') = false
  /\ dm_rotationList (dm w') = []
  /\ dm_timerInterval (dm w') = None
  /\ dm_play_state (page w') = false
  /\ match TEMPLATES (dm_selectedTemplate (dm w)) with
     | Some _ =>
         fst (DM.stopRotation w) = Ok tt
         /\ exists e,
              dm_generatedCodes (dm w') = [e]
              /\ dm_codeHistoryIndex (dm w') = 0%Z
              /\ rotationIdx e = 0
              /\ current_code (page w') = Some (code e)
              /\ option_map info_barcode (code_info (page w'))
                 = Some (cc_barcode e)
     | None =>
         fst (DM.stopRotation w) = Throw TypeError
         /\ dm_generatedCodes (dm w') = []
         /\ dm_codeHistoryIndex (dm w') = (-1)%Z
         /\ code_info (page w') = None
         /\ current_code (page w') = current_code (page w)
     end.
Proof.
  intros w'.
  pose proof (stopRotation_stopped E w) as Hstop.
  assert (Hw' : w' = snd (DM.generateAndDisplay (stopped w)))
    by (unfold w', exec; now rewrite Hstop).
  clearbody w'.
  pose proof (frame_generateAndDisplay E (stopped w)) as Hframe.
  pose proof (generateAndDisplay_wp E (stopped w)) as Hout.
  rewrite <- Hw' in Hframe.
  unfold dm_display_frame, gs1_view in Hframe.
  cbn [stopped dm page with_dm with_page dm_isRotating dm_rotationList
       dm_timerInterval dm_play_state set_code_info set_codeHistoryIndex
       set_generatedCodes set_rotationIndex set_rotationList
       set_dm_play_state set_timerInterval set_isRotating] in Hframe.
  assert (Hrot : dm_isRotating (dm w') = false)
    by (injection Hframe; intros; assumption).
  assert (Hlist : dm_rotationList (dm w') = [])
    by (injection Hframe; intros; assumption).
  assert (Hinterval : dm_timerInterval (dm w') = None)
    by (injection Hframe; intros; assumption).
  assert (Hplay : dm_play_state (page w') = false)
    by (injection Hframe; intros; assumption).
  clear Hframe.
  split; [exact Hrot|]. split; [exact Hlist|]. split; [exact Hinterval|].
  split; [exact Hplay|].
  rewrite Hstop.
  destruct (TEMPLATES (dm_selectedTemplate (dm w))) as [t|] eqn:Ht.
  - pose proof (generateAndDisplay_returns E (stopped w)) as Hret.
    unfold wp in Hret, Hout.
    destruct (DM.generateAndDisplay (stopped w)) as [[[]|err] v];
      cbn [snd] in Hw'.
    2:{ exfalso. apply Hret; [reflexivity| |constructor].
        cbn. now rewrite Ht. }
    subst v. split; [reflexivity|].
    destruct Hout as (e & Hd & _ & Hidx & Hcur & _ & Hinfo & _).
    exists e. rewrite Hd. repeat split; assumption.
  - pose proof (generateAndDisplay_demo_unknown E (stopped w) eq_refl Ht)
      as Hthrow.
    unfold wp in Hout.
    destruct (DM.generateAndDisplay (stopped w)) as [[[]|err] v];
      cbn [snd] in Hw'; cbn [fst] in Hthrow; [discriminate|].
    subst v. split; [exact Hthrow|].
    unfold dm_history in Hout. injection Hout as H1 H2 H3 _ H5.
    repeat split; assumption.
Qed.

(** ** The double-scan boxes *)

(** X30: the change handler of a double-scan box keeps the boxes
    exclusive. When the box has just been checked, the three others are
    unchecked, exactly one box is checked and the active mode is the one
    of the box; when it has just been unchecked, the others are left as
    they are, so that with at most one box checked before none is checked
    and no mode is active. This holds whether or not the generation that
    follows throws. *)
Theorem double_scan_boxes_exclusive (E : Env) (box : Main.Checkbox)
    (w : World) :
  let w' := exec (Main.handle (Main.DoubleScanChange box)) w in
  (forall b,
     Main.checked b (page w')
     = if Main.same_box b box then negb (Main.checked box (page w))
       else Main.checked box (page w) && Main.checked b (page w))
  /\ (Main.checked box (page w) = false ->
      active_mode (page w') = Some (mode_of box)
      /\ boxes_checked (page w') = 1)
  /\ (Main.checked box (page w) = true ->
      boxes_checked (page w) <= 1 ->
      active_mode (page w') = None /\ boxes_checked (page w') = 0).
Proof.
  intros w'.
  pose proof (double_scan_change_page E box w) as Hf. cbv zeta in Hf.
  fold w' in Hf.
  assert (Hall : forall b,
            Main.checked b (page w')
            = if Main.same_box b box then negb (Main.checked box (page w))
              else Main.checked box (page w) && Main.checked b (page w)).
  { intros b. rewrite (boxes_frame _ _ Hf b). cbn [page with_page].
    apply toggle_box. }
  split; [exact Hall|].
  pose proof (Hall Main.BoxSameDM) as H1.
  pose proof (Hall Main.BoxDmEan) as H2.
  pose proof (Hall Main.BoxSameEan) as H3.
  pose proof (Hall Main.BoxDifferentDM) as H4.
  clearbody w'. clear Hf Hall.
  unfold active_mode, boxes_checked. cbn [filter Main.checked].
  cbn [Main.checked] in H1, H2, H3, H4.
  split.
  - intros Hbox. rewrite H1, H2, H3, H4, Hbox.
    destruct box; cbn; split; reflexivity.
  - intros Hbox Hone. rewrite H1, H2, H3, H4.
    unfold boxes_checked in Hone. clear H1 H2 H3 H4.
    destruct box; cbn [Main.checked Main.same_box filter] in *;
      destruct (doubleScanSameDM (page w)), (doubleScanDmEan (page w)),
        (doubleScanSameEan (page w)), (doubleScanDifferentDM (page w));
      cbn in Hone |- *; try discriminate; try lia; split; reflexivity.
Qed.
